(** * A shallow embedding of the gacha system (DDD x event-driven demo)

    The development follows the TypeScript sources:
    - [Rarity]            src/domain/value-objects/Rarity.ts
    - [GachaItem]         src/domain/entities/GachaItem.ts
    - [DomainEvent]       src/domain/events/*Event.ts
    - [Player]            src/domain/entities/Player.ts
    - [SimpleGachaMachine], [GachaService]   src/gacha-system-demo.ts
    - [EventDispatcher]   src/infrastructure/events/EventDispatcher.ts

    Modelling conventions.
    - A JavaScript [number] holding a currency amount is an integer of [Z]
      (the amounts of the program are integers); a weight and the random
      draw value are rationals of [Q].  NaN, infinities and rounding are
      outside these two models: a statement that depends on them is made on
      [Binary64], which embeds the same code on the IEEE 754 doubles
      ([float]) that the numbers of JavaScript are.
    - A JavaScript string is a [string] that holds its UTF-8 encoding, as
      the sources do; [trim] strips the white space of ECMAScript from the
      characters that [codePoints] decodes.
    - A method that can throw, or that mutates its object, is a computation
      of the monad [M S A := S -> (Error + A) * S]: the state survives an
      exception, exactly as a JavaScript object keeps the mutations made
      before a [throw].  A getter or a method that only reads is a function
      of the state.
    - An [async] function with no [await] of its own is its synchronous
      body.  The handlers of one event, which [Promise.all] starts together,
      run here one after the other in registration order, each to its end;
      this is what the code does when one handler at most is registered
      under the name of the event, as in the demo.
    - A plain object used as a map ([rarityBreakdown], [spendingByReason],
      [priceMap]) is a [gmap], which is what the code does at the keys that
      are not member names of [Object.prototype].
    - [GachaItem] is the version of the class that has [equals], the one
      [Player] calls.
    - [console.log] output, the [Date] stamps and the event identifiers that
      the [DomainEvent] base class assigns are not modelled. *)

From Stdlib Require Import ZArith QArith Lia Lqa Ascii String Floats.
From stdpp Require Import gmap strings list.

Local Open Scope string_scope.
Local Open Scope list_scope.
Local Open Scope Z_scope.

(** ** Errors and the state-and-exception monad *)

(** One constructor per [throw new Error(...)] of the sources, carrying the
    values interpolated in its message. *)
Inductive Error : Type :=
| InvalidRarity (rarity : string)
| GachaItemIdEmpty
| GachaItemNameEmpty
| PlayerIdEmpty
| PlayerNameEmpty
| NegativeGachaCurrency
| ItemAlreadyOwned (name id : string)
| ItemNotOwned (name id : string)
| ItemRemovalFailed (id : string)
| InvalidAddAmount (amount : Z)
| InvalidSpendAmount (amount : Z)
| InsufficientBalance (required balance : Z)
| UndefinedFallback
| HandlerError (message : string).

Definition Result (A : Type) : Type := (Error + A)%type.

Definition M (S A : Type) : Type := S -> Result A * S.

Definition ret {S A} (a : A) : M S A := fun s => (inr a, s).
Definition throw {S A} (e : Error) : M S A := fun s => (inl e, s).
Definition bind {S A B} (c : M S A) (k : A -> M S B) : M S B :=
  fun s => match c s with
           | (inr a, s') => k a s'
           | (inl e, s') => (inl e, s')
           end.
Definition gets {S A} (f : S -> A) : M S A := fun s => (inr (f s), s).
Definition modify {S} (f : S -> S) : M S unit := fun s => (inr tt, f s).
Definition liftResult {S A} (r : Result A) : M S A := fun s => (r, s).

Declare Scope gacha_scope.
Delimit Scope gacha_scope with gacha.
Notation "'do' x <- c ; k" := (bind c (fun x => k))
  (at level 10, x name, c at level 100, k at level 200) : gacha_scope.
Notation "c ;; k" := (bind c (fun _ => k))
  (at level 100, k at level 200, right associativity) : gacha_scope.
Local Open Scope gacha_scope.

Definition succeeds {A S} (r : Result A * S) : Prop :=
  exists a, fst r = inr a.
Definition fails {A S} (r : Result A * S) : Prop :=
  exists e, fst r = inl e.

(** The binding of [Result], for code that throws but has no state. *)
Definition rbind {A B} (r : Result A) (k : A -> Result B) : Result B :=
  match r with
  | inr a => k a
  | inl e => inl e
  end.

(** ** Strings: [String.prototype.trim]

    A string holds its UTF-8 encoding, as the sources do; [trim] reads its
    characters, which [codePoints] decodes. *)

(** A byte [10xxxxxx], which continues a character. *)
Definition isContinuation (c : ascii) : bool :=
  let b := N_of_ascii c in ((128 <=? b) && (b <? 192))%N.

(** The characters of a string: one code point for each well-formed UTF-8
    sequence (shortest form, no surrogate), and U+FFFD for a byte that
    starts none. *)
Fixpoint codePoints (s : string) : list N :=
  match s with
  | EmptyString => []
  | String c0 s0 =>
      let b0 := N_of_ascii c0 in
      let malformed := 0xFFFD%N :: codePoints s0 in
      if (b0 <? 128)%N then b0 :: codePoints s0
      else if ((194 <=? b0) && (b0 <? 224))%N then
        match s0 with
        | String c1 s1 =>
            if isContinuation c1
            then ((b0 mod 32) * 64 + N_of_ascii c1 mod 64)%N :: codePoints s1
            else malformed
        | _ => malformed
        end
      else if ((224 <=? b0) && (b0 <? 240))%N then
        match s0 with
        | String c1 (String c2 s2) =>
            let c := (((b0 mod 16) * 64 + N_of_ascii c1 mod 64) * 64
                      + N_of_ascii c2 mod 64)%N in
            if isContinuation c1 && isContinuation c2
               && (0x800 <=? c)%N && ((c <? 0xD800) || (0xDFFF <? c))%N
            then c :: codePoints s2
            else malformed
        | _ => malformed
        end
      else if ((240 <=? b0) && (b0 <? 245))%N then
        match s0 with
        | String c1 (String c2 (String c3 s3)) =>
            let c := ((((b0 mod 8) * 64 + N_of_ascii c1 mod 64) * 64
                       + N_of_ascii c2 mod 64) * 64
                      + N_of_ascii c3 mod 64)%N in
            if isContinuation c1 && isContinuation c2 && isContinuation c3
               && (0x10000 <=? c)%N && (c <=? 0x10FFFF)%N
            then c :: codePoints s3
            else malformed
        | _ => malformed
        end
      else malformed
  end.

(** WhiteSpace and LineTerminator of ECMAScript, the characters that [trim]
    strips: TAB, LF, VT, FF, CR, SP, NBSP, the other space separators of
    Unicode (U+1680, U+2000 to U+200A, U+202F, U+205F, U+3000), LS, PS and
    the byte order mark U+FEFF. *)
Definition isWhiteSpace (c : N) : bool :=
  ((9 <=? c) && (c <=? 13) || (c =? 32) || (c =? 0xA0) || (c =? 0x1680)
   || (0x2000 <=? c) && (c <=? 0x200A) || (c =? 0x2028) || (c =? 0x2029)
   || (c =? 0x202F) || (c =? 0x205F) || (c =? 0x3000) || (c =? 0xFEFF))%N.

Fixpoint trimStart (s : list N) : list N :=
  match s with
  | [] => []
  | c :: rest => if isWhiteSpace c then trimStart rest else s
  end.

Definition trimEnd (s : list N) : list N :=
  List.rev (trimStart (List.rev s)).

Definition trim (s : list N) : list N := trimEnd (trimStart s).

(** [!s || s.trim() === ''] : the empty string is the only falsy string. *)
Definition isBlank (s : string) : bool :=
  String.eqb s "" ||
  match trim (codePoints s) with
  | [] => true
  | _ :: _ => false
  end.

(** ** Rarity (value object) *)

Module Rarity.

Record t : Type := mk {
  _value : string;
  _rate : Q;
  _displayName : string
}.

Definition VALID_RARITIES : list string := ["N"; "R"; "SR"; "SSR"; "UR"].

(** The table of rates, read at a valid rarity only ([create] checks). *)
Definition DEFAULT_RATES (rarity : string) : Q :=
  if String.eqb rarity "N" then 50
  else if String.eqb rarity "R" then 30
  else if String.eqb rarity "SR" then 15
  else if String.eqb rarity "SSR" then 4
  else 1.

Definition isValidRarity (rarity : string) : bool :=
  existsb (String.eqb rarity) VALID_RARITIES.

(** The table of display names, read at a valid rarity only. *)
Definition getDisplayName (rarity : string) : string :=
  if String.eqb rarity "N" then "ノーマル"
  else if String.eqb rarity "R" then "レア"
  else if String.eqb rarity "SR" then "スーパーレア"
  else if String.eqb rarity "SSR" then "スーパースペシャルレア"
  else "ウルトラレア".

Definition create (rarity : string) : Result t :=
  if negb (isValidRarity rarity) then inl (InvalidRarity rarity)
  else inr (mk rarity (DEFAULT_RATES rarity) (getDisplayName rarity)).

Definition value (r : t) : string := _value r.
Definition rate (r : t) : Q := _rate r.
Definition displayName (r : t) : string := _displayName r.

Definition equals (r other : t) : bool :=
  String.eqb (_value r) (_value other).

(** [Array.prototype.indexOf], [-1] when absent. *)
Fixpoint indexOf (x : string) (l : list string) (i : Z) : Z :=
  match l with
  | [] => -1
  | y :: l' => if String.eqb y x then i else indexOf x l' (i + 1)
  end.

Definition isHigherThan (r other : t) : bool :=
  let thisIndex := indexOf (_value r) VALID_RARITIES 0 in
  let otherIndex := indexOf (_value other) VALID_RARITIES 0 in
  otherIndex <? thisIndex.

End Rarity.

(** ** GachaItem (entity, identified by its id) *)

Module GachaItem.

Record t : Type := mk {
  _id : string;
  _itemName : string;
  _rarity : Rarity.t;
  _description : string
}.

(** The constructor, with its two validations. *)
Definition new (id name : string) (rarity : Rarity.t)
    (description : string) : Result t :=
  if isBlank id then inl GachaItemIdEmpty
  else if isBlank name then inl GachaItemNameEmpty
  else inr (mk id name rarity description).

Definition id (i : t) : string := _id i.
Definition name (i : t) : string := _itemName i.
Definition rarity (i : t) : Rarity.t := _rarity i.
Definition description (i : t) : string := _description i.

Definition equals (i other : t) : bool := String.eqb (_id i) (_id other).

End GachaItem.

(** ** Domain events (one variant per subclass of [DomainEvent]) *)

Inductive ExecutionType : Type := single | ten_pull.

Inductive DomainEvent : Type :=
| CurrencySpentEvent (playerId : string) (amount remainingBalance : Z)
    (spendingReason : string) (relatedItemId : option string)
| GachaExecutedEvent (playerId : string) (gachaCost : Z)
    (executionType : ExecutionType)
| ItemObtainedEvent (playerId itemId itemName rarity : string)
    (isFirstTime : bool).

Definition getEventName (e : DomainEvent) : string :=
  match e with
  | CurrencySpentEvent _ _ _ _ _ => "CurrencySpent"
  | GachaExecutedEvent _ _ _ => "GachaExecuted"
  | ItemObtainedEvent _ _ _ _ _ => "ItemObtained"
  end.

(** ** Player (entity) *)

Module Player.

Record t : Type := mk {
  _id : string;
  _playerName : string;
  _gachaCurrency : Z;
  _inventory : list GachaItem.t;
  _events : list DomainEvent
}.

Definition new (id playerName : string) (gachaCurrency : Z) : Result t :=
  if isBlank id then inl PlayerIdEmpty
  else if isBlank playerName then inl PlayerNameEmpty
  else if gachaCurrency <? 0 then inl NegativeGachaCurrency
  else inr (mk id playerName gachaCurrency [] []).

Definition id (p : t) : string := _id p.
Definition playerName (p : t) : string := _playerName p.
Definition gachaCurrency (p : t) : Z := _gachaCurrency p.
Definition inventory (p : t) : list GachaItem.t := _inventory p.

Definition set_inventory (inv : list GachaItem.t) (p : t) : t :=
  mk (_id p) (_playerName p) (_gachaCurrency p) inv (_events p).
Definition set_gachaCurrency (c : Z) (p : t) : t :=
  mk (_id p) (_playerName p) c (_inventory p) (_events p).
Definition set_events (es : list DomainEvent) (p : t) : t :=
  mk (_id p) (_playerName p) (_gachaCurrency p) (_inventory p) es.

Definition hasItem (item : GachaItem.t) (p : t) : bool :=
  existsb (fun inventoryItem => GachaItem.equals inventoryItem item)
          (_inventory p).

Definition addItem (item : GachaItem.t) : M t unit :=
  do owned <- gets (hasItem item);
  if owned : bool
  then throw (ItemAlreadyOwned (GachaItem.name item) (GachaItem.id item))
  else modify (fun p => set_inventory (_inventory p ++ [item]) p).

Definition removeItem (item : GachaItem.t) : M t unit :=
  do owned <- gets (hasItem item);
  if negb owned
  then throw (ItemNotOwned (GachaItem.name item) (GachaItem.id item))
  else
    do initialLength <- gets (fun p => length (_inventory p));
    modify (fun p =>
      set_inventory
        (List.filter
           (fun inventoryItem => negb (GachaItem.equals inventoryItem item))
           (_inventory p)) p) ;;
    do newLength <- gets (fun p => length (_inventory p));
    if (newLength =? initialLength)%nat
    then throw (ItemRemovalFailed (GachaItem.id item))
    else ret tt.

Definition addCurrency (amount : Z) : M t unit :=
  if amount <? 0 then throw (InvalidAddAmount amount)
  else modify (fun p => set_gachaCurrency (_gachaCurrency p + amount) p).

Definition addEvent (event : DomainEvent) : M t unit :=
  modify (fun p => set_events (_events p ++ [event]) p).

Definition spendCurrency (amount : Z) (reason : string) : M t unit :=
  if amount <? 0 then throw (InvalidSpendAmount amount)
  else
    do balance <- gets _gachaCurrency;
    if balance <? amount then throw (InsufficientBalance amount balance)
    else
      modify (fun p => set_gachaCurrency (_gachaCurrency p - amount) p) ;;
      do event <- gets (fun p =>
        CurrencySpentEvent (_id p) amount (_gachaCurrency p) reason None);
      addEvent event.

Definition canAffordGacha (cost : Z) (p : t) : bool :=
  (cost <=? _gachaCurrency p) && (0 <=? cost).

(** [getEvents] returns a copy of the queue: later pushes on the queue do
    not show in a batch already returned. *)
Definition getEvents (p : t) : list DomainEvent := _events p.

Definition clearEvents (p : t) : t := set_events [] p.

End Player.

(** ** SimpleGachaMachine: the weighted pool and the draw *)

Module SimpleGachaMachine.

Record PoolItem : Type := mkPoolItem {
  id : string;
  name : string;
  rarity : Rarity.t;
  weight : Q
}.

(** The machine is its (private, read-only) [gachaPool]. *)
Definition t : Type := list PoolItem.

Definition initializeGachaPool : Result t :=
  rbind (Rarity.create "N") (fun n1 =>
  rbind (Rarity.create "N") (fun n2 =>
  rbind (Rarity.create "R") (fun r1 =>
  rbind (Rarity.create "R") (fun r2 =>
  rbind (Rarity.create "SR") (fun sr1 =>
  rbind (Rarity.create "SR") (fun sr2 =>
  rbind (Rarity.create "SSR") (fun ssr =>
  rbind (Rarity.create "UR") (fun ur =>
  inr [ mkPoolItem "potion_001" "HP回復薬" n1 25;
        mkPoolItem "bread_001" "硬いパン" n2 25;
        mkPoolItem "sword_001" "鋼の剣" r1 15;
        mkPoolItem "shield_001" "鉄の盾" r2 15;
        mkPoolItem "bow_001" "エルフの弓" sr1 8;
        mkPoolItem "staff_001" "賢者の杖" sr2 7;
        mkPoolItem "sword_002" "エクスカリバー" ssr 4;
        mkPoolItem "sword_999" "神々の剣" ur 1 ])))))))).

Definition new : Result t := initializeGachaPool.

Definition generateDescription (rarity : Rarity.t) : string :=
  let v := Rarity.value rarity in
  if String.eqb v "UR"
  then "神話級の力を秘めた伝説の武器。世界を変える力を持つ。"
  else if String.eqb v "SSR"
  then "英雄が愛用したとされる名器。卓越した性能を誇る。"
  else if String.eqb v "SR"
  then "熟練の職人が心血を注いで作り上げた逸品。"
  else if String.eqb v "R"
  then "品質の良い装備。冒険者に愛用されている。"
  else if String.eqb v "N"
  then "一般的なアイテム。基本的な用途に適している。"
  else "謎に包まれたアイテム。".

(** [gachaPool.reduce((sum, item) => sum + item.weight, 0)] *)
Definition totalWeight (gachaPool : t) : Q :=
  fold_left (fun sum item => (sum + weight item)%Q) gachaPool 0%Q.

(** The item built when the loop stops at [poolItem]. *)
Definition itemOf (poolItem : PoolItem) : Result GachaItem.t :=
  GachaItem.new (id poolItem) (name poolItem) (rarity poolItem)
                (generateDescription (rarity poolItem)).

(** The [for ... of] loop of [draw]; [None] when it runs to its end. *)
Fixpoint drawLoop (randomValue currentWeight : Q) (gachaPool : t)
    : option (Result GachaItem.t) :=
  match gachaPool with
  | [] => None
  | poolItem :: rest =>
      let currentWeight := (currentWeight + weight poolItem)%Q in
      if Qle_bool randomValue currentWeight
      then Some (itemOf poolItem)
      else drawLoop randomValue currentWeight rest
  end.

(** [draw] once [randomValue] is known. *)
Definition drawAt (gachaPool : t) (randomValue : Q) : Result GachaItem.t :=
  match drawLoop randomValue 0%Q gachaPool with
  | Some result => result
  | None =>
      match gachaPool with
      | fallback :: _ =>
          GachaItem.new (id fallback) (name fallback) (rarity fallback) ""
      | [] => inl UndefinedFallback
      end
  end.

(** [draw], given the value [random] that [Math.random()] returns.  The
    sums and the product are exact here; [Binary64.SimpleGachaMachine.draw]
    rounds them as the program does. *)
Definition draw (gachaPool : t) (random : Q) : Result GachaItem.t :=
  let totalWeight := totalWeight gachaPool in
  let randomValue := (random * totalWeight)%Q in
  drawAt gachaPool randomValue.

End SimpleGachaMachine.

(** ** GachaService *)

Module GachaService.

Definition priceMap : gmap string Z :=
  list_to_map [("N", 10); ("R", 50); ("SR", 200); ("SSR", 1000);
               ("UR", 5000)].

(** [priceMap[rarity.value] || 0] *)
Definition calculateSellPrice (rarity : Rarity.t) : Z :=
  match priceMap !! Rarity.value rarity with
  | Some price => if price =? 0 then 0 else price
  | None => 0
  end.

(** The body of [executeSingleGacha], with its local constant [gachaCost]
    and the execution type written in the event as parameters. *)
Definition executeGacha (gachaCost : Z) (executionType : ExecutionType)
    (gachaMachine : SimpleGachaMachine.t) (random : Q)
    : M Player.t GachaItem.t :=
  do affordable <- gets (Player.canAffordGacha gachaCost);
  if negb affordable
  then
    do balance <- gets Player.gachaCurrency;
    throw (InsufficientBalance gachaCost balance)
  else
    Player.spendCurrency gachaCost "gacha" ;;
    do playerId <- gets Player.id;
    Player.addEvent (GachaExecutedEvent playerId gachaCost executionType) ;;
    do drawnItem <- liftResult (SimpleGachaMachine.draw gachaMachine random);
    do owned <- gets (Player.hasItem drawnItem);
    let isFirstTime := negb owned in
    (if negb isFirstTime
     then Player.addCurrency
            (calculateSellPrice (GachaItem.rarity drawnItem))
     else Player.addItem drawnItem) ;;
    Player.addEvent
      (ItemObtainedEvent playerId (GachaItem.id drawnItem)
         (GachaItem.name drawnItem)
         (Rarity.value (GachaItem.rarity drawnItem)) isFirstTime) ;;
    ret drawnItem.

(** [const gachaCost = 100], and the event says ['single']. *)
Definition executeSingleGacha
    : SimpleGachaMachine.t -> Q -> M Player.t GachaItem.t :=
  executeGacha 100 single.

End GachaService.

(** ** EventDispatcher *)

Module EventDispatcher.

Section Dispatcher.

(** The state the handlers run in; the entity whose events are
    dispatched lives in it too, so a handler may touch the entity. *)
Context {St : Type}.

(** [EventHandler.handle]: a handler resolves or rejects. *)
Definition EventHandler : Type := DomainEvent -> M St unit.

(** [handlers: Map<string, EventHandler[]>] *)
Definition t : Type := gmap string (list EventHandler).

Definition empty : t := ∅.

Definition subscribe (eventName : string) (handler : EventHandler)
    (handlers : t) : t :=
  let handlers :=
    match handlers !! eventName with
    | Some _ => handlers
    | None => <[eventName := []]> handlers
    end in
  alter (fun l => l ++ [handler]) eventName handlers.

(** [Promise.all]: every promise of the list is started, the handlers
    running in registration order; the result rejects when one of them
    rejects.  The rejection kept is the first one in that order.  With one
    promise in the list this is what the code does; with more, the code
    lets the handlers interleave at their [await]s and rejects at the first
    rejection in time. *)
Fixpoint promiseAll (promises : list (M St unit)) : M St unit :=
  match promises with
  | [] => ret tt
  | p :: rest =>
      fun s =>
        let '(r, s1) := p s in
        let '(rs, s2) := promiseAll rest s1 in
        (match r with inl e => inl e | inr _ => rs end, s2)
  end.

Definition dispatch (handlers : t) (event : DomainEvent) : M St unit :=
  let eventName := getEventName event in
  let eventHandlers := default [] (handlers !! eventName) in
  if (length eventHandlers =? 0)%nat then ret tt
  else promiseAll (map (fun handler => handler event) eventHandlers).

Fixpoint dispatchAll (handlers : t) (events : list DomainEvent)
    : M St unit :=
  match events with
  | [] => ret tt
  | event :: rest => dispatch handlers event ;; dispatchAll handlers rest
  end.

(** [{ getEvents(): readonly DomainEvent[], clearEvents(): void }] *)
Record Entity : Type := mkEntity {
  getEvents : St -> list DomainEvent;
  clearEvents : St -> St
}.

Definition dispatchEntityEvents (handlers : t) (entity : Entity)
    : M St unit :=
  do events <- gets (getEvents entity);
  if (length events =? 0)%nat then ret tt
  else
    dispatchAll handlers events ;;
    modify (clearEvents entity).

Definition unsubscribe (eventName : string) (handlers : t) : t :=
  delete eventName handlers.

Definition hasHandlers (eventName : string) (handlers : t) : bool :=
  match handlers !! eventName with
  | Some l => (0 <? length l)%nat
  | None => false
  end.

(** [handlers.clear()] *)
Definition clear (handlers : t) : t := ∅.

(** [Array.from(this.handlers.keys())], as the set of the names: the order
    of insertion that the array has is not kept. *)
Definition getRegisteredEventNames (handlers : t) : gset string :=
  dom handlers.

Record Stats : Type := mkStats {
  totalEventTypes : nat;
  totalHandlers : nat;
  eventBreakdown : gmap string nat
}.

Definition getStats (handlers : t) : Stats :=
  mkStats (size handlers)
    (map_fold (fun _ handlerList total => (total + length handlerList)%nat)
              0%nat handlers)
    (length <$> handlers).

End Dispatcher.

Arguments EventHandler St : clear implicits.
Arguments t St : clear implicits.
Arguments Entity St : clear implicits.

(** A player, as the entity of its own state. *)
Definition playerEntity : Entity Player.t :=
  mkEntity Player.getEvents Player.clearEvents.

End EventDispatcher.

(** ** Methods of the event classes

    An event object is the record of the fields of its class;
    [toDomainEvent] is the same object seen as a [DomainEvent]. *)

Module GachaExecutedEvent.

Record t : Type := mk {
  playerId : string;
  gachaCost : Z;
  executionType : ExecutionType
}.

Definition toDomainEvent (e : t) : DomainEvent :=
  GachaExecutedEvent (playerId e) (gachaCost e) (executionType e).

Definition ofDomainEvent (e : DomainEvent) : option t :=
  match e with
  | GachaExecutedEvent p c x => Some (mk p c x)
  | _ => None
  end.

End GachaExecutedEvent.

Module ItemObtainedEvent.

Record t : Type := mk {
  playerId : string;
  itemId : string;
  itemName : string;
  rarity : string;
  isFirstTime : bool
}.

Definition toDomainEvent (e : t) : DomainEvent :=
  ItemObtainedEvent (playerId e) (itemId e) (itemName e) (rarity e)
    (isFirstTime e).

Definition ofDomainEvent (e : DomainEvent) : option t :=
  match e with
  | ItemObtainedEvent p i n r f => Some (mk p i n r f)
  | _ => None
  end.

(** [['SR', 'SSR', 'UR'].includes(this.rarity)] *)
Definition isRareItem (e : t) : bool :=
  existsb (String.eqb (rarity e)) ["SR"; "SSR"; "UR"].

Definition isUltraRare (e : t) : bool := String.eqb (rarity e) "UR".

Definition getImportanceLevel (e : t) : Z :=
  let level :=
    if String.eqb (rarity e) "UR" then 10
    else if String.eqb (rarity e) "SSR" then 8
    else if String.eqb (rarity e) "SR" then 6
    else if String.eqb (rarity e) "R" then 4
    else if String.eqb (rarity e) "N" then 2
    else 1 in
  let level := if isFirstTime e then level + 1 else level in
  Z.min level 10.

End ItemObtainedEvent.

Module CurrencySpentEvent.

Record t : Type := mk {
  playerId : string;
  amount : Z;
  remainingBalance : Z;
  spendingReason : string;
  relatedItemId : option string
}.

Definition toDomainEvent (e : t) : DomainEvent :=
  CurrencySpentEvent (playerId e) (amount e) (remainingBalance e)
    (spendingReason e) (relatedItemId e).

Definition ofDomainEvent (e : DomainEvent) : option t :=
  match e with
  | CurrencySpentEvent p a b r i => Some (mk p a b r i)
  | _ => None
  end.

(** [isLargeSpending(threshold = 1000)]: [None] is the omitted argument. *)
Definition isLargeSpending (e : t) (threshold : option Z) : bool :=
  default 1000 threshold <=? amount e.

(** [isLowBalance(warningThreshold = 100)] *)
Definition isLowBalance (e : t) (warningThreshold : option Z) : bool :=
  remainingBalance e <=? default 100 warningThreshold.

Definition isGachaSpending (e : t) : bool :=
  String.eqb (spendingReason e) "gacha".

Definition getImportanceLevel (e : t) : Z :=
  let level :=
    if 5000 <=? amount e then 8
    else if 1000 <=? amount e then 6
    else if 500 <=? amount e then 4
    else if 100 <=? amount e then 2
    else 1 in
  let level := if isLowBalance e None then level + 2 else level in
  let level := if remainingBalance e =? 0 then 10 else level in
  Z.min level 10.

(** The report of [getSpendingReport], without its time stamp. *)
Record SpendingReport : Type := mkReport {
  report_playerId : string;
  report_amount : Z;
  report_reason : string;
  report_balanceAfter : Z;
  report_isSignificant : bool
}.

Definition getSpendingReport (e : t) : SpendingReport :=
  mkReport (playerId e) (amount e) (spendingReason e) (remainingBalance e)
    (isLargeSpending e None || isLowBalance e None).

End CurrencySpentEvent.

(** ** The handlers

    Each handler class keeps its statistics in static maps; the state of a
    handler is these maps.  What a handler only prints, plays or sends is
    not modelled; what it stores is. *)

Module GachaExecutedHandler.

Record PlayerGachaStats : Type := mkStats {
  totalGachaExecutions : Z;
  totalSpent : Z;
  singlePullCount : Z;
  tenPullCount : Z
}.

(** [getOrCreatePlayerStats]: the object returned is the one in the cache. *)
Definition getOrCreatePlayerStats (playerId : string)
    : M (gmap string PlayerGachaStats) PlayerGachaStats :=
  fun cache =>
    match cache !! playerId with
    | Some stats => (inr stats, cache)
    | None =>
        let fresh := mkStats 0 0 0 0 in
        (inr fresh, <[playerId := fresh]> cache)
    end.

Definition updateStatistics (event : GachaExecutedEvent.t)
    : M (gmap string PlayerGachaStats) unit :=
  do _ <- getOrCreatePlayerStats (GachaExecutedEvent.playerId event);
  modify (alter
    (fun stats =>
       let total := totalGachaExecutions stats + 1 in
       let spent := totalSpent stats + GachaExecutedEvent.gachaCost event in
       match GachaExecutedEvent.executionType event with
       | ten_pull =>
           mkStats total spent (singlePullCount stats) (tenPullCount stats + 1)
       | single =>
           mkStats total spent (singlePullCount stats + 1) (tenPullCount stats)
       end)
    (GachaExecutedEvent.playerId event)).

(** [checkAchievements]: the achievements that it announces. *)
Definition checkAchievements (event : GachaExecutedEvent.t)
    : M (gmap string PlayerGachaStats) (list string) :=
  do stats <- getOrCreatePlayerStats (GachaExecutedEvent.playerId event);
  ret ((if totalGachaExecutions stats =? 1 then ["初回ガチャ実行"] else []) ++
       (if totalGachaExecutions stats =? 10
        then ["ガチャマスター（10回実行）"] else []) ++
       (if totalGachaExecutions stats =? 100
        then ["ガチャ中毒者（100回実行）"] else []) ++
       (match GachaExecutedEvent.executionType event with
        | ten_pull =>
            if tenPullCount stats =? 1 then ["初回10連ガチャ"] else []
        | single => []
        end)).

Definition handle (event : GachaExecutedEvent.t)
    : M (gmap string PlayerGachaStats) unit :=
  updateStatistics event ;;
  do _ <- checkAchievements event;
  ret tt.

End GachaExecutedHandler.

Module ItemObtainedHandler.

Record PlayerItemStats : Type := mkStats {
  totalItemsObtained : Z;
  uniqueItemsObtained : Z;
  rarityBreakdown : gmap string Z
}.

(** A collection entry, without its date. *)
Record CollectionEntry : Type := mkEntry {
  entry_itemId : string;
  entry_itemName : string;
  entry_rarity : string;
  entry_playerId : string
}.

(** The two static caches of the class. *)
Record State : Type := mkState {
  playerStatsCache : gmap string PlayerItemStats;
  playerCollectionCache : gmap string (list CollectionEntry)
}.

Definition initialState : State := mkState ∅ ∅.

Definition getOrCreatePlayerStats (playerId : string)
    : M State PlayerItemStats :=
  fun st =>
    match playerStatsCache st !! playerId with
    | Some stats => (inr stats, st)
    | None =>
        let fresh := mkStats 0 0 ∅ in
        (inr fresh,
         mkState (<[playerId := fresh]> (playerStatsCache st))
                 (playerCollectionCache st))
    end.

Definition getPlayerCollection (playerId : string) (st : State)
    : list CollectionEntry :=
  default [] (playerCollectionCache st !! playerId).

Definition addToPlayerCollection (playerId : string) (entry : CollectionEntry)
    : M State unit :=
  modify (fun st =>
    let collections :=
      match playerCollectionCache st !! playerId with
      | Some _ => playerCollectionCache st
      | None => <[playerId := []]> (playerCollectionCache st)
      end in
    mkState (playerStatsCache st)
            (alter (fun l => l ++ [entry]) playerId collections)).

(** [checkCollectionMilestones]: the count that it announces, if any. *)
Definition checkCollectionMilestones (playerId rarity : string)
    : M State (option nat) :=
  do collection <- gets (getPlayerCollection playerId);
  let rarityCount :=
    length (List.filter (fun item => String.eqb (entry_rarity item) rarity)
                        collection) in
  ret (if existsb (Nat.eqb rarityCount) [1; 5; 10; 25; 50; 100]%nat
       then Some rarityCount else None).

Definition registerToCollection (event : ItemObtainedEvent.t) : M State unit :=
  addToPlayerCollection (ItemObtainedEvent.playerId event)
    (mkEntry (ItemObtainedEvent.itemId event) (ItemObtainedEvent.itemName event)
       (ItemObtainedEvent.rarity event) (ItemObtainedEvent.playerId event)) ;;
  do _ <- checkCollectionMilestones (ItemObtainedEvent.playerId event)
            (ItemObtainedEvent.rarity event);
  ret tt.

(** [stats.rarityBreakdown] is a plain object: the update is the one the
    code makes at a rarity that is not a member name of
    [Object.prototype]. *)
Definition updateStatistics (event : ItemObtainedEvent.t) : M State unit :=
  do _ <- getOrCreatePlayerStats (ItemObtainedEvent.playerId event);
  modify (fun st =>
    mkState
      (alter
         (fun stats =>
            mkStats
              (totalItemsObtained stats + 1)
              (if ItemObtainedEvent.isFirstTime event
               then uniqueItemsObtained stats + 1
               else uniqueItemsObtained stats)
              (<[ItemObtainedEvent.rarity event :=
                   default 0 (rarityBreakdown stats
                                !! ItemObtainedEvent.rarity event) + 1]>
                 (rarityBreakdown stats)))
         (ItemObtainedEvent.playerId event) (playerStatsCache st))
      (playerCollectionCache st)).

Definition handle (event : ItemObtainedEvent.t) : M State unit :=
  (if ItemObtainedEvent.isFirstTime event
   then registerToCollection event
   else ret tt) ;;
  updateStatistics event.

End ItemObtainedHandler.

Module CurrencySpentHandler.

Record PlayerSpendingStats : Type := mkStats {
  totalSpent : Z;
  totalTransactions : Z;
  spendingByReason : gmap string Z;
  maxSingleSpending : Z
}.

(** A history entry, without its time stamp. *)
Record SpendingHistoryEntry : Type := mkEntry {
  entry_amount : Z;
  entry_reason : string;
  entry_balanceAfter : Z
}.

Record State : Type := mkState {
  playerStatsCache : gmap string PlayerSpendingStats;
  spendingHistoryCache : gmap string (list SpendingHistoryEntry)
}.

Definition initialState : State := mkState ∅ ∅.

Definition getOrCreatePlayerStats (playerId : string)
    : M State PlayerSpendingStats :=
  fun st =>
    match playerStatsCache st !! playerId with
    | Some stats => (inr stats, st)
    | None =>
        let fresh := mkStats 0 0 ∅ 0 in
        (inr fresh,
         mkState (<[playerId := fresh]> (playerStatsCache st))
                 (spendingHistoryCache st))
    end.

Definition addToSpendingHistory (event : CurrencySpentEvent.t)
    : M State unit :=
  modify (fun st =>
    let histories :=
      match spendingHistoryCache st !! CurrencySpentEvent.playerId event with
      | Some _ => spendingHistoryCache st
      | None =>
          <[CurrencySpentEvent.playerId event := []]> (spendingHistoryCache st)
      end in
    mkState (playerStatsCache st)
      (alter
         (fun l =>
            l ++ [mkEntry (CurrencySpentEvent.amount event)
                    (CurrencySpentEvent.spendingReason event)
                    (CurrencySpentEvent.remainingBalance event)])
         (CurrencySpentEvent.playerId event) histories)).

Definition logSpending (event : CurrencySpentEvent.t) : M State unit :=
  addToSpendingHistory event.

(** [stats.spendingByReason] is a plain object: the update is the one the
    code makes at a reason that is not a member name of
    [Object.prototype]. *)
Definition updateSpendingStatistics (event : CurrencySpentEvent.t)
    : M State unit :=
  do _ <- getOrCreatePlayerStats (CurrencySpentEvent.playerId event);
  modify (fun st =>
    mkState
      (alter
         (fun stats =>
            mkStats
              (totalSpent stats + CurrencySpentEvent.amount event)
              (totalTransactions stats + 1)
              (<[CurrencySpentEvent.spendingReason event :=
                   default 0 (spendingByReason stats
                                !! CurrencySpentEvent.spendingReason event)
                   + CurrencySpentEvent.amount event]>
                 (spendingByReason stats))
              (if maxSingleSpending stats <? CurrencySpentEvent.amount event
               then CurrencySpentEvent.amount event
               else maxSingleSpending stats))
         (CurrencySpentEvent.playerId event) (playerStatsCache st))
      (spendingHistoryCache st)).

(** [detectSuspiciousSpending] stores nothing, but it creates the player's
    statistics when they are missing. *)
Definition detectSuspiciousSpending (event : CurrencySpentEvent.t)
    : M State unit :=
  do _ <- getOrCreatePlayerStats (CurrencySpentEvent.playerId event);
  ret tt.

(** [checkBalance], between the two, only prints and notifies. *)
Definition handle (event : CurrencySpentEvent.t) : M State unit :=
  logSpending event ;;
  updateSpendingStatistics event ;;
  detectSuspiciousSpending event.

End CurrencySpentHandler.

(** ** The demo: [runGachaSystemDemo]

    The state of the demo is the player and the caches of the two handlers
    that it registers.  A handler registered under the name of its own
    event class receives events of that class only (the dispatcher looks
    the handlers up by the name of the event); on an event of another
    class, which its type excludes, it is modelled as doing nothing. *)

Module Demo.

Record State : Type := mkState {
  player : Player.t;
  gachaStats : gmap string GachaExecutedHandler.PlayerGachaStats;
  itemState : ItemObtainedHandler.State
}.

Definition onPlayer {A : Type} (m : M Player.t A) : M State A :=
  fun s =>
    let '(r, p) := m (player s) in
    (r, mkState p (gachaStats s) (itemState s)).

Definition onGachaStats {A : Type}
    (m : M (gmap string GachaExecutedHandler.PlayerGachaStats) A)
    : M State A :=
  fun s =>
    let '(r, c) := m (gachaStats s) in
    (r, mkState (player s) c (itemState s)).

Definition onItemState {A : Type} (m : M ItemObtainedHandler.State A)
    : M State A :=
  fun s =>
    let '(r, c) := m (itemState s) in
    (r, mkState (player s) (gachaStats s) c).

(** [new GachaExecutedHandler()] *)
Definition gachaExecutedHandler : EventDispatcher.EventHandler State :=
  fun event =>
    match GachaExecutedEvent.ofDomainEvent event with
    | Some e => onGachaStats (GachaExecutedHandler.handle e)
    | None => ret tt
    end.

(** [new ItemObtainedHandler()] *)
Definition itemObtainedHandler : EventDispatcher.EventHandler State :=
  fun event =>
    match ItemObtainedEvent.ofDomainEvent event with
    | Some e => onItemState (ItemObtainedHandler.handle e)
    | None => ret tt
    end.

(** The dispatcher after the two [subscribe] calls of the demo. *)
Definition eventDispatcher : EventDispatcher.t State :=
  EventDispatcher.subscribe "ItemObtained" itemObtainedHandler
    (EventDispatcher.subscribe "GachaExecuted" gachaExecutedHandler
       EventDispatcher.empty).

(** The player of the demo, as the entity whose events are dispatched. *)
Definition playerEntity : EventDispatcher.Entity State :=
  EventDispatcher.mkEntity
    (fun s => Player.getEvents (player s))
    (fun s =>
       mkState (Player.clearEvents (player s)) (gachaStats s) (itemState s)).

(** The two calls that one iteration of the loop awaits: the draw, then
    the dispatch of the events of the player.  Its result is the item
    drawn. *)
Definition iteration (gachaMachine : SimpleGachaMachine.t) (random : Q)
    : M State GachaItem.t :=
  do result <- onPlayer
                 (GachaService.executeSingleGacha gachaMachine random);
  EventDispatcher.dispatchEntityEvents eventDispatcher playerEntity ;;
  ret result.

(** The loop: [randoms] holds, for each iteration, the value that
    [Math.random()] returns in its draw; an iteration that throws ends the
    loop ([break]).  The item drawn is pushed to [results] before the
    dispatch, so it is kept when the dispatch rejects. *)
Fixpoint loop (gachaMachine : SimpleGachaMachine.t) (randoms : list Q)
    (results : list GachaItem.t) (s : State) : list GachaItem.t * State :=
  match randoms with
  | [] => (results, s)
  | random :: rest =>
      match onPlayer
              (GachaService.executeSingleGacha gachaMachine random) s with
      | (inl _, s1) => (results, s1)
      | (inr result, s1) =>
          let results := results ++ [result] in
          match EventDispatcher.dispatchEntityEvents eventDispatcher
                  playerEntity s1 with
          | (inl _, s2) => (results, s2)
          | (inr _, s2) => loop gachaMachine rest results s2
          end
      end
  end.

(** The demo, given the values that [Math.random()] returns in its five
    draws. *)
Definition runGachaSystemDemo (randoms : list Q)
    : Result (list GachaItem.t * State) :=
  rbind SimpleGachaMachine.new (fun gachaMachine =>
  rbind (Player.new "player_001" "タロウ" 2000) (fun player =>
  inr (loop gachaMachine (firstn 5 randoms) []
         (mkState player ∅ ItemObtainedHandler.initialState)))).

End Demo.

(** * The numeric code on the numbers of the program

    The numbers of JavaScript are the IEEE 754 binary64 numbers: [float],
    with its NaN, its infinities and its rounding.  [Binary64] embeds once
    more the code whose behaviour depends on them, with the numbers as the
    program has them: the guards and the arithmetic of [Player], and the
    draw of [SimpleGachaMachine].  The comparisons [<] and [<=] of
    JavaScript are [ltb] and [leb], and [a >= b] is [leb b a]; each is
    false when an argument is NaN. *)

Module Binary64.

(** ** Player: the balance and its guards *)

Module Player.

(** The errors of the methods below, with the numbers of their messages. *)
Inductive Error : Type :=
| PlayerIdEmpty
| PlayerNameEmpty
| NegativeGachaCurrency
| InvalidAddAmount (amount : float)
| InvalidSpendAmount (amount : float)
| InsufficientBalance (required balance : float).

(** [CurrencySpentEvent], the event that [spendCurrency] records. *)
Record CurrencySpentEvent : Type := mkCurrencySpentEvent {
  playerId : string;
  amount : float;
  remainingBalance : float;
  spendingReason : string
}.

Record t : Type := mk {
  _id : string;
  _playerName : string;
  _gachaCurrency : float;
  _inventory : list GachaItem.t;
  _events : list CurrencySpentEvent
}.

Definition new (id playerName : string) (gachaCurrency : float)
    : Error + t :=
  if isBlank id then inl PlayerIdEmpty
  else if isBlank playerName then inl PlayerNameEmpty
  else if (gachaCurrency <? 0)%float then inl NegativeGachaCurrency
  else inr (mk id playerName gachaCurrency [] []).

Definition gachaCurrency (p : t) : float := _gachaCurrency p.

Definition getEvents (p : t) : list CurrencySpentEvent := _events p.

Definition set_gachaCurrency (balance : float) (p : t) : t :=
  mk (_id p) (_playerName p) balance (_inventory p) (_events p).

Definition addEvent (event : CurrencySpentEvent) (p : t) : t :=
  mk (_id p) (_playerName p) (_gachaCurrency p) (_inventory p)
     (_events p ++ [event]).

Definition addCurrency (amount : float) (p : t) : (Error + unit) * t :=
  if (amount <? 0)%float then (inl (InvalidAddAmount amount), p)
  else (inr tt, set_gachaCurrency (_gachaCurrency p + amount)%float p).

Definition spendCurrency (amount : float) (reason : string) (p : t)
    : (Error + unit) * t :=
  if (amount <? 0)%float then (inl (InvalidSpendAmount amount), p)
  else if (_gachaCurrency p <? amount)%float
  then (inl (InsufficientBalance amount (_gachaCurrency p)), p)
  else
    let p := set_gachaCurrency (_gachaCurrency p - amount)%float p in
    let event :=
      mkCurrencySpentEvent (_id p) amount (_gachaCurrency p) reason in
    (inr tt, addEvent event p).

(** [this._gachaCurrency >= cost && cost >= 0] *)
Definition canAffordGacha (cost : float) (p : t) : bool :=
  (cost <=? _gachaCurrency p)%float && (0 <=? cost)%float.

End Player.

(** ** SimpleGachaMachine: the draw *)

Module SimpleGachaMachine.

Record PoolItem : Type := mkPoolItem {
  id : string;
  name : string;
  rarity : Rarity.t;
  weight : float
}.

Definition t : Type := list PoolItem.

Definition initializeGachaPool : Result t :=
  rbind (Rarity.create "N") (fun n1 =>
  rbind (Rarity.create "N") (fun n2 =>
  rbind (Rarity.create "R") (fun r1 =>
  rbind (Rarity.create "R") (fun r2 =>
  rbind (Rarity.create "SR") (fun sr1 =>
  rbind (Rarity.create "SR") (fun sr2 =>
  rbind (Rarity.create "SSR") (fun ssr =>
  rbind (Rarity.create "UR") (fun ur =>
  inr [ mkPoolItem "potion_001" "HP回復薬" n1 25;
        mkPoolItem "bread_001" "硬いパン" n2 25;
        mkPoolItem "sword_001" "鋼の剣" r1 15;
        mkPoolItem "shield_001" "鉄の盾" r2 15;
        mkPoolItem "bow_001" "エルフの弓" sr1 8;
        mkPoolItem "staff_001" "賢者の杖" sr2 7;
        mkPoolItem "sword_002" "エクスカリバー" ssr 4;
        mkPoolItem "sword_999" "神々の剣" ur 1 ])))))))).

Definition new : Result t := initializeGachaPool.

(** [gachaPool.reduce((sum, item) => sum + item.weight, 0)] *)
Definition totalWeight (gachaPool : t) : float :=
  fold_left (fun sum item => (sum + weight item)%float) gachaPool 0%float.

(** The [for ... of] loop of [draw]: the entry at which it returns, [None]
    when it runs to its end. *)
Fixpoint drawLoop (randomValue currentWeight : float) (gachaPool : t)
    : option PoolItem :=
  match gachaPool with
  | [] => None
  | poolItem :: rest =>
      let currentWeight := (currentWeight + weight poolItem)%float in
      if (randomValue <=? currentWeight)%float
      then Some poolItem
      else drawLoop randomValue currentWeight rest
  end.

(** [draw] once [randomValue] is known. *)
Definition drawAt (gachaPool : t) (randomValue : float)
    : Result GachaItem.t :=
  match drawLoop randomValue 0%float gachaPool with
  | Some poolItem =>
      GachaItem.new (id poolItem) (name poolItem) (rarity poolItem)
        (SimpleGachaMachine.generateDescription (rarity poolItem))
  | None =>
      match gachaPool with
      | fallback :: _ =>
          GachaItem.new (id fallback) (name fallback) (rarity fallback) ""
      | [] => inl UndefinedFallback
      end
  end.

(** [draw], given the value [random] that [Math.random()] returns. *)
Definition draw (gachaPool : t) (random : float) : Result GachaItem.t :=
  let totalWeight := totalWeight gachaPool in
  let randomValue := (random * totalWeight)%float in
  drawAt gachaPool randomValue.

End SimpleGachaMachine.

End Binary64.

(** * Vocabulary of the statements

    Concrete players and pools, sequences of calls, and the predicates that
    the theorems below are stated with. *)

(** ** The player and the pool of the demo *)

Definition demoPlayer : Player.t :=
  Player.mk "player_001" "タロウ" 2000 [] [].

Definition demoPool : SimpleGachaMachine.t :=
  match SimpleGachaMachine.new with
  | inr pool => pool
  | inl _ => []
  end.

(** ** The player and the pool of the demo, on IEEE doubles *)

Definition demoPlayer64 : Binary64.Player.t :=
  Binary64.Player.mk "player_001" "タロウ" 2000 [] [].

Definition demoPool64 : Binary64.SimpleGachaMachine.t :=
  match Binary64.SimpleGachaMachine.new with
  | inr pool => pool
  | inl _ => []
  end.

(** ** Sequences of calls on a player *)

(** A debit ([spendCurrency]) or a credit ([addCurrency]). *)
Inductive CurrencyCall : Type :=
| Debit (amount : Z) (reason : string)
| Credit (amount : Z).

Definition runCall (c : CurrencyCall) : M Player.t unit :=
  match c with
  | Debit amount reason => Player.spendCurrency amount reason
  | Credit amount => Player.addCurrency amount
  end.

(** The player after each call of a sequence; a call that throws is caught
    by the caller, which goes on with the player as the call left it. *)
Fixpoint statesAfter (calls : list CurrencyCall) (p : Player.t)
    : list Player.t :=
  match calls with
  | [] => []
  | c :: rest => let p' := snd (runCall c p) in p' :: statesAfter rest p'
  end.

(** The operations that the program offers on a player. *)
Inductive PlayerOp : Type :=
| OpAddItem (item : GachaItem.t)
| OpRemoveItem (item : GachaItem.t)
| OpAddCurrency (amount : Z)
| OpSpendCurrency (amount : Z) (reason : string)
| OpAddEvent (event : DomainEvent)
| OpClearEvents
| OpExecuteSingleGacha (gachaMachine : SimpleGachaMachine.t) (random : Q).

Definition runOp (op : PlayerOp) (p : Player.t) : Player.t :=
  match op with
  | OpAddItem item => snd (Player.addItem item p)
  | OpRemoveItem item => snd (Player.removeItem item p)
  | OpAddCurrency amount => snd (Player.addCurrency amount p)
  | OpSpendCurrency amount reason => snd (Player.spendCurrency amount reason p)
  | OpAddEvent event => snd (Player.addEvent event p)
  | OpClearEvents => Player.clearEvents p
  | OpExecuteSingleGacha gachaMachine random =>
      snd (GachaService.executeSingleGacha gachaMachine random p)
  end.

Definition isRemoveItem (op : PlayerOp) : bool :=
  match op with
  | OpRemoveItem _ => true
  | _ => false
  end.

(** ** States and events of a draw *)

(** The player after the debit of a draw and its GachaExecuted event. *)
Definition afterDebit (cost : Z) (mode : ExecutionType) (p : Player.t)
    : Player.t :=
  Player.mk (Player.id p) (Player.playerName p)
    (Player.gachaCurrency p - cost) (Player.inventory p)
    (Player.getEvents p ++
     [CurrencySpentEvent (Player.id p) cost (Player.gachaCurrency p - cost)
        "gacha" None;
      GachaExecutedEvent (Player.id p) cost mode]).

Definition itemObtained (p : Player.t) (item : GachaItem.t)
    (isFirstTime : bool) : DomainEvent :=
  ItemObtainedEvent (Player.id p) (GachaItem.id item) (GachaItem.name item)
    (Rarity.value (GachaItem.rarity item)) isFirstTime.

(** [a] occurs before [b] in a list of event names. *)
Definition precedes (a b : string) (names : list string) : Prop :=
  exists i j : nat,
    names !! i = Some a /\ names !! j = Some b /\ (i < j)%nat.

(** The order debit, reward, draw: CurrencySpent before ItemObtained, and
    ItemObtained before GachaExecuted. *)
Definition debit_reward_draw_order (appended : list DomainEvent) : Prop :=
  let names := map getEventName appended in
  precedes "CurrencySpent" "ItemObtained" names /\
  precedes "ItemObtained" "GachaExecuted" names.

(** The order of the code: CurrencySpent, GachaExecuted, ItemObtained. *)
Definition debit_draw_reward_order (appended : list DomainEvent) : Prop :=
  let names := map getEventName appended in
  precedes "CurrencySpent" "GachaExecuted" names /\
  precedes "GachaExecuted" "ItemObtained" names.

Definition urRarity : Rarity.t := Rarity.mk "UR" 1 "ウルトラレア".

Definition urItem : GachaItem.t :=
  GachaItem.mk "sword_999" "神々の剣" urRarity
    "神話級の力を秘めた伝説の武器。世界を変える力を持つ。".

(** The demo player after a first draw that gave the UR item. *)
Definition urOwner : Player.t :=
  snd (GachaService.executeSingleGacha demoPool (999 # 1000) demoPlayer).

(** ** Handlers and queues *)

(** Handlers for concrete runs, on a state that is the player itself. *)
Definition accepting : EventDispatcher.EventHandler Player.t :=
  fun _ => ret tt.

Definition rejecting : EventDispatcher.EventHandler Player.t :=
  fun _ => throw (HandlerError "handler failed").

Definition lateEvent : DomainEvent :=
  GachaExecutedEvent "player_001" 1000 ten_pull.

(** A handler that records a new event on the player it is told about. *)
Definition appending : EventDispatcher.EventHandler Player.t :=
  fun _ => Player.addEvent lateEvent.

Definition rejectingHandlers : EventDispatcher.t Player.t :=
  EventDispatcher.subscribe "GachaExecuted" rejecting
    (EventDispatcher.subscribe "CurrencySpent" accepting
       EventDispatcher.empty).

Definition appendingHandlers : EventDispatcher.t Player.t :=
  EventDispatcher.subscribe "ItemObtained" appending EventDispatcher.empty.



(** ** Cumulated weights *)

(** The weights of [pre] added, in order, to [acc]. *)
Definition cumulativeFrom (acc : Q) (pre : SimpleGachaMachine.t) : Q :=
  fold_left (fun sum item => (sum + SimpleGachaMachine.weight item)%Q) pre acc.

(** No entry, up to the end of [pool], has its cumulated weight at or
    above [rv]. *)
Definition noMatchFrom (acc rv : Q) (pool : SimpleGachaMachine.t) : Prop :=
  forall pre e post,
    pool = pre ++ e :: post ->
    ~ (rv <= cumulativeFrom acc (pre ++ [e]))%Q.

(** The weight cumulated by the loop of [draw] over [pre], from [acc]. *)
Definition cumulativeFrom64 (acc : float)
    (pre : Binary64.SimpleGachaMachine.t) : float :=
  fold_left
    (fun sum item => (sum + Binary64.SimpleGachaMachine.weight item)%float)
    pre acc.

(** No entry, up to the end of [pool], has its cumulated weight at or
    above [rv]. *)
Definition noMatchFrom64 (acc rv : float)
    (pool : Binary64.SimpleGachaMachine.t) : Prop :=
  forall pre e post,
    pool = pre ++ e :: post ->
    (rv <=? cumulativeFrom64 acc (pre ++ [e]))%float = false.

(** ** Handlers that leave the queue alone, batches that succeed *)

(** A handler that leaves the entity's queue as it found it. *)
Definition keepsQueue {St : Type} (entity : EventDispatcher.Entity St)
    (handler : EventDispatcher.EventHandler St) : Prop :=
  forall event s,
    EventDispatcher.getEvents entity (snd (handler event s)) =
    EventDispatcher.getEvents entity s.

Definition handlersKeepQueue {St : Type} (entity : EventDispatcher.Entity St)
    (handlers : EventDispatcher.t St) : Prop :=
  forall eventName registered,
    handlers !! eventName = Some registered ->
    Forall (keepsQueue entity) registered.


(** ** Sequences of operations, and what they keep *)

(** The player after a sequence of operations, each one run on the player
    that the one before left (a caller catches what is thrown). *)
Fixpoint runOps (ops : list PlayerOp) (p : Player.t) : Player.t :=
  match ops with
  | [] => p
  | op :: rest => runOps rest (runOp op p)
  end.

Definition isClearEvents (op : PlayerOp) : bool :=
  match op with
  | OpClearEvents => true
  | _ => false
  end.

(** The ids of the items owned, in the order of the inventory. *)
Definition inventoryIds (p : Player.t) : list string :=
  map GachaItem.id (Player.inventory p).

(** ** Statistics kept per player *)

Section PerKey.

Context {V E : Type}.
Variable key : E -> string.
Variable step : E -> V -> V.
Variable zero : V.

(** One event recorded in a cache: the entry of its key is created with
    [zero] when it is missing, then updated by [step]. *)
Definition recordOne (cache : gmap string V) (e : E) : gmap string V :=
  alter (step e) (key e)
    (match cache !! key e with
     | Some _ => cache
     | None => <[key e := zero]> cache
     end).

Definition recordAll (es : list E) (cache : gmap string V) : gmap string V :=
  fold_left recordOne es cache.

Definition accumulate (es : list E) (v : V) : V :=
  fold_left (fun v e => step e v) es v.

End PerKey.

(** The sum of the numbers that [f] gives on a list. *)
Definition sumOf {A : Type} (f : A -> Z) (l : list A) : Z :=
  fold_right (fun x total => f x + total) 0 l.

(** The number of the elements of a list that pass a test. *)
Definition countOf {A : Type} (f : A -> bool) (l : list A) : Z :=
  Z.of_nat (length (List.filter f l)).

(** *** GachaExecutedHandler *)

Definition gachaEventsOf (playerId : string)
    (events : list GachaExecutedEvent.t) : list GachaExecutedEvent.t :=
  List.filter (fun e => String.eqb (GachaExecutedEvent.playerId e) playerId)
              events.

Definition gachaHandleAll (events : list GachaExecutedEvent.t)
    (cache : gmap string GachaExecutedHandler.PlayerGachaStats)
    : gmap string GachaExecutedHandler.PlayerGachaStats :=
  fold_left (fun cache e => snd (GachaExecutedHandler.handle e cache))
            events cache.

(** What [updateStatistics] does to the statistics of the player. *)
Definition gachaStep (event : GachaExecutedEvent.t)
    (stats : GachaExecutedHandler.PlayerGachaStats)
    : GachaExecutedHandler.PlayerGachaStats :=
  let total := GachaExecutedHandler.totalGachaExecutions stats + 1 in
  let spent :=
    GachaExecutedHandler.totalSpent stats
    + GachaExecutedEvent.gachaCost event in
  match GachaExecutedEvent.executionType event with
  | ten_pull =>
      GachaExecutedHandler.mkStats total spent
        (GachaExecutedHandler.singlePullCount stats)
        (GachaExecutedHandler.tenPullCount stats + 1)
  | single =>
      GachaExecutedHandler.mkStats total spent
        (GachaExecutedHandler.singlePullCount stats + 1)
        (GachaExecutedHandler.tenPullCount stats)
  end.

Definition isTenPull (e : GachaExecutedEvent.t) : bool :=
  match GachaExecutedEvent.executionType e with
  | ten_pull => true
  | single => false
  end.

(** *** ItemObtainedHandler *)

Definition itemEventsOf (playerId : string)
    (events : list ItemObtainedEvent.t) : list ItemObtainedEvent.t :=
  List.filter (fun e => String.eqb (ItemObtainedEvent.playerId e) playerId)
              events.

Definition itemHandleAll (events : list ItemObtainedEvent.t)
    (st : ItemObtainedHandler.State) : ItemObtainedHandler.State :=
  fold_left (fun st e => snd (ItemObtainedHandler.handle e st)) events st.

(** What [updateStatistics] does to the statistics of the player. *)
Definition itemStep (event : ItemObtainedEvent.t)
    (stats : ItemObtainedHandler.PlayerItemStats)
    : ItemObtainedHandler.PlayerItemStats :=
  ItemObtainedHandler.mkStats
    (ItemObtainedHandler.totalItemsObtained stats + 1)
    (if ItemObtainedEvent.isFirstTime event
     then ItemObtainedHandler.uniqueItemsObtained stats + 1
     else ItemObtainedHandler.uniqueItemsObtained stats)
    (<[ItemObtainedEvent.rarity event :=
         default 0 (ItemObtainedHandler.rarityBreakdown stats
                      !! ItemObtainedEvent.rarity event) + 1]>
       (ItemObtainedHandler.rarityBreakdown stats)).

(** The collection entry that [registerToCollection] makes of an event. *)
Definition collectionEntryOf (event : ItemObtainedEvent.t)
    : ItemObtainedHandler.CollectionEntry :=
  ItemObtainedHandler.mkEntry (ItemObtainedEvent.itemId event)
    (ItemObtainedEvent.itemName event) (ItemObtainedEvent.rarity event)
    (ItemObtainedEvent.playerId event).

Definition collectionStep (event : ItemObtainedEvent.t)
    (l : list ItemObtainedHandler.CollectionEntry)
    : list ItemObtainedHandler.CollectionEntry :=
  l ++ [collectionEntryOf event].

(** *** CurrencySpentHandler *)







(** ** The demo *)

(** The player after a single draw that succeeded and gave [item]. *)
Definition afterDraw (p : Player.t) (item : GachaItem.t) : Player.t :=
  Player.mk (Player.id p) (Player.playerName p)
    (if Player.hasItem item p
     then Player.gachaCurrency p - 100
          + GachaService.calculateSellPrice (GachaItem.rarity item)
     else Player.gachaCurrency p - 100)
    (if Player.hasItem item p
     then Player.inventory p
     else Player.inventory p ++ [item])
    (Player.getEvents (afterDebit 100 single p) ++
     [itemObtained p item (negb (Player.hasItem item p))]).

(** The events of that draw, as the objects that the handlers receive. *)
Definition drawExecuted (p : Player.t) : GachaExecutedEvent.t :=
  GachaExecutedEvent.mk (Player.id p) 100 single.

Definition drawObtained (p : Player.t) (item : GachaItem.t)
    : ItemObtainedEvent.t :=
  ItemObtainedEvent.mk (Player.id p) (GachaItem.id item)
    (GachaItem.name item) (Rarity.value (GachaItem.rarity item))
    (negb (Player.hasItem item p)).

(** What holds of the state of the demo after [k] iterations. *)
Definition demoInvariant (k : nat) (s : Demo.State) : Prop :=
  Player.id (Demo.player s) = "player_001" /\
  Player.getEvents (Demo.player s) = [] /\
  2000 - 100 * Z.of_nat k <= Player.gachaCurrency (Demo.player s) /\
  default (GachaExecutedHandler.mkStats 0 0 0 0)
    (Demo.gachaStats s !! "player_001") =
  GachaExecutedHandler.mkStats (Z.of_nat k) (100 * Z.of_nat k) (Z.of_nat k) 0 /\
  ItemObtainedHandler.totalItemsObtained
    (default (ItemObtainedHandler.mkStats 0 0 ∅)
       (ItemObtainedHandler.playerStatsCache (Demo.itemState s)
        !! "player_001")) = Z.of_nat k /\
  ItemObtainedHandler.uniqueItemsObtained
    (default (ItemObtainedHandler.mkStats 0 0 ∅)
       (ItemObtainedHandler.playerStatsCache (Demo.itemState s)
        !! "player_001")) =
  Z.of_nat (length (Player.inventory (Demo.player s))) /\
  length (ItemObtainedHandler.getPlayerCollection "player_001"
            (Demo.itemState s)) =
  length (Player.inventory (Demo.player s)) /\
  (length (Player.inventory (Demo.player s)) <= k)%nat /\
  (k = 0%nat \/
   (is_Some (Demo.gachaStats s !! "player_001") /\
    is_Some (ItemObtainedHandler.playerStatsCache (Demo.itemState s)
             !! "player_001") /\
    (1 <= length (Player.inventory (Demo.player s)))%nat)).

Definition inUnitInterval (random : Q) : Prop :=
  (0 <= random)%Q /\ (random < 1)%Q.

(** ** Whole numbers that a double holds, keys of a plain object *)

(** [Number.MAX_SAFE_INTEGER]: up to it a double holds every whole number,
    so the sums and the differences of whole numbers that stay below it are
    exact. *)
Definition MAX_SAFE_INTEGER : Z := 2 ^ 53 - 1.

(** The member names of [Object.prototype], which every plain object
    inherits.  Read at one of them, an object used as a map gives the
    inherited member where nothing was stored. *)
Definition objectPrototypeKeys : list string :=
  ["constructor"; "__defineGetter__"; "__defineSetter__"; "hasOwnProperty";
   "__lookupGetter__"; "__lookupSetter__"; "isPrototypeOf";
   "propertyIsEnumerable"; "toString"; "valueOf"; "__proto__";
   "toLocaleString"].

(** A key at which a plain object holds what was stored, and nothing
    else. *)
Definition isPlainKey (key : string) : bool :=
  negb (existsb (String.eqb key) objectPrototypeKeys).

(** ** Strings of white space *)

(** Every character of the string is white space. *)
Definition allWhiteSpace (s : string) : bool :=
  forallb isWhiteSpace (codePoints s).

(** ** Events for concrete runs of the handlers *)

Definition demoItemEvents : list ItemObtainedEvent.t :=
  [ItemObtainedEvent.mk "player_001" "sword_999" "神々の剣" "UR" true;
   ItemObtainedEvent.mk "player_001" "potion_001" "HP回復薬" "N" true;
   ItemObtainedEvent.mk "player_001" "sword_999" "神々の剣" "UR" false].


(** * Theorems *)

(** ** Sanity checks on concrete runs *)

Example demoPlayer_constructed :
  Player.new "player_001" "タロウ" 2000 = inr demoPlayer.
Proof. reflexivity. Qed.

Example demoPool_size : length demoPool = 8%nat.
Proof. reflexivity. Qed.

Example demoPool_totalWeight :
  SimpleGachaMachine.totalWeight demoPool = 100%Q.
Proof. reflexivity. Qed.

(** ** Equations of the player's methods *)

(** One step of a monadic sequence. *)
Ltac mstep := unfold bind at 1; cbv beta iota.

Lemma spendCurrency_eq (p : Player.t) (amount : Z) (reason : string) :
  Player.spendCurrency amount reason p =
  if amount <? 0 then (inl (InvalidSpendAmount amount), p)
  else if Player.gachaCurrency p <? amount
  then (inl (InsufficientBalance amount (Player.gachaCurrency p)), p)
  else (inr tt,
        Player.mk (Player.id p) (Player.playerName p)
          (Player.gachaCurrency p - amount) (Player.inventory p)
          (Player.getEvents p ++
           [CurrencySpentEvent (Player.id p) amount
              (Player.gachaCurrency p - amount) reason None])).
Proof.
  unfold Player.spendCurrency, Player.gachaCurrency.
  destruct (amount <? 0); [reflexivity|].
  unfold bind, gets; simpl.
  destruct (Player._gachaCurrency p <? amount); reflexivity.
Qed.

Lemma addCurrency_eq (p : Player.t) (amount : Z) :
  Player.addCurrency amount p =
  if amount <? 0 then (inl (InvalidAddAmount amount), p)
  else (inr tt, Player.set_gachaCurrency (Player.gachaCurrency p + amount) p).
Proof.
  unfold Player.addCurrency. destruct (amount <? 0); reflexivity.
Qed.

Lemma addItem_eq (p : Player.t) (item : GachaItem.t) :
  Player.addItem item p =
  if Player.hasItem item p
  then (inl (ItemAlreadyOwned (GachaItem.name item) (GachaItem.id item)), p)
  else (inr tt, Player.set_inventory (Player.inventory p ++ [item]) p).
Proof.
  unfold Player.addItem, bind, gets; simpl.
  destruct (Player.hasItem item p); reflexivity.
Qed.

Lemma hasItem_iff (p : Player.t) (item : GachaItem.t) :
  Player.hasItem item p = true <->
  exists owned, In owned (Player.inventory p) /\
                GachaItem.id owned = GachaItem.id item.
Proof.
  unfold Player.hasItem, Player.inventory. rewrite existsb_exists.
  split; intros [owned [Hin Heq]]; exists owned; split; trivial;
    unfold GachaItem.equals, GachaItem.id in *.
  - now apply String.eqb_eq.
  - now apply String.eqb_eq.
Qed.

Lemma canAffordGacha_iff (p : Player.t) (cost : Z) :
  Player.canAffordGacha cost p = true <->
  0 <= cost /\ cost <= Player.gachaCurrency p.
Proof.
  unfold Player.canAffordGacha, Player.gachaCurrency.
  rewrite andb_true_iff, !Z.leb_le. tauto.
Qed.

Lemma runCall_keeps_nonneg (c : CurrencyCall) (p : Player.t) :
  0 <= Player.gachaCurrency p ->
  0 <= Player.gachaCurrency (snd (runCall c p)).
Proof.
  intros Hp. destruct c as [amount reason | amount]; simpl.
  - rewrite spendCurrency_eq.
    destruct (amount <? 0) eqn:Hneg; [exact Hp|].
    destruct (Player.gachaCurrency p <? amount) eqn:Hlt; [exact Hp|].
    apply Z.ltb_ge in Hlt. simpl. unfold Player.gachaCurrency; simpl.
    unfold Player.gachaCurrency in Hlt. lia.
  - rewrite addCurrency_eq.
    destruct (amount <? 0) eqn:Hneg; [exact Hp|].
    apply Z.ltb_ge in Hneg. simpl. unfold Player.gachaCurrency in *; simpl.
    lia.
Qed.


Lemma new_player_nonneg (id name : string) (c0 : Z) (p0 : Player.t) :
  Player.new id name c0 = inr p0 ->
  0 <= Player.gachaCurrency p0 /\ Player.inventory p0 = [] /\
  Player.getEvents p0 = [].
Proof.
  unfold Player.new.
  destruct (isBlank id); [discriminate|].
  destruct (isBlank name); [discriminate|].
  destruct (c0 <? 0) eqn:Hneg; [discriminate|].
  intros H; injection H as <-. apply Z.ltb_ge in Hneg.
  repeat split; trivial.
Qed.

(** ** The debit: [Player.spendCurrency] *)


Example spendCurrency_runs :
  Player.spendCurrency 100 "gacha" demoPlayer =
  (inr tt,
   Player.mk "player_001" "タロウ" 1900 []
     [CurrencySpentEvent "player_001" 100 1900 "gacha" None]) /\
  Player.spendCurrency (-1) "gacha" demoPlayer =
  (inl (InvalidSpendAmount (-1)), demoPlayer) /\
  Player.spendCurrency 2001 "gacha" demoPlayer =
  (inl (InsufficientBalance 2001 2000), demoPlayer) /\
  map Player.gachaCurrency
    (statesAfter [Debit 2000 "gacha"; Debit 1 "shop"; Credit (-5); Credit 7]
       demoPlayer) = [0; 0; 0; 7].
Proof. repeat split. Qed.

(** ** Affordability: [Player.canAffordGacha] *)

(** On whole amounts, [canAffordGacha c] answers true exactly when
    [spendCurrency c] would not throw, and both amount to
    [0 <= c <= balance]. *)
Theorem canAffordGacha_iff_spendCurrency_succeeds
    (p : Player.t) (c : Z) (reason : string) :
  (Player.canAffordGacha c p = true <->
   succeeds (Player.spendCurrency c reason p)) /\
  (Player.canAffordGacha c p = true <->
   0 <= c /\ c <= Player.gachaCurrency p) /\
  (succeeds (Player.spendCurrency c reason p) <->
   0 <= c /\ c <= Player.gachaCurrency p).
Proof.
  assert (Hs : succeeds (Player.spendCurrency c reason p) <->
               0 <= c /\ c <= Player.gachaCurrency p).
  { rewrite spendCurrency_eq. unfold succeeds.
    destruct (c <? 0) eqn:Hneg.
    - apply Z.ltb_lt in Hneg. split.
      + intros [a Ha]; discriminate.
      + lia.
    - apply Z.ltb_ge in Hneg.
      destruct (Player.gachaCurrency p <? c) eqn:Hlt.
      + apply Z.ltb_lt in Hlt. split.
        * intros [a Ha]; discriminate.
        * lia.
      + apply Z.ltb_ge in Hlt. split.
        * lia.
        * intros _. exists tt. reflexivity. }
  pose proof (canAffordGacha_iff p c) as Hc.
  repeat split; try tauto.
Qed.

(** ** Comparisons of IEEE doubles *)

Lemma SFcompare_antisym (a b : spec_float) :
  SFcompare b a = option_map CompOpp (SFcompare a b).
Proof.
  destruct a as [sa|sa| |sa ma ea], b as [sb|sb| |sb mb eb];
    try reflexivity;
    try (destruct sa; reflexivity);
    try (destruct sb; reflexivity);
    try (destruct sa, sb; reflexivity).
  destruct sa, sb; try reflexivity; simpl;
    rewrite (Z.compare_antisym ea eb);
    change (Pos.compare_cont Eq mb ma) with (Pos.compare mb ma);
    change (Pos.compare_cont Eq ma mb) with (Pos.compare ma mb);
    rewrite (Pos.compare_antisym ma mb);
    destruct (ea ?= eb)%Z; simpl; try reflexivity;
    destruct (ma ?= mb)%positive; reflexivity.
Qed.

Lemma is_nan_false (x : float) :
  PrimFloat.is_nan x = false -> Prim2SF x <> S754_nan.
Proof.
  unfold PrimFloat.is_nan. rewrite FloatAxioms.eqb_spec. intros H Hnan.
  rewrite Hnan in H. discriminate.
Qed.

(** Away from NaN, [x < y] is the negation of [y <= x]. *)
Lemma ltb_negb_leb (x y : float) :
  PrimFloat.is_nan x = false ->
  PrimFloat.is_nan y = false ->
  PrimFloat.ltb x y = negb (PrimFloat.leb y x).
Proof.
  intros Hx Hy. apply is_nan_false in Hx. apply is_nan_false in Hy.
  rewrite FloatAxioms.ltb_spec, FloatAxioms.leb_spec. unfold SFltb, SFleb.
  rewrite (SFcompare_antisym (Prim2SF x) (Prim2SF y)).
  destruct (Prim2SF x) as [sa|sa| |sa ma ea] eqn:Ha; try congruence;
  destruct (Prim2SF y) as [sb|sb| |sb mb eb] eqn:Hb; try congruence;
  destruct (SFcompare _ _) as [[]|] eqn:Hc; try reflexivity;
  simpl in Hc; try discriminate; destruct sa; try destruct sb; discriminate.
Qed.


Lemma SFleb_trans (a b c : spec_float) :
  SFleb a b = true -> SFleb b c = true -> SFleb a c = true.
Proof.
  unfold SFleb.
  destruct a as [sa|sa| |sa ma ea], b as [sb|sb| |sb mb eb],
    c as [sc|sc| |sc mc ec];
    try (simpl; congruence);
    try (destruct sa; simpl; congruence);
    try (destruct sb; simpl; congruence);
    try (destruct sc; simpl; congruence);
    try (destruct sa, sb; simpl; congruence);
    try (destruct sa, sc; simpl; congruence);
    try (destruct sb, sc; simpl; congruence);
    try (destruct sa, sb, sc; simpl; congruence).
  destruct sa, sb, sc; simpl; try congruence;
    change (Pos.compare_cont Eq ma mb) with (Pos.compare ma mb);
    change (Pos.compare_cont Eq mb mc) with (Pos.compare mb mc);
    change (Pos.compare_cont Eq ma mc) with (Pos.compare ma mc);
    destruct (Z.compare_spec ea eb), (Z.compare_spec eb ec),
      (Z.compare_spec ea ec); try lia; try congruence; simpl;
    destruct (Pos.compare_spec ma mb), (Pos.compare_spec mb mc),
      (Pos.compare_spec ma mc); simpl; try lia; congruence.
Qed.

Lemma leb_trans (x y z : float) :
  PrimFloat.leb x y = true ->
  PrimFloat.leb y z = true ->
  PrimFloat.leb x z = true.
Proof. rewrite !FloatAxioms.leb_spec. apply SFleb_trans. Qed.

(** ** The guards of the balance on IEEE doubles *)

(** C9, as stated, fails at NaN, which is a number: [canAffordGacha(NaN)]
    answers false, and [spendCurrency(NaN)] does not throw, since neither
    [NaN < 0] nor [balance < NaN] holds; it leaves NaN as the balance and
    records the event.  The same happens to any cost once the balance is
    NaN, which the constructor lets through. *)
Lemma spendCurrency_does_not_throw_on_NaN :
  Binary64.Player.new "player_001" "タロウ" 2000 = inr demoPlayer64 /\
  Binary64.Player.canAffordGacha nan demoPlayer64 = false /\
  Binary64.Player.spendCurrency nan "gacha" demoPlayer64 =
  (inr tt,
   Binary64.Player.mk "player_001" "タロウ" nan []
     [Binary64.Player.mkCurrencySpentEvent "player_001" nan nan "gacha"]) /\
  Binary64.Player.new "player_001" "タロウ" nan =
  inr (Binary64.Player.mk "player_001" "タロウ" nan [] []) /\
  Binary64.Player.canAffordGacha 100
    (Binary64.Player.mk "player_001" "タロウ" nan [] []) = false /\
  fst (Binary64.Player.spendCurrency 100 "gacha"
         (Binary64.Player.mk "player_001" "タロウ" nan [] [])) = inr tt.
Proof. vm_compute. repeat split. Qed.

(** C9, amended.  For a balance and a cost that are numbers other than NaN
    (infinities and fractions included): [canAffordGacha] answers true
    exactly when [spendCurrency] does not throw, and exactly when
    [cost >= 0] and [balance >= cost]. *)
Theorem canAffordGacha_iff_spendCurrency_succeeds_without_NaN
    (p : Binary64.Player.t) (cost : float) (reason : string) :
  PrimFloat.is_nan (Binary64.Player.gachaCurrency p) = false ->
  PrimFloat.is_nan cost = false ->
  (Binary64.Player.canAffordGacha cost p = true <->
   fst (Binary64.Player.spendCurrency cost reason p) = inr tt) /\
  (Binary64.Player.canAffordGacha cost p = true <->
   (0 <=? cost)%float = true /\
   (cost <=? Binary64.Player.gachaCurrency p)%float = true) /\
  (fst (Binary64.Player.spendCurrency cost reason p) = inr tt <->
   (cost <? 0)%float = false /\
   (Binary64.Player.gachaCurrency p <? cost)%float = false).
Proof.
  intros Hbalance Hcost.
  unfold Binary64.Player.canAffordGacha, Binary64.Player.spendCurrency,
    Binary64.Player.gachaCurrency in *.
  rewrite (ltb_negb_leb cost 0 Hcost eq_refl).
  rewrite (ltb_negb_leb _ cost Hbalance Hcost).
  destruct (0 <=? cost)%float, (cost <=? Binary64.Player._gachaCurrency p)%float;
    simpl; repeat split; intros; try discriminate; try tauto;
    try (destruct H; discriminate).
Qed.

Lemma canAffordGacha_iff_spendCurrency_succeeds_witness :
  (Binary64.Player.canAffordGacha 100 demoPlayer64 = true <->
   fst (Binary64.Player.spendCurrency 100 "gacha" demoPlayer64) = inr tt) /\
  (Binary64.Player.canAffordGacha 100 demoPlayer64 = true <->
   (0 <=? 100)%float = true /\
   (100 <=? Binary64.Player.gachaCurrency demoPlayer64)%float = true) /\
  (fst (Binary64.Player.spendCurrency 100 "gacha" demoPlayer64) = inr tt <->
   (100 <? 0)%float = false /\
   (Binary64.Player.gachaCurrency demoPlayer64 <? 100)%float = false).
Proof.
  apply (canAffordGacha_iff_spendCurrency_succeeds_without_NaN
           demoPlayer64 100%float "gacha").
  - reflexivity.
  - reflexivity.
Defined.

(** ** Adding an item: [Player.addItem] *)

(** C10. [hasItem] is membership by id.  On an item whose id is owned,
    [addItem] throws and leaves the player (so the inventory) as it was;
    on any other item it appends the item to the inventory.  The salvage
    of duplicates is not done here. *)
Theorem addItem_throws_on_owned_id (p : Player.t) (item : GachaItem.t) :
  (Player.hasItem item p = true <->
   exists owned, In owned (Player.inventory p) /\
                 GachaItem.id owned = GachaItem.id item) /\
  (Player.hasItem item p = true ->
   Player.addItem item p =
   (inl (ItemAlreadyOwned (GachaItem.name item) (GachaItem.id item)), p)) /\
  (Player.hasItem item p = false ->
   exists p',
     Player.addItem item p = (inr tt, p') /\
     Player.inventory p' = Player.inventory p ++ [item] /\
     Player.gachaCurrency p' = Player.gachaCurrency p /\
     Player.getEvents p' = Player.getEvents p) /\
  (succeeds (Player.addItem item p) <->
   ~ exists owned, In owned (Player.inventory p) /\
                   GachaItem.id owned = GachaItem.id item).
Proof.
  pose proof (hasItem_iff p item) as Hiff.
  rewrite addItem_eq. repeat split.
  - apply Hiff.
  - apply Hiff.
  - intros ->. reflexivity.
  - intros ->. eexists; repeat split.
  - intros [a Ha] Hex. apply Hiff in Hex. rewrite Hex in Ha. discriminate.
  - intros Hno. destruct (Player.hasItem item p) eqn:Hhas.
    + exfalso. apply Hno, Hiff. reflexivity.
    + exists tt. reflexivity.
Qed.

Example addItem_runs :
  Player.addItem urItem urOwner =
  (inl (ItemAlreadyOwned "神々の剣" "sword_999"), urOwner) /\
  Player.inventory (snd (Player.addItem urItem demoPlayer)) = [urItem].
Proof. vm_compute. split; reflexivity. Qed.

(** ** The draw transaction: [GachaService.executeSingleGacha] *)

Lemma calculateSellPrice_cases (rarity : Rarity.t) :
  In (GachaService.calculateSellPrice rarity) [0; 10; 50; 200; 1000; 5000].
Proof.
  unfold GachaService.calculateSellPrice.
  destruct (GachaService.priceMap !! Rarity.value rarity) as [price|] eqn:Hl;
    [|simpl; tauto].
  unfold GachaService.priceMap in Hl.
  apply elem_of_list_to_map_2 in Hl.
  repeat (apply elem_of_cons in Hl as [Hl|Hl];
          [injection Hl as _ ->; simpl; tauto|]).
  inversion Hl.
Qed.

Lemma calculateSellPrice_nonneg (rarity : Rarity.t) :
  0 <= GachaService.calculateSellPrice rarity.
Proof.
  pose proof (calculateSellPrice_cases rarity) as H. simpl in H.
  intuition lia.
Qed.


Lemma executeGacha_eq (cost : Z) (mode : ExecutionType)
    (machine : SimpleGachaMachine.t) (random : Q) (p : Player.t) :
  GachaService.executeGacha cost mode machine random p =
  if negb (Player.canAffordGacha cost p)
  then (inl (InsufficientBalance cost (Player.gachaCurrency p)), p)
  else
    let p1 := afterDebit cost mode p in
    match SimpleGachaMachine.draw machine random with
    | inl e => (inl e, p1)
    | inr item =>
        if Player.hasItem item p
        then (inr item,
              Player.mk (Player.id p) (Player.playerName p)
                (Player.gachaCurrency p - cost +
                 GachaService.calculateSellPrice (GachaItem.rarity item))
                (Player.inventory p)
                (Player.getEvents p1 ++ [itemObtained p item false]))
        else (inr item,
              Player.mk (Player.id p) (Player.playerName p)
                (Player.gachaCurrency p - cost)
                (Player.inventory p ++ [item])
                (Player.getEvents p1 ++ [itemObtained p item true]))
    end.
Proof.
  unfold GachaService.executeGacha.
  mstep. unfold gets at 1. cbv beta iota.
  destruct (Player.canAffordGacha cost p) eqn:Hafford;
    cbv beta iota delta [negb].
  2: reflexivity.
  apply canAffordGacha_iff in Hafford as [Hpos Hle].
  mstep. rewrite spendCurrency_eq.
  apply Z.ltb_ge in Hpos, Hle. rewrite Hpos, Hle.
  mstep. unfold gets at 1. cbv beta iota.
  mstep. unfold Player.addEvent at 1, modify at 1. cbv beta iota.
  mstep. unfold liftResult at 1. cbv beta iota.
  destruct (SimpleGachaMachine.draw machine random) as [e|item].
  - unfold afterDebit. simpl. rewrite <- app_assoc. reflexivity.
  - mstep. unfold gets at 1. cbv beta iota.
    change (Player.hasItem item _) with (Player.hasItem item p).
    destruct (Player.hasItem item p) eqn:Hhas;
      cbv beta iota zeta delta [negb].
    + mstep. rewrite addCurrency_eq.
      pose proof (calculateSellPrice_nonneg (GachaItem.rarity item)) as Hp.
      apply Z.ltb_ge in Hp. rewrite Hp.
      unfold bind, Player.addEvent, modify, ret, afterDebit, itemObtained.
      simpl. rewrite <- !app_assoc. reflexivity.
    + mstep. rewrite addItem_eq.
      change (Player.hasItem item _) with (Player.hasItem item p).
      rewrite Hhas.
      unfold bind, Player.addEvent, modify, ret, afterDebit, itemObtained.
      simpl. rewrite <- !app_assoc. reflexivity.
Qed.

(** C5. A draw whose cost is negative or above the balance throws the
    insufficient-balance error and leaves the player as it was: balance,
    inventory and pending events. *)
Theorem executeGacha_unaffordable_changes_nothing
    (p : Player.t) (machine : SimpleGachaMachine.t) (random : Q)
    (cost : Z) (mode : ExecutionType) :
  cost < 0 \/ Player.gachaCurrency p < cost ->
  GachaService.executeGacha cost mode machine random p =
  (inl (InsufficientBalance cost (Player.gachaCurrency p)), p) /\
  (cost = 100 -> mode = single ->
   GachaService.executeSingleGacha machine random p =
   (inl (InsufficientBalance 100 (Player.gachaCurrency p)), p)).
Proof.
  intros Hcost.
  assert (Hno : Player.canAffordGacha cost p = false).
  { destruct (Player.canAffordGacha cost p) eqn:Hc; [|reflexivity].
    apply canAffordGacha_iff in Hc. lia. }
  assert (Heq : GachaService.executeGacha cost mode machine random p =
                (inl (InsufficientBalance cost (Player.gachaCurrency p)), p)).
  { rewrite executeGacha_eq, Hno. reflexivity. }
  split; [exact Heq|].
  intros -> ->. exact Heq.
Qed.

Lemma executeGacha_unaffordable_witness :
  GachaService.executeGacha 3000 single demoPool 0%Q demoPlayer =
  (inl (InsufficientBalance 3000 (Player.gachaCurrency demoPlayer)),
   demoPlayer).
Proof.
  apply (executeGacha_unaffordable_changes_nothing
           demoPlayer demoPool 0%Q 3000 single).
  right. vm_compute. reflexivity.
Defined.

(** *** The order of the events of one draw *)

Example demoPool_draws_ur :
  SimpleGachaMachine.draw demoPool (999 # 1000) = inr urItem.
Proof. vm_compute. reflexivity. Qed.

Example urOwner_state :
  Player.gachaCurrency urOwner = 1900 /\
  Player.inventory urOwner = [urItem] /\
  map getEventName (Player.getEvents urOwner) =
  ["CurrencySpent"; "GachaExecuted"; "ItemObtained"].
Proof. vm_compute. repeat split. Qed.

(** The end-to-end scenario: 2000, a UR, the same UR again. *)
Example second_ur_draw_balance :
  Player.gachaCurrency
    (snd (GachaService.executeSingleGacha demoPool (999 # 1000) urOwner))
  = 6800.
Proof. vm_compute. reflexivity. Qed.

(** C1, as stated, fails: the draw of the demo player appends
    CurrencySpent, GachaExecuted, ItemObtained, so ItemObtained does not
    precede GachaExecuted. *)
Lemma executeSingleGacha_order_counterexample :
  (exists item,
     fst (GachaService.executeSingleGacha demoPool 0 demoPlayer) =
     inr item) /\
  Player.getEvents demoPlayer = [] /\
  map getEventName
    (Player.getEvents
       (snd (GachaService.executeSingleGacha demoPool 0 demoPlayer))) =
  ["CurrencySpent"; "GachaExecuted"; "ItemObtained"] /\
  ~ debit_reward_draw_order
      (Player.getEvents
         (snd (GachaService.executeSingleGacha demoPool 0 demoPlayer))).
Proof.
  assert (Hnames :
    map getEventName
      (Player.getEvents
         (snd (GachaService.executeSingleGacha demoPool 0 demoPlayer))) =
    ["CurrencySpent"; "GachaExecuted"; "ItemObtained"])
    by (vm_compute; reflexivity).
  split; [eexists; vm_compute; reflexivity|].
  split; [reflexivity|].
  split; [exact Hnames|].
  unfold debit_reward_draw_order. rewrite Hnames.
  intros [_ [i [j [Hi [Hj Hlt]]]]].
  destruct i as [|[|[|i]]]; simpl in Hi; try discriminate.
  destruct j as [|[|[|j]]]; simpl in Hj; try discriminate; lia.
Qed.

(** C1, amended. A draw that succeeds appends exactly three events, in
    this order: CurrencySpent (the debit, with the balance after it),
    GachaExecuted (the draw), ItemObtained (the reward). *)
Theorem executeSingleGacha_appends_spent_executed_obtained
    (p : Player.t) (machine : SimpleGachaMachine.t) (random : Q)
    (item : GachaItem.t) (p' : Player.t) :
  GachaService.executeSingleGacha machine random p = (inr item, p') ->
  Player.getEvents p' =
  Player.getEvents p ++
  [CurrencySpentEvent (Player.id p) 100 (Player.gachaCurrency p - 100)
     "gacha" None;
   GachaExecutedEvent (Player.id p) 100 single;
   ItemObtainedEvent (Player.id p) (GachaItem.id item) (GachaItem.name item)
     (Rarity.value (GachaItem.rarity item)) (negb (Player.hasItem item p))] /\
  debit_draw_reward_order
    (drop (length (Player.getEvents p)) (Player.getEvents p')).
Proof.
  unfold GachaService.executeSingleGacha. rewrite executeGacha_eq.
  intros Hrun.
  assert (Hev : Player.getEvents p' =
    Player.getEvents p ++
    [CurrencySpentEvent (Player.id p) 100 (Player.gachaCurrency p - 100)
       "gacha" None;
     GachaExecutedEvent (Player.id p) 100 single;
     ItemObtainedEvent (Player.id p) (GachaItem.id item)
       (GachaItem.name item) (Rarity.value (GachaItem.rarity item))
       (negb (Player.hasItem item p))]).
  { destruct (Player.canAffordGacha 100 p); [|discriminate].
    cbv beta iota zeta delta [negb] in Hrun.
    destruct (SimpleGachaMachine.draw machine random) as [e|drawn];
      [discriminate|].
    destruct (Player.hasItem drawn p) eqn:Hhas;
      injection Hrun as <- <-; rewrite Hhas;
      unfold afterDebit, itemObtained; simpl;
      rewrite <- app_assoc; reflexivity. }
  split; [exact Hev|].
  rewrite Hev, drop_app_length.
  split.
  - exists 0%nat, 1%nat. repeat split. lia.
  - exists 1%nat, 2%nat. repeat split. lia.
Qed.

Lemma executeSingleGacha_appends_witness :
  Player.getEvents urOwner =
  Player.getEvents demoPlayer ++
  [CurrencySpentEvent (Player.id demoPlayer) 100
     (Player.gachaCurrency demoPlayer - 100) "gacha" None;
   GachaExecutedEvent (Player.id demoPlayer) 100 single;
   ItemObtainedEvent (Player.id demoPlayer) (GachaItem.id urItem)
     (GachaItem.name urItem) (Rarity.value (GachaItem.rarity urItem))
     (negb (Player.hasItem urItem demoPlayer))] /\
  debit_draw_reward_order
    (drop (length (Player.getEvents demoPlayer)) (Player.getEvents urOwner)).
Proof.
  apply (executeSingleGacha_appends_spent_executed_obtained
           demoPlayer demoPool (999 # 1000) urItem urOwner).
  vm_compute. reflexivity.
Defined.

(** *** Duplicates: salvage instead of a second copy *)



(** ** The inventory: what grows it, what shrinks it *)

Lemma removeItem_eq (p : Player.t) (item : GachaItem.t) :
  Player.removeItem item p =
  if negb (Player.hasItem item p)
  then (inl (ItemNotOwned (GachaItem.name item) (GachaItem.id item)), p)
  else
    let kept :=
      List.filter
        (fun inventoryItem => negb (GachaItem.equals inventoryItem item))
        (Player.inventory p) in
    if (length kept =? length (Player.inventory p))%nat
    then (inl (ItemRemovalFailed (GachaItem.id item)),
          Player.set_inventory kept p)
    else (inr tt, Player.set_inventory kept p).
Proof.
  unfold Player.removeItem. mstep. unfold gets at 1. cbv beta iota.
  destruct (Player.hasItem item p); cbv beta iota delta [negb].
  - unfold bind, gets, modify, Player.inventory. simpl.
    destruct (_ =? _)%nat; reflexivity.
  - reflexivity.
Qed.

Lemma filter_out_shorter {A} (f : A -> bool) (l : list A) :
  existsb f l = true ->
  (length (List.filter (fun x => negb (f x)) l) < length l)%nat.
Proof.
  induction l as [|x l IH]; simpl; [discriminate|].
  pose proof (List.filter_length_le (fun x => negb (f x)) l) as Hle.
  destruct (f x); simpl.
  - intros _. lia.
  - intros H. apply IH in H. lia.
Qed.

Lemma filter_out_none {A} (f : A -> bool) (l : list A) :
  existsb f (List.filter (fun x => negb (f x)) l) = false.
Proof.
  induction l as [|x l IH]; simpl; [reflexivity|].
  destruct (f x) eqn:Hfx; simpl; [exact IH|].
  now rewrite Hfx.
Qed.

(** C4, as stated, fails: [Player.removeItem] is a public operation, and it
    removes the owned UR item from the inventory. *)
Lemma removeItem_shrinks_inventory :
  In urItem (Player.inventory urOwner) /\
  fst (Player.removeItem urItem urOwner) = inr tt /\
  Player.inventory (snd (Player.removeItem urItem urOwner)) = [] /\
  ~ (forall item,
       In item (Player.inventory urOwner) ->
       In item (Player.inventory (runOp (OpRemoveItem urItem) urOwner))).
Proof.
  assert (Hinv : Player.inventory (snd (Player.removeItem urItem urOwner))
                 = []) by (vm_compute; reflexivity).
  assert (Hin : In urItem (Player.inventory urOwner))
    by (vm_compute; left; reflexivity).
  split; [exact Hin|].
  split; [vm_compute; reflexivity|].
  split; [exact Hinv|].
  intros Hall. specialize (Hall urItem Hin).
  change (runOp (OpRemoveItem urItem) urOwner)
    with (snd (Player.removeItem urItem urOwner)) in Hall.
  rewrite Hinv in Hall. exact Hall.
Qed.

(** C4, amended. Every operation on a player other than [removeItem] leaves
    the inventory as it was or appends one item that was not owned (a
    successful [addItem], which the draw calls on a first-time item): no
    member is removed.  [removeItem], on an owned item, removes every member
    with that id, and the inventory gets shorter. *)
Theorem inventory_shrinks_only_by_removeItem (op : PlayerOp) (p : Player.t) :
  (isRemoveItem op = false ->
   exists added,
     Player.inventory (runOp op p) = Player.inventory p ++ added /\
     (added = [] \/
      exists item, added = [item] /\ Player.hasItem item p = false)) /\
  (forall item,
     op = OpRemoveItem item ->
     Player.hasItem item p = true ->
     Player.removeItem item p = (inr tt, runOp op p) /\
     Player.inventory (runOp op p) =
     List.filter (fun owned => negb (GachaItem.equals owned item))
                 (Player.inventory p) /\
     Player.hasItem item (runOp op p) = false /\
     (length (Player.inventory (runOp op p)) <
      length (Player.inventory p))%nat).
Proof.
  split.
  - intros Hop.
    destruct op as [item|item|amount|amount reason|event| |machine random];
      simpl in Hop; try discriminate; simpl runOp.
    + rewrite addItem_eq. destruct (Player.hasItem item p) eqn:Hhas.
      * exists []. rewrite app_nil_r. auto.
      * exists [item]. split; [reflexivity|]. right. eauto.
    + rewrite addCurrency_eq. exists []. rewrite app_nil_r.
      destruct (amount <? 0); auto.
    + rewrite spendCurrency_eq. exists []. rewrite app_nil_r.
      destruct (amount <? 0); [auto|].
      destruct (Player.gachaCurrency p <? amount); auto.
    + exists []. rewrite app_nil_r. auto.
    + exists []. rewrite app_nil_r. auto.
    + unfold GachaService.executeSingleGacha. rewrite executeGacha_eq.
      destruct (Player.canAffordGacha 100 p); cbv beta iota zeta delta [negb].
      2: { exists []. rewrite app_nil_r. auto. }
      destruct (SimpleGachaMachine.draw machine random) as [e|item].
      { exists []. rewrite app_nil_r. auto. }
      destruct (Player.hasItem item p) eqn:Hhas.
      * exists []. rewrite app_nil_r. auto.
      * exists [item]. split; [reflexivity|]. right. eauto.
  - intros item -> Hhas. simpl runOp.
    rewrite removeItem_eq, Hhas. change (negb true) with false.
    cbv beta iota zeta.
    pose proof (filter_out_shorter
                  (fun owned => GachaItem.equals owned item)
                  (Player.inventory p) Hhas) as Hlt.
    cbv beta in Hlt.
    destruct (_ =? _)%nat eqn:Hsame.
    { apply Nat.eqb_eq in Hsame. lia. }
    simpl. repeat split.
    + unfold Player.hasItem. simpl. apply filter_out_none.
    + exact Hlt.
Qed.

(** ** Weighted sampling: [SimpleGachaMachine.draw] *)

Section Sampling.

Import SimpleGachaMachine.

Lemma totalWeight_cumulativeFrom (pool : t) :
  totalWeight pool = cumulativeFrom 0 pool.
Proof. reflexivity. Qed.

Lemma drawLoop_some (rv acc : Q) (pool : t) (r : Result GachaItem.t) :
  drawLoop rv acc pool = Some r ->
  exists pre e post,
    pool = pre ++ e :: post /\
    (rv <= cumulativeFrom acc (pre ++ [e]))%Q /\
    noMatchFrom acc rv pre /\
    r = itemOf e.
Proof.
  revert acc. induction pool as [|x rest IH]; intros acc; simpl.
  - discriminate.
  - destruct (Qle_bool rv (acc + weight x)) eqn:Htest.
    + intros H; injection H as <-.
      exists [], x, rest. repeat split.
      * now apply Qle_bool_iff.
      * intros pre' e' post' Hnil.
        now destruct pre'.
    + intros Hloop. apply IH in Hloop as (pre & e & post & -> & Hle & Hno & ->).
      exists (x :: pre), e, post. repeat split.
      * exact Hle.
      * intros pre' e' post' Hsplit.
        destruct pre' as [|y pre'']; simpl in Hsplit;
          injection Hsplit as <- Hrest.
        -- simpl. intros Hq. apply Qle_bool_iff in Hq. congruence.
        -- simpl. now apply (Hno pre'' e' post').
Qed.

Lemma drawLoop_none (rv acc : Q) (pool : t) :
  drawLoop rv acc pool = None <-> noMatchFrom acc rv pool.
Proof.
  revert acc. induction pool as [|x rest IH]; intros acc; simpl.
  - split; [|reflexivity].
    intros _ pre e post Hnil. now destruct pre.
  - destruct (Qle_bool rv (acc + weight x)) eqn:Htest.
    + split; [discriminate|].
      intros Hno. exfalso. apply (Hno [] x rest eq_refl).
      simpl. now apply Qle_bool_iff.
    + rewrite IH. split.
      * intros Hno pre e post Hsplit.
        destruct pre as [|y pre']; simpl in Hsplit;
          injection Hsplit as <- Hrest.
        -- simpl. intros Hq. apply Qle_bool_iff in Hq. congruence.
        -- simpl. now apply (Hno pre' e post).
      * intros Hno pre e post ->.
        apply (Hno (x :: pre) e post eq_refl).
Qed.

Lemma positive_total_nonempty (pool : t) :
  (0 < totalWeight pool)%Q -> exists pre e, pool = pre ++ [e].
Proof.
  destruct pool as [|x rest] using rev_ind.
  - intros H. now apply Qlt_irrefl in H.
  - intros _. eauto.
Qed.

Lemma drawAt_first_match (pool : t) (rv : Q) :
  (0 < totalWeight pool)%Q ->
  (rv < totalWeight pool)%Q ->
  exists pre e post,
    pool = pre ++ e :: post /\
    (rv <= totalWeight (pre ++ [e]))%Q /\
    noMatchFrom 0 rv pre /\
    drawAt pool rv = itemOf e.
Proof.
  intros Hpos Hlt. unfold drawAt.
  destruct (drawLoop rv 0 pool) as [r|] eqn:Hloop.
  - apply drawLoop_some in Hloop as (pre & e & post & Hpool & Hle & Hno & ->).
    exists pre, e, post. repeat split; trivial.
  - exfalso. apply drawLoop_none in Hloop.
    destruct (positive_total_nonempty pool Hpos) as (pre & e & Hpool).
    apply (Hloop pre e [] Hpool). rewrite <- Hpool.
    rewrite <- totalWeight_cumulativeFrom. now apply Qlt_le_weak.
Qed.

Lemma drawAt_no_match (fallback : PoolItem) (rest : t) (rv : Q) :
  noMatchFrom 0 rv (fallback :: rest) ->
  drawAt (fallback :: rest) rv =
  GachaItem.new (id fallback) (name fallback) (rarity fallback) "".
Proof.
  intros Hnone. unfold drawAt.
  assert (Hloop : drawLoop rv 0 (fallback :: rest) = None)
    by now apply drawLoop_none.
  now rewrite Hloop.
Qed.

(** The items that the pool of the program can give. *)
Lemma demoPool_items_construct :
  Forall (fun e =>
            itemOf e =
            inr (GachaItem.mk (id e) (name e) (rarity e)
                   (generateDescription (rarity e))))
         demoPool.
Proof. repeat constructor. Qed.

(** On the pool of the program, a draw never throws: whatever
    [Math.random()] returns in [0, 1), the draw gives the item of an entry
    of the pool. *)
Lemma demoPool_draw_succeeds (random : Q) :
  (0 <= random)%Q ->
  (random < 1)%Q ->
  exists e,
    In e demoPool /\
    draw demoPool random =
    inr (GachaItem.mk (id e) (name e) (rarity e)
           (generateDescription (rarity e))).
Proof.
  intros Hge Hlt. unfold draw.
  destruct (drawAt_first_match demoPool (random * totalWeight demoPool))
    as (pre & e & post & Hpool & _ & _ & Hdraw).
  - reflexivity.
  - change (totalWeight demoPool) with 100%Q. lra.
  - assert (Hin : In e demoPool).
    { rewrite Hpool. apply in_or_app. right. left. reflexivity. }
    exists e. split; [exact Hin|].
    cbv zeta. rewrite Hdraw.
    pose proof demoPool_items_construct as Hall.
    rewrite List.Forall_forall in Hall. now apply Hall.
Qed.

End Sampling.

Example boundary_goes_to_earlier_entry :
  option_map GachaItem.id
    (match SimpleGachaMachine.drawAt demoPool 25 with
     | inr i => Some i | inl _ => None end) = Some "potion_001" /\
  option_map GachaItem.id
    (match SimpleGachaMachine.drawAt demoPool (251 # 10) with
     | inr i => Some i | inl _ => None end) = Some "bread_001".
Proof. vm_compute. split; reflexivity. Qed.

(** ** The draw on IEEE doubles *)

Lemma GachaItem_new_fields (id name : string) (rarity : Rarity.t)
    (description : string) (item : GachaItem.t) :
  GachaItem.new id name rarity description = inr item ->
  GachaItem.id item = id /\ GachaItem.name item = name /\
  GachaItem.rarity item = rarity /\ GachaItem.description item = description.
Proof.
  unfold GachaItem.new.
  destruct (isBlank id); [discriminate|].
  destruct (isBlank name); [discriminate|].
  intros H; injection H as <-. repeat split.
Qed.



Lemma drawLoop64_hits (rv acc : float)
    (pre : Binary64.SimpleGachaMachine.t)
    (e : Binary64.SimpleGachaMachine.PoolItem)
    (post : Binary64.SimpleGachaMachine.t) :
  noMatchFrom64 acc rv pre ->
  (rv <=? cumulativeFrom64 acc (pre ++ [e]))%float = true ->
  Binary64.SimpleGachaMachine.drawLoop rv acc (pre ++ e :: post) = Some e.
Proof.
  revert acc. induction pre as [|x pre IH]; intros acc Hno Hle; simpl.
  - simpl in Hle. now rewrite Hle.
  - pose proof (Hno [] x pre eq_refl) as Hx. simpl in Hx. rewrite Hx.
    apply IH; [|exact Hle].
    intros pr e' po ->. apply (Hno (x :: pr) e' po eq_refl).
Qed.



(** The draw value 50 sits on the upper boundary of the second entry, which
    wins it; the random number 0.8 (its double, 0x1.999999999999ap-1) gives
    the draw value 80 exactly, the product being rounded, and so the fourth
    entry; NaN matches no entry and gives the first one, with an empty
    description. *)
Example draws_on_the_program_pool :
  Binary64.SimpleGachaMachine.totalWeight demoPool64 = 100%float /\
  Binary64.SimpleGachaMachine.drawAt demoPool64 50 =
  inr (GachaItem.mk "bread_001" "硬いパン" (Rarity.mk "N" 50 "ノーマル")
         "一般的なアイテム。基本的な用途に適している。") /\
  (0x1.999999999999ap-1 * 100)%float = 80%float /\
  option_map GachaItem.id
    (match Binary64.SimpleGachaMachine.draw demoPool64 0x1.999999999999ap-1
     with inr i => Some i | inl _ => None end) = Some "shield_001" /\
  option_map (fun i => (GachaItem.id i, GachaItem.description i))
    (match Binary64.SimpleGachaMachine.drawAt demoPool64 nan with
     | inr i => Some i | inl _ => None end) = Some ("potion_001", "").
Proof. vm_compute. repeat split. Qed.

(** The fallback of [draw] can be reached by a draw value above the total
    weight; it gives the first entry, with an empty description. *)
Example fallback_is_first_entry :
  option_map (fun i => (GachaItem.id i, GachaItem.description i))
    (match SimpleGachaMachine.drawAt demoPool 101 with
     | inr i => Some i | inl _ => None end) = Some ("potion_001", "").
Proof. vm_compute. reflexivity. Qed.

(** ** Dispatching the events of an entity *)

Section DispatchEntity.

Import EventDispatcher.

Context {St : Type}.
Variable entity : Entity St.


Lemma dispatchEntityEvents_eq (handlers : EventDispatcher.t St) s :
  dispatchEntityEvents handlers entity s =
  if (length (getEvents entity s) =? 0)%nat then (inr tt, s)
  else
    match dispatchAll handlers (getEvents entity s) s with
    | (inr _, s1) => (inr tt, clearEvents entity s1)
    | (inl e, s1) => (inl e, s1)
    end.
Proof.
  unfold dispatchEntityEvents. mstep. unfold gets at 1. cbv beta iota.
  destruct (_ =? _)%nat; [reflexivity|].
  unfold bind, modify.
  destruct (dispatchAll handlers (getEvents entity s) s) as [[e|u] s1];
    reflexivity.
Qed.

Lemma promiseAll_keepsQueue handlers event s :
  Forall (keepsQueue entity) handlers ->
  getEvents entity
    (snd (promiseAll (map (fun handler => handler event) handlers) s)) =
  getEvents entity s.
Proof.
  intros Hall. revert s.
  induction Hall as [|h rest Hh _ IH]; intros s; simpl; [reflexivity|].
  specialize (Hh event s).
  destruct (h event s) as [r s1]; simpl in Hh.
  specialize (IH s1).
  destruct (promiseAll (map (fun handler => handler event) rest) s1)
    as [rs s2]; simpl in *.
  congruence.
Qed.

Lemma dispatch_keepsQueue handlers event s :
  handlersKeepQueue entity handlers ->
  getEvents entity (snd (dispatch handlers event s)) = getEvents entity s.
Proof.
  intros Hkeep. unfold dispatch.
  destruct (handlers !! getEventName event) as [registered|] eqn:Hl;
    simpl; [|reflexivity].
  destruct (_ =? _)%nat; [reflexivity|].
  apply promiseAll_keepsQueue. now apply (Hkeep _ _ Hl).
Qed.

Lemma dispatchAll_keepsQueue handlers events s :
  handlersKeepQueue entity handlers ->
  getEvents entity (snd (dispatchAll handlers events s)) =
  getEvents entity s.
Proof.
  intros Hkeep. revert s.
  induction events as [|event rest IH]; intros s; simpl; [reflexivity|].
  unfold bind.
  pose proof (dispatch_keepsQueue handlers event s Hkeep) as Hd.
  destruct (dispatch handlers event s) as [[e|u] s1]; simpl in *.
  - exact Hd.
  - rewrite IH. exact Hd.
Qed.

Lemma handlersKeepQueue_empty :
  handlersKeepQueue entity EventDispatcher.empty.
Proof.
  intros eventName registered Hl.
  unfold EventDispatcher.empty, EventDispatcher.t in Hl.
  now apply lookup_empty_Some in Hl.
Qed.

Lemma lookup_subscribe eventName handler (handlers : EventDispatcher.t St)
    other :
  subscribe eventName handler handlers !! other =
  if decide (eventName = other)
  then Some (default [] (handlers !! eventName) ++ [handler])
  else handlers !! other.
Proof.
  unfold subscribe, EventDispatcher.t in *.
  destruct (decide (eventName = other)) as [<-|Hne].
  - rewrite lookup_alter_eq.
    destruct (handlers !! eventName) as [l|] eqn:Hl.
    + now rewrite Hl.
    + now rewrite lookup_insert_eq.
  - rewrite lookup_alter_ne by exact Hne.
    destruct (handlers !! eventName); [reflexivity|].
    now rewrite lookup_insert_ne.
Qed.

Lemma handlersKeepQueue_subscribe eventName handler handlers :
  keepsQueue entity handler ->
  handlersKeepQueue entity handlers ->
  handlersKeepQueue entity (subscribe eventName handler handlers).
Proof.
  intros Hh Hkeep other registered. rewrite lookup_subscribe.
  destruct (decide (eventName = other)) as [<-|Hne]; [|apply Hkeep].
  intros H; injection H as <-.
  apply Forall_app. split; [|now repeat constructor].
  destruct (handlers !! eventName) as [l|] eqn:Hl; simpl.
  - now apply (Hkeep _ _ Hl).
  - constructor.
Qed.

End DispatchEntity.



Example rejected_batch_keeps_queue :
  EventDispatcher.dispatchEntityEvents rejectingHandlers
    EventDispatcher.playerEntity urOwner =
  (inl (HandlerError "handler failed"), urOwner).
Proof. vm_compute. reflexivity. Qed.


(** ** Draining the queue: [getEvents], then [clearEvents] *)

(** C2, as stated, fails: the handler of the last event of the batch records
    [lateEvent] on the player after [getEvents] returned and before
    [clearEvents] runs; the event is not in the batch, the drain resolves,
    and [clearEvents] drops it: the next drain finds an empty queue. *)
Lemma late_event_is_lost_by_the_drain :
  ~ In lateEvent (Player.getEvents urOwner) /\
  EventDispatcher.dispatchAll appendingHandlers (Player.getEvents urOwner)
    urOwner =
  (inr tt,
   Player.set_events (Player.getEvents urOwner ++ [lateEvent]) urOwner) /\
  EventDispatcher.dispatchEntityEvents appendingHandlers
    EventDispatcher.playerEntity urOwner =
  (inr tt, Player.clearEvents urOwner) /\
  Player.getEvents
    (snd (EventDispatcher.dispatchEntityEvents appendingHandlers
            EventDispatcher.playerEntity urOwner)) = [] /\
  ~ In lateEvent
      (Player.getEvents
         (snd (EventDispatcher.dispatchEntityEvents appendingHandlers
                 EventDispatcher.playerEntity urOwner))).
Proof.
  split.
  { vm_compute. intros H.
    repeat (destruct H as [H|H]; [discriminate|]). exact H. }
  split; [vm_compute; reflexivity|].
  split; [vm_compute; reflexivity|].
  split; [vm_compute; reflexivity|].
  vm_compute. intros H. exact H.
Qed.

(** C2, amended. The batch that [dispatchEntityEvents] dispatches is the
    queue as [getEvents] read it, and a drain that resolves leaves the
    queue empty.  An event recorded after [getEvents] returned goes to the
    end of the queue, behind the batch, which it is not part of;
    [clearEvents] then drops it with the batch, so the next drain does not
    return it.  An event recorded after [clearEvents] is what the next
    drain returns. *)
Theorem drain_is_snapshot_then_clear
    (handlers : EventDispatcher.t Player.t) (p : Player.t)
    (late : DomainEvent) :
  fst (EventDispatcher.dispatchEntityEvents handlers
         EventDispatcher.playerEntity p) =
  fst (EventDispatcher.dispatchAll handlers (Player.getEvents p) p) /\
  (fst (EventDispatcher.dispatchEntityEvents handlers
          EventDispatcher.playerEntity p) = inr tt ->
   Player.getEvents
     (snd (EventDispatcher.dispatchEntityEvents handlers
             EventDispatcher.playerEntity p)) = []) /\
  Player.getEvents (snd (Player.addEvent late p)) =
  Player.getEvents p ++ [late] /\
  Player.getEvents (Player.clearEvents (snd (Player.addEvent late p))) = [] /\
  Player.getEvents (snd (Player.addEvent late (Player.clearEvents p))) =
  [late].
Proof.
  rewrite dispatchEntityEvents_eq.
  change (EventDispatcher.getEvents EventDispatcher.playerEntity p)
    with (Player.getEvents p).
  split; [|split; [|repeat split]].
  - destruct (Player.getEvents p) as [|event rest]; [reflexivity|].
    cbn [length Nat.eqb].
    destruct (EventDispatcher.dispatchAll handlers (event :: rest) p)
      as [[e|[]] p1]; reflexivity.
  - destruct (Player.getEvents p) as [|event rest] eqn:Hq.
    + intros _. exact Hq.
    + cbn [length Nat.eqb].
      destruct (EventDispatcher.dispatchAll handlers (event :: rest) p)
        as [[e|[]] p1]; [discriminate|reflexivity].
Qed.

(** * Further properties of the code *)

(** ** The player under any sequence of operations *)

Lemma hasItem_false_not_in (p : Player.t) (item : GachaItem.t) :
  Player.hasItem item p = false -> ~ List.In (GachaItem.id item) (inventoryIds p).
Proof.
  intros Hno Hin. unfold inventoryIds in Hin.
  apply List.in_map_iff in Hin as (owned & Hid & Hin).
  assert (Hhas : Player.hasItem item p = true)
    by (apply hasItem_iff; eauto).
  congruence.
Qed.

Lemma filter_ids_NoDup (f : GachaItem.t -> bool) (l : list GachaItem.t) :
  List.NoDup (map GachaItem.id l) ->
  List.NoDup (map GachaItem.id (List.filter f l)).
Proof.
  induction l as [|x l IH]; simpl; [trivial|].
  intros Hnd. apply List.NoDup_cons_iff in Hnd as [Hx Hl].
  destruct (f x); simpl; [|now apply IH].
  apply List.NoDup_cons; [|now apply IH].
  intros Hin. apply Hx.
  apply List.in_map_iff in Hin as (y & Hy & Hin).
  apply List.filter_In in Hin as [Hin _].
  apply List.in_map_iff. eauto.
Qed.

(** What one operation does to the inventory. *)
Lemma runOp_inventory_cases (op : PlayerOp) (p : Player.t) :
  Player.inventory (runOp op p) = Player.inventory p \/
  (exists item,
     Player.hasItem item p = false /\
     Player.inventory (runOp op p) = Player.inventory p ++ [item]) \/
  (exists item,
     Player.inventory (runOp op p) =
     List.filter (fun owned => negb (GachaItem.equals owned item))
                 (Player.inventory p)).
Proof.
  destruct op as [item|item|amount|amount reason|event| |machine random];
    simpl runOp.
  - rewrite addItem_eq. destruct (Player.hasItem item p) eqn:Hhas.
    + left. reflexivity.
    + right. left. exists item. split; [exact Hhas|reflexivity].
  - rewrite removeItem_eq. destruct (Player.hasItem item p).
    + right. right. exists item.
      change (negb true) with false. cbv beta iota zeta.
      destruct (_ =? _)%nat; reflexivity.
    + left. reflexivity.
  - rewrite addCurrency_eq. left. destruct (amount <? 0); reflexivity.
  - rewrite spendCurrency_eq. left.
    destruct (amount <? 0); [reflexivity|].
    destruct (Player.gachaCurrency p <? amount); reflexivity.
  - left. reflexivity.
  - left. reflexivity.
  - unfold GachaService.executeSingleGacha. rewrite executeGacha_eq.
    destruct (Player.canAffordGacha 100 p); cbv beta iota zeta delta [negb].
    2: { left. reflexivity. }
    destruct (SimpleGachaMachine.draw machine random) as [e|item].
    { left. reflexivity. }
    destruct (Player.hasItem item p) eqn:Hhas.
    + left. reflexivity.
    + right. left. exists item. split; [exact Hhas|reflexivity].
Qed.

Lemma runOp_keeps_distinct_ids (op : PlayerOp) (p : Player.t) :
  List.NoDup (inventoryIds p) -> List.NoDup (inventoryIds (runOp op p)).
Proof.
  intros Hnd.
  destruct (runOp_inventory_cases op p)
    as [Heq | [(item & Hno & Heq) | (item & Heq)]];
    unfold inventoryIds; rewrite Heq.
  - exact Hnd.
  - rewrite map_app. simpl.
    apply NoDup_ListNoDup. apply NoDup_app. split; [|split].
    + now apply NoDup_ListNoDup.
    + intros x Hx Hx'. apply list_elem_of_In in Hx.
      apply list_elem_of_singleton in Hx'. subst x.
      now apply (hasItem_false_not_in p item Hno).
    + apply NoDup_singleton.
  - now apply filter_ids_NoDup.
Qed.

Lemma runOp_keeps_nonneg (op : PlayerOp) (p : Player.t) :
  0 <= Player.gachaCurrency p -> 0 <= Player.gachaCurrency (runOp op p).
Proof.
  intros Hp.
  destruct op as [item|item|amount|amount reason|event| |machine random];
    simpl runOp.
  - rewrite addItem_eq. destruct (Player.hasItem item p); exact Hp.
  - rewrite removeItem_eq. destruct (Player.hasItem item p).
    + change (negb true) with false. cbv beta iota zeta.
      destruct (_ =? _)%nat; exact Hp.
    + exact Hp.
  - now apply (runCall_keeps_nonneg (Credit amount)).
  - now apply (runCall_keeps_nonneg (Debit amount reason)).
  - exact Hp.
  - exact Hp.
  - unfold GachaService.executeSingleGacha. rewrite executeGacha_eq.
    destruct (Player.canAffordGacha 100 p) eqn:Hafford;
      cbv beta iota zeta delta [negb]; [|exact Hp].
    apply canAffordGacha_iff in Hafford as [_ Hle].
    destruct (SimpleGachaMachine.draw machine random) as [e|item].
    { unfold afterDebit, Player.gachaCurrency in *. simpl. lia. }
    pose proof (calculateSellPrice_nonneg (GachaItem.rarity item)) as Hprice.
    destruct (Player.hasItem item p);
      unfold Player.gachaCurrency in *; simpl; lia.
Qed.

(** X1. From a constructed player, whatever operations are called in
    whatever order (adding, removing, crediting, debiting, drawing,
    recording and clearing events, failed calls included), the inventory
    never holds two items with the same id. *)
Theorem inventory_ids_stay_distinct
    (id name : string) (c0 : Z) (p0 : Player.t) (ops : list PlayerOp) :
  Player.new id name c0 = inr p0 ->
  List.NoDup (inventoryIds (runOps ops p0)).
Proof.
  intros Hnew. apply new_player_nonneg in Hnew as (_ & Hinv & _).
  assert (H0 : List.NoDup (inventoryIds p0)).
  { unfold inventoryIds. rewrite Hinv. constructor. }
  clear Hinv. revert p0 H0.
  induction ops as [|op rest IH]; intros p0 H0; simpl; [exact H0|].
  apply IH. now apply runOp_keeps_distinct_ids.
Qed.

Lemma inventory_ids_stay_distinct_witness :
  List.NoDup
    (inventoryIds
       (runOps [OpExecuteSingleGacha demoPool (999 # 1000);
                OpExecuteSingleGacha demoPool (999 # 1000);
                OpAddItem urItem;
                OpExecuteSingleGacha demoPool 0;
                OpRemoveItem urItem;
                OpAddItem urItem]
          demoPlayer)).
Proof.
  apply (inventory_ids_stay_distinct "player_001" "タロウ" 2000).
  reflexivity.
Defined.

(** X2. From a constructed player, the balance is never negative, whatever
    operations are called in whatever order, draws included. *)
Theorem balance_never_negative
    (id name : string) (c0 : Z) (p0 : Player.t) (ops : list PlayerOp) :
  Player.new id name c0 = inr p0 ->
  0 <= Player.gachaCurrency (runOps ops p0).
Proof.
  intros Hnew. apply new_player_nonneg in Hnew as (H0 & _ & _).
  revert p0 H0.
  induction ops as [|op rest IH]; intros p0 H0; simpl; [exact H0|].
  apply IH. now apply runOp_keeps_nonneg.
Qed.

Lemma balance_never_negative_witness :
  0 <= Player.gachaCurrency
         (runOps [OpSpendCurrency 1950 "shop";
                  OpExecuteSingleGacha demoPool 0;
                  OpSpendCurrency 60 "shop";
                  OpAddCurrency 100;
                  OpExecuteSingleGacha demoPool 0]
            demoPlayer).
Proof.
  apply (balance_never_negative "player_001" "タロウ" 2000).
  reflexivity.
Defined.

Lemma runOp_queue_cases (op : PlayerOp) (p : Player.t) :
  isClearEvents op = false ->
  exists appended,
    Player.getEvents (runOp op p) = Player.getEvents p ++ appended.
Proof.
  intros Hop.
  destruct op as [item|item|amount|amount reason|event| |machine random];
    simpl in Hop; try discriminate; simpl runOp.
  - exists []. rewrite app_nil_r, addItem_eq.
    destruct (Player.hasItem item p); reflexivity.
  - exists []. rewrite app_nil_r, removeItem_eq.
    destruct (Player.hasItem item p); [|reflexivity].
    change (negb true) with false. cbv beta iota zeta.
    destruct (_ =? _)%nat; reflexivity.
  - exists []. rewrite app_nil_r, addCurrency_eq.
    destruct (amount <? 0); reflexivity.
  - rewrite spendCurrency_eq.
    destruct (amount <? 0); [exists []; now rewrite app_nil_r|].
    destruct (Player.gachaCurrency p <? amount);
      [exists []; now rewrite app_nil_r|].
    eexists. reflexivity.
  - eexists. reflexivity.
  - unfold GachaService.executeSingleGacha. rewrite executeGacha_eq.
    destruct (Player.canAffordGacha 100 p); cbv beta iota zeta delta [negb].
    2: { exists []. now rewrite app_nil_r. }
    destruct (SimpleGachaMachine.draw machine random) as [e|item].
    { eexists. reflexivity. }
    destruct (Player.hasItem item p); simpl;
      rewrite <- app_assoc; eexists; reflexivity.
Qed.

(** X3. The queue of pending events is append-only until it is cleared:
    through any sequence of operations with no [clearEvents], the events
    that were pending stay at the front of the queue, in order.  [addItem],
    [removeItem] and [addCurrency] record no event at all. *)
Theorem queue_is_append_only (ops : list PlayerOp) (p : Player.t) :
  forallb (fun op => negb (isClearEvents op)) ops = true ->
  (exists appended,
     Player.getEvents (runOps ops p) = Player.getEvents p ++ appended) /\
  (forall item amount,
     Player.getEvents (runOp (OpAddItem item) p) = Player.getEvents p /\
     Player.getEvents (runOp (OpRemoveItem item) p) = Player.getEvents p /\
     Player.getEvents (runOp (OpAddCurrency amount) p) = Player.getEvents p).
Proof.
  intros Hops. split.
  - revert p. induction ops as [|op rest IH]; intros p; simpl.
    + exists []. now rewrite app_nil_r.
    + simpl in Hops. apply andb_true_iff in Hops as [Hop Hrest].
      apply negb_true_iff in Hop.
      destruct (runOp_queue_cases op p Hop) as [first Hfirst].
      destruct (IH Hrest (runOp op p)) as [more Hmore].
      exists (first ++ more). rewrite Hmore, Hfirst. now rewrite app_assoc.
  - intros item amount. simpl runOp.
    rewrite addItem_eq, removeItem_eq, addCurrency_eq.
    repeat split.
    + destruct (Player.hasItem item p); reflexivity.
    + destruct (Player.hasItem item p); [|reflexivity].
      change (negb true) with false. cbv beta iota zeta.
      destruct (_ =? _)%nat; reflexivity.
    + destruct (amount <? 0); reflexivity.
Qed.

Lemma queue_is_append_only_witness :
  (exists appended,
     Player.getEvents
       (runOps [OpSpendCurrency 10 "shop"; OpAddItem urItem;
                OpExecuteSingleGacha demoPool 0] urOwner) =
     Player.getEvents urOwner ++ appended) /\
  (forall item amount,
     Player.getEvents (runOp (OpAddItem item) urOwner) =
     Player.getEvents urOwner /\
     Player.getEvents (runOp (OpRemoveItem item) urOwner) =
     Player.getEvents urOwner /\
     Player.getEvents (runOp (OpAddCurrency amount) urOwner) =
     Player.getEvents urOwner).
Proof.
  apply (queue_is_append_only
           [OpSpendCurrency 10 "shop"; OpAddItem urItem;
            OpExecuteSingleGacha demoPool 0] urOwner).
  reflexivity.
Defined.

(** ** More on the draw transaction *)

(** X4. On the pool that the program builds, and for any value of
    [Math.random()] in [0, 1), a single draw succeeds exactly when the
    player holds at least 100; the item it returns is built from an entry of
    the pool, and the player owns an item with that id afterwards. *)
Theorem draw_on_program_pool_succeeds_iff_affordable
    (p : Player.t) (random : Q) :
  (0 <= random)%Q ->
  (random < 1)%Q ->
  (succeeds (GachaService.executeSingleGacha demoPool random p) <->
   100 <= Player.gachaCurrency p) /\
  (forall item p',
     GachaService.executeSingleGacha demoPool random p = (inr item, p') ->
     (exists e,
        In e demoPool /\
        GachaItem.id item = SimpleGachaMachine.id e /\
        GachaItem.name item = SimpleGachaMachine.name e /\
        GachaItem.rarity item = SimpleGachaMachine.rarity e) /\
     Player.hasItem item p' = true).
Proof.
  intros Hge Hlt.
  destruct (demoPool_draw_succeeds random Hge Hlt) as (e & Hin & Hdraw).
  unfold GachaService.executeSingleGacha. rewrite executeGacha_eq, Hdraw.
  pose proof (canAffordGacha_iff p 100) as Hc.
  destruct (Player.canAffordGacha 100 p); cbv beta iota zeta delta [negb].
  - split.
    + split; [intros _; apply Hc; reflexivity|].
      intros _.
      destruct (Player.hasItem _ p); eexists; reflexivity.
    + intros item p' Hrun. split.
      * exists e. split; [exact Hin|].
        destruct (Player.hasItem _ p); injection Hrun as <- _;
          repeat split.
      * destruct (Player.hasItem _ p) eqn:Hhas; injection Hrun as <- <-.
        -- exact Hhas.
        -- unfold Player.hasItem. simpl. rewrite existsb_app. simpl.
           unfold GachaItem.equals. rewrite String.eqb_refl.
           now rewrite orb_true_r.
  - split.
    + split; [intros [a Ha]; discriminate|].
      intros H100. assert (Hft : false = true) by (apply Hc; lia).
      discriminate.
    + intros item p' Hrun. discriminate.
Qed.

Lemma draw_on_program_pool_witness :
  (succeeds (GachaService.executeSingleGacha demoPool (1 # 2) demoPlayer) <->
   100 <= Player.gachaCurrency demoPlayer) /\
  (forall item p',
     GachaService.executeSingleGacha demoPool (1 # 2) demoPlayer =
     (inr item, p') ->
     (exists e,
        In e demoPool /\
        GachaItem.id item = SimpleGachaMachine.id e /\
        GachaItem.name item = SimpleGachaMachine.name e /\
        GachaItem.rarity item = SimpleGachaMachine.rarity e) /\
     Player.hasItem item p' = true).
Proof.
  apply (draw_on_program_pool_succeeds_iff_affordable demoPlayer (1 # 2)).
  - vm_compute. discriminate.
  - vm_compute. reflexivity.
Defined.



(** ** Removing an item, crediting the balance *)

Lemma filter_none_matching {A} (f : A -> bool) (l : list A) :
  existsb f l = false -> List.filter (fun x => negb (f x)) l = l.
Proof.
  induction l as [|x l IH]; simpl; [reflexivity|].
  intros H. apply orb_false_iff in H as [Hx Hl].
  rewrite Hx. simpl. now rewrite IH.
Qed.

(** X6. [removeItem] throws exactly when no owned item has the id of the
    item given (the error is ItemNotOwned and the player is left as it was;
    the removal-failed check after the filter never fires).  When it
    succeeds, the items with another id are all kept, and the balance and
    the pending events are untouched. *)
Theorem removeItem_fails_only_on_unowned_id (p : Player.t) (item : GachaItem.t) :
  (fails (Player.removeItem item p) <-> Player.hasItem item p = false) /\
  (fails (Player.removeItem item p) ->
   Player.removeItem item p =
   (inl (ItemNotOwned (GachaItem.name item) (GachaItem.id item)), p)) /\
  (forall other,
     GachaItem.id other <> GachaItem.id item ->
     (In other (Player.inventory (snd (Player.removeItem item p))) <->
      In other (Player.inventory p))) /\
  Player.gachaCurrency (snd (Player.removeItem item p)) =
  Player.gachaCurrency p /\
  Player.getEvents (snd (Player.removeItem item p)) = Player.getEvents p.
Proof.
  rewrite removeItem_eq.
  destruct (Player.hasItem item p) eqn:Hhas.
  - change (negb true) with false. cbv beta iota zeta.
    pose proof (filter_out_shorter
                  (fun owned => GachaItem.equals owned item)
                  (Player.inventory p) Hhas) as Hlt.
    cbv beta in Hlt.
    destruct (_ =? _)%nat eqn:Hsame.
    { apply Nat.eqb_eq in Hsame. lia. }
    split; [|split; [|split; [|split]]].
    + split; [intros [e He]; discriminate|discriminate].
    + intros [e He]. discriminate.
    + intros other Hother. simpl. unfold Player.inventory. simpl.
      rewrite List.filter_In. split; [tauto|].
      intros Hin. split; [exact Hin|].
      apply negb_true_iff. unfold GachaItem.equals.
      now apply String.eqb_neq.
    + reflexivity.
    + reflexivity.
  - change (negb false) with true. cbv beta iota.
    split; [|split; [|split; [|split]]].
    + split; [reflexivity|]. intros _. eexists. reflexivity.
    + intros _. reflexivity.
    + intros other _. reflexivity.
    + reflexivity.
    + reflexivity.
Qed.

(** X7. Adding an item that is not owned and removing it again gives back
    the player as it was. *)
Theorem addItem_then_removeItem_restores
    (p : Player.t) (item : GachaItem.t) :
  Player.hasItem item p = false ->
  fst (Player.addItem item p) = inr tt /\
  Player.removeItem item (snd (Player.addItem item p)) = (inr tt, p).
Proof.
  intros Hhas. rewrite addItem_eq, Hhas. split; [reflexivity|].
  simpl snd. rewrite removeItem_eq.
  assert (Hnow : Player.hasItem item
                   (Player.set_inventory (Player.inventory p ++ [item]) p)
                 = true).
  { unfold Player.hasItem. simpl. rewrite existsb_app. simpl.
    unfold GachaItem.equals at 2. rewrite String.eqb_refl.
    now rewrite orb_true_r. }
  rewrite Hnow. change (negb true) with false. cbv beta iota zeta.
  assert (Hkept :
    List.filter (fun owned => negb (GachaItem.equals owned item))
      (Player.inventory
         (Player.set_inventory (Player.inventory p ++ [item]) p)) =
    Player.inventory p).
  { unfold Player.inventory at 1. simpl.
    rewrite List.filter_app. simpl.
    unfold GachaItem.equals at 2. rewrite String.eqb_refl. simpl.
    rewrite app_nil_r. now apply filter_none_matching. }
  rewrite Hkept.
  assert (Hlen : (length (Player.inventory p) =?
                  length (Player.inventory
                            (Player.set_inventory
                               (Player.inventory p ++ [item]) p)))%nat
                 = false).
  { apply Nat.eqb_neq. unfold Player.inventory at 2. simpl.
    rewrite length_app. simpl. lia. }
  rewrite Hlen. destruct p. reflexivity.
Qed.

Lemma addItem_then_removeItem_witness :
  fst (Player.addItem urItem demoPlayer) = inr tt /\
  Player.removeItem urItem (snd (Player.addItem urItem demoPlayer)) =
  (inr tt, demoPlayer).
Proof.
  apply (addItem_then_removeItem_restores demoPlayer urItem).
  reflexivity.
Defined.

(** X8. [addCurrency] throws on a negative amount and leaves the player as
    it was; otherwise it touches neither the inventory nor the pending
    events.  When the balance is not negative and the balance with the
    amount is within [Number.MAX_SAFE_INTEGER], where the sum is exact, the
    credit adds the amount to the balance, and a debit of the same amount
    then succeeds and brings the balance back. *)
Theorem addCurrency_credits_and_debit_undoes
    (p : Player.t) (amount : Z) (reason : string) :
  (amount < 0 ->
   Player.addCurrency amount p = (inl (InvalidAddAmount amount), p)) /\
  (0 <= amount ->
   exists p1,
     Player.addCurrency amount p = (inr tt, p1) /\
     Player.inventory p1 = Player.inventory p /\
     Player.getEvents p1 = Player.getEvents p /\
     (0 <= Player.gachaCurrency p ->
      Player.gachaCurrency p + amount <= MAX_SAFE_INTEGER ->
      Player.gachaCurrency p1 = Player.gachaCurrency p + amount /\
      exists p2,
        Player.spendCurrency amount reason p1 = (inr tt, p2) /\
        Player.gachaCurrency p2 = Player.gachaCurrency p /\
        Player.inventory p2 = Player.inventory p)).
Proof.
  rewrite addCurrency_eq. split.
  - intros Hneg. apply Z.ltb_lt in Hneg. now rewrite Hneg.
  - intros Hpos. assert (Hb : (amount <? 0) = false) by now apply Z.ltb_ge.
    rewrite Hb. eexists. split; [reflexivity|].
    split; [reflexivity|]. split; [reflexivity|].
    intros Hbal _. split; [reflexivity|].
    rewrite spendCurrency_eq, Hb.
    assert (Hle : (Player.gachaCurrency
                     (Player.set_gachaCurrency
                        (Player.gachaCurrency p + amount) p) <? amount)
                  = false).
    { apply Z.ltb_ge. unfold Player.gachaCurrency in *. simpl. lia. }
    rewrite Hle. eexists. split; [reflexivity|].
    unfold Player.gachaCurrency, Player.inventory. simpl. split; [lia|].
    reflexivity.
Qed.

(** At 2^53 a credit of 1 is absorbed by the rounding of the sum, and the
    debit of 1 that follows leaves 2^53 - 1. *)
Example credit_is_absorbed_at_two_to_the_53 :
  Binary64.Player.gachaCurrency
    (snd (Binary64.Player.addCurrency 1
            (Binary64.Player.mk "p" "n" 9007199254740992 [] []))) =
  9007199254740992%float /\
  Binary64.Player.gachaCurrency
    (snd (Binary64.Player.spendCurrency 1 "r"
            (snd (Binary64.Player.addCurrency 1
                    (Binary64.Player.mk "p" "n" 9007199254740992 [] []))))) =
  9007199254740991%float.
Proof. vm_compute. split; reflexivity. Qed.

(** ** Rarity: creation, equality, order *)

Lemma create_cases (s : string) (r : Rarity.t) :
  Rarity.create s = inr r ->
  (s = "N" /\ r = Rarity.mk "N" 50 "ノーマル") \/
  (s = "R" /\ r = Rarity.mk "R" 30 "レア") \/
  (s = "SR" /\ r = Rarity.mk "SR" 15 "スーパーレア") \/
  (s = "SSR" /\ r = Rarity.mk "SSR" 4 "スーパースペシャルレア") \/
  (s = "UR" /\ r = Rarity.mk "UR" 1 "ウルトラレア").
Proof.
  unfold Rarity.create, Rarity.isValidRarity, Rarity.VALID_RARITIES.
  destruct (existsb (String.eqb s) ["N"; "R"; "SR"; "SSR"; "UR"]) eqn:Hv;
    [|discriminate].
  simpl. intros H; injection H as <-.
  apply existsb_exists in Hv as [v [Hin Heq]].
  apply String.eqb_eq in Heq. subst v. simpl in Hin.
  repeat (destruct Hin as [<-|Hin]; [vm_compute; tauto|]).
  contradiction.
Qed.


(** X10. On the rarities that [Rarity.create] makes, [isHigherThan] is a
    strict total order: no rarity is higher than itself, the relation is
    transitive, and of two rarities exactly one is higher unless they are
    [equals]. *)
Theorem isHigherThan_is_strict_total_order
    (sa sb sc : string) (a b c : Rarity.t) :
  Rarity.create sa = inr a ->
  Rarity.create sb = inr b ->
  Rarity.create sc = inr c ->
  Rarity.isHigherThan a a = false /\
  (Rarity.isHigherThan a b = true ->
   Rarity.isHigherThan b c = true ->
   Rarity.isHigherThan a c = true) /\
  (Rarity.isHigherThan a b = true ->
   Rarity.isHigherThan b a = false /\ Rarity.equals a b = false) /\
  (Rarity.isHigherThan a b = true \/ Rarity.equals a b = true \/
   Rarity.isHigherThan b a = true).
Proof.
  intros Ha Hb Hc. apply create_cases in Ha, Hb, Hc.
  destruct Ha as [[-> ->]|[[-> ->]|[[-> ->]|[[-> ->]|[-> ->]]]]];
    destruct Hb as [[-> ->]|[[-> ->]|[[-> ->]|[[-> ->]|[-> ->]]]]];
    destruct Hc as [[-> ->]|[[-> ->]|[[-> ->]|[[-> ->]|[-> ->]]]]];
    vm_compute; intuition discriminate.
Qed.

Lemma isHigherThan_order_witness :
  Rarity.isHigherThan urRarity urRarity = false /\
  (Rarity.isHigherThan urRarity (Rarity.mk "SR" 15 "スーパーレア") = true ->
   Rarity.isHigherThan (Rarity.mk "SR" 15 "スーパーレア")
     (Rarity.mk "N" 50 "ノーマル") = true ->
   Rarity.isHigherThan urRarity (Rarity.mk "N" 50 "ノーマル") = true) /\
  (Rarity.isHigherThan urRarity (Rarity.mk "SR" 15 "スーパーレア") = true ->
   Rarity.isHigherThan (Rarity.mk "SR" 15 "スーパーレア") urRarity = false /\
   Rarity.equals urRarity (Rarity.mk "SR" 15 "スーパーレア") = false) /\
  (Rarity.isHigherThan urRarity (Rarity.mk "SR" 15 "スーパーレア") = true \/
   Rarity.equals urRarity (Rarity.mk "SR" 15 "スーパーレア") = true \/
   Rarity.isHigherThan (Rarity.mk "SR" 15 "スーパーレア") urRarity = true).
Proof.
  apply (isHigherThan_is_strict_total_order "UR" "SR" "N"
           urRarity (Rarity.mk "SR" 15 "スーパーレア")
           (Rarity.mk "N" 50 "ノーマル")).
  - reflexivity.
  - reflexivity.
  - reflexivity.
Defined.

(** X11. The sell price follows the order of the rarities: of two created
    rarities, the higher one sells for strictly more. *)
Theorem higher_rarity_sells_for_more
    (sa sb : string) (a b : Rarity.t) :
  Rarity.create sa = inr a ->
  Rarity.create sb = inr b ->
  Rarity.isHigherThan a b = true ->
  GachaService.calculateSellPrice b < GachaService.calculateSellPrice a.
Proof.
  intros Ha Hb. apply create_cases in Ha, Hb.
  destruct Ha as [[-> ->]|[[-> ->]|[[-> ->]|[[-> ->]|[-> ->]]]]];
    destruct Hb as [[-> ->]|[[-> ->]|[[-> ->]|[[-> ->]|[-> ->]]]]];
    vm_compute; intros H; try reflexivity; discriminate.
Qed.

Lemma higher_rarity_sells_for_more_witness :
  GachaService.calculateSellPrice (Rarity.mk "SSR" 4 "スーパースペシャルレア") <
  GachaService.calculateSellPrice urRarity.
Proof.
  apply (higher_rarity_sells_for_more "UR" "SSR").
  - reflexivity.
  - reflexivity.
  - reflexivity.
Defined.

(** ** Sampling: the interval of each entry *)

(** X12. On the numbers of the program: when the weight cumulated at each
    entry before an entry is at most the weight cumulated just before that
    entry, the entry is the one drawn for every draw value above the weight
    cumulated before it and at or below the weight cumulated with it. *)
Theorem entry_is_drawn_on_its_weight_interval
    (pool pre : Binary64.SimpleGachaMachine.t)
    (e : Binary64.SimpleGachaMachine.PoolItem)
    (post : Binary64.SimpleGachaMachine.t) (rv : float) :
  pool = pre ++ e :: post ->
  (forall pre' e' post',
     pre = pre' ++ e' :: post' ->
     (Binary64.SimpleGachaMachine.totalWeight (pre' ++ [e']) <=?
      Binary64.SimpleGachaMachine.totalWeight pre)%float = true) ->
  (rv <=? Binary64.SimpleGachaMachine.totalWeight pre)%float = false ->
  (rv <=? Binary64.SimpleGachaMachine.totalWeight (pre ++ [e]))%float
  = true ->
  Binary64.SimpleGachaMachine.drawAt pool rv =
  GachaItem.new (Binary64.SimpleGachaMachine.id e)
    (Binary64.SimpleGachaMachine.name e)
    (Binary64.SimpleGachaMachine.rarity e)
    (SimpleGachaMachine.generateDescription
       (Binary64.SimpleGachaMachine.rarity e)) /\
  (forall item,
     Binary64.SimpleGachaMachine.drawAt pool rv = inr item ->
     GachaItem.id item = Binary64.SimpleGachaMachine.id e /\
     GachaItem.name item = Binary64.SimpleGachaMachine.name e /\
     GachaItem.rarity item = Binary64.SimpleGachaMachine.rarity e).
Proof.
  intros -> Hmono Hlow Hhigh.
  assert (Hat :
    Binary64.SimpleGachaMachine.drawAt (pre ++ e :: post) rv =
    GachaItem.new (Binary64.SimpleGachaMachine.id e)
      (Binary64.SimpleGachaMachine.name e)
      (Binary64.SimpleGachaMachine.rarity e)
      (SimpleGachaMachine.generateDescription
         (Binary64.SimpleGachaMachine.rarity e))).
  { unfold Binary64.SimpleGachaMachine.drawAt.
    rewrite drawLoop64_hits; [reflexivity| |exact Hhigh].
    intros pre' e' post' Hsplit.
    destruct (rv <=? cumulativeFrom64 0 (pre' ++ [e']))%float eqn:Hle;
      [|reflexivity].
    pose proof (leb_trans _ _ _ Hle (Hmono pre' e' post' Hsplit)) as Hbad.
    congruence. }
  split; [exact Hat|].
  intros item Hitem. rewrite Hat in Hitem.
  apply GachaItem_new_fields in Hitem. tauto.
Qed.

Lemma entry_is_drawn_on_its_weight_interval_witness :
  Binary64.SimpleGachaMachine.drawAt demoPool64 99 =
  GachaItem.new "sword_002" "エクスカリバー"
    (Rarity.mk "SSR" 4 "スーパースペシャルレア")
    (SimpleGachaMachine.generateDescription
       (Rarity.mk "SSR" 4 "スーパースペシャルレア")) /\
  (forall item,
     Binary64.SimpleGachaMachine.drawAt demoPool64 99 = inr item ->
     GachaItem.id item = "sword_002" /\
     GachaItem.name item = "エクスカリバー" /\
     GachaItem.rarity item = Rarity.mk "SSR" 4 "スーパースペシャルレア").
Proof.
  apply (entry_is_drawn_on_its_weight_interval demoPool64
           (firstn 6 demoPool64)
           (Binary64.SimpleGachaMachine.mkPoolItem "sword_002"
              "エクスカリバー" (Rarity.mk "SSR" 4 "スーパースペシャルレア") 4)
           (skipn 7 demoPool64) 99%float).
  - reflexivity.
  - intros pre' e' post' Hsplit. vm_compute in Hsplit.
    do 6 (destruct pre' as [|? pre'];
          [injection Hsplit as <- <-; vm_compute; reflexivity
          |simpl in Hsplit; injection Hsplit as <- Hsplit]).
    destruct pre'; discriminate.
  - vm_compute. reflexivity.
  - vm_compute. reflexivity.
Defined.

(** ** The registry of the dispatcher *)

Lemma totalHandlers_insert {St : Type}
    (handlers : gmap string (list (EventDispatcher.EventHandler St)))
    (eventName : string) (l : list (EventDispatcher.EventHandler St)) :
  handlers !! eventName = None ->
  map_fold (fun _ handlerList total => (total + length handlerList)%nat)
           0%nat (<[eventName := l]> handlers) =
  (map_fold (fun _ handlerList total => (total + length handlerList)%nat)
            0%nat handlers + length l)%nat.
Proof.
  intros Hnone.
  rewrite (map_fold_insert_L
             (fun _ handlerList total => (total + length handlerList)%nat)
             0%nat eventName l handlers); [reflexivity| |exact Hnone].
  intros j1 j2 z1 z2 y _ _ _. lia.
Qed.

(** X13. [subscribe] puts the handler after the handlers already registered
    under the name (the registration order is kept) and leaves the other
    names alone; the name then has handlers, the count of handlers of
    [getStats] grows by one, and the count of event types grows by one
    exactly when the name is new. *)
Theorem subscribe_appends_in_registration_order
    {St : Type} (eventName : string)
    (handler : EventDispatcher.EventHandler St)
    (handlers : EventDispatcher.t St) :
  EventDispatcher.subscribe eventName handler handlers !! eventName =
  Some (default [] (handlers !! eventName) ++ [handler]) /\
  (forall other,
     other <> eventName ->
     EventDispatcher.subscribe eventName handler handlers !! other =
     handlers !! other) /\
  EventDispatcher.hasHandlers eventName
    (EventDispatcher.subscribe eventName handler handlers) = true /\
  EventDispatcher.totalHandlers
    (EventDispatcher.getStats
       (EventDispatcher.subscribe eventName handler handlers)) =
  S (EventDispatcher.totalHandlers (EventDispatcher.getStats handlers)) /\
  EventDispatcher.totalEventTypes
    (EventDispatcher.getStats
       (EventDispatcher.subscribe eventName handler handlers)) =
  match handlers !! eventName with
  | Some _ =>
      EventDispatcher.totalEventTypes (EventDispatcher.getStats handlers)
  | None =>
      S (EventDispatcher.totalEventTypes (EventDispatcher.getStats handlers))
  end.
Proof.
  assert (Hsame :
    EventDispatcher.subscribe eventName handler handlers !! eventName =
    Some (default [] (handlers !! eventName) ++ [handler])).
  { rewrite lookup_subscribe. now destruct (decide (eventName = eventName)). }
  split; [exact Hsame|]. split; [|split].
  - intros other Hne. rewrite lookup_subscribe.
    destruct (decide (eventName = other)); [congruence|reflexivity].
  - unfold EventDispatcher.hasHandlers. rewrite Hsame.
    rewrite length_app. simpl. apply Nat.ltb_lt. lia.
  - unfold EventDispatcher.getStats, EventDispatcher.subscribe,
      EventDispatcher.t in *. simpl.
    destruct (handlers !! eventName) as [l|] eqn:Hl.
    + pose proof (insert_delete_id handlers eventName l Hl) as Hm.
      remember (delete eventName handlers) as rest eqn:Hrest.
      assert (Hnone : rest !! eventName = None)
        by (subst rest; apply lookup_delete_eq).
      clear Hsame Hl Hrest. subst handlers.
      rewrite alter_insert_eq.
      rewrite !totalHandlers_insert by exact Hnone.
      rewrite !map_size_insert_None by exact Hnone.
      rewrite length_app. simpl. split; [lia|reflexivity].
    + rewrite alter_insert_eq.
      rewrite totalHandlers_insert by exact Hl.
      rewrite map_size_insert_None by exact Hl.
      simpl. split; [lia|reflexivity].
Qed.

(** X14. After [unsubscribe], the name has no handler, the other names keep
    theirs, and dispatching an event of that name resolves and changes
    nothing; after [clear], this holds for every event. *)
Theorem unsubscribe_silences_the_name
    {St : Type} (eventName : string) (handlers : EventDispatcher.t St)
    (event : DomainEvent) (s : St) :
  EventDispatcher.hasHandlers eventName
    (EventDispatcher.unsubscribe eventName handlers) = false /\
  (forall other,
     other <> eventName ->
     EventDispatcher.unsubscribe eventName handlers !! other =
     handlers !! other) /\
  (getEventName event = eventName ->
   EventDispatcher.dispatch (EventDispatcher.unsubscribe eventName handlers)
     event s = (inr tt, s)) /\
  EventDispatcher.dispatch (EventDispatcher.clear handlers) event s =
  (inr tt, s).
Proof.
  unfold EventDispatcher.hasHandlers, EventDispatcher.unsubscribe,
    EventDispatcher.clear, EventDispatcher.dispatch, EventDispatcher.t in *.
  split; [|split; [|split]].
  - now rewrite lookup_delete_eq.
  - intros other Hne. now rewrite lookup_delete_ne.
  - intros ->. now rewrite lookup_delete_eq.
  - now rewrite lookup_empty.
Qed.

(** ** Dispatching one event, and a list of events *)

(** X15. With one handler registered under the name of an event,
    dispatching the event is running that handler on it, once: the call
    resolves or rejects as the handler does, with its error, and leaves the
    state that the handler leaves; nothing registered under another name is
    run.  With no handler under the name, the call resolves and changes
    nothing.  So a handler subscribed alone under a name receives the
    events of that name, and its subscription changes nothing for an event
    of another name that has one handler at most. *)
Theorem dispatch_runs_the_handler_of_the_name
    {St : Type} (handlers : EventDispatcher.t St) (event : DomainEvent)
    (handler : EventDispatcher.EventHandler St) (eventName : string)
    (s : St) :
  (handlers !! getEventName event = Some [handler] ->
   EventDispatcher.dispatch handlers event s = handler event s) /\
  (handlers !! getEventName event = None \/
   handlers !! getEventName event = Some [] ->
   EventDispatcher.dispatch handlers event s = (inr tt, s)) /\
  (default [] (handlers !! eventName) = [] ->
   getEventName event = eventName ->
   EventDispatcher.dispatch
     (EventDispatcher.subscribe eventName handler handlers) event s =
   handler event s) /\
  (getEventName event <> eventName ->
   (length (default [] (handlers !! getEventName event)) <= 1)%nat ->
   EventDispatcher.dispatch
     (EventDispatcher.subscribe eventName handler handlers) event s =
   EventDispatcher.dispatch handlers event s).
Proof.
  assert (Hone : forall (registry : EventDispatcher.t St)
                         (h : EventDispatcher.EventHandler St),
            registry !! getEventName event = Some [h] ->
            EventDispatcher.dispatch registry event s = h event s).
  { intros registry h Hl. unfold EventDispatcher.dispatch. cbv zeta.
    unfold EventDispatcher.t, EventDispatcher.EventHandler in *.
    rewrite Hl. simpl. destruct (h event s) as [[e|[]] s1]; reflexivity. }
  split; [apply Hone|]. split; [|split].
  - unfold EventDispatcher.dispatch. cbv zeta.
    unfold EventDispatcher.t, EventDispatcher.EventHandler in *.
    intros [Hl|Hl]; now rewrite Hl.
  - intros Hnone <-. apply Hone.
    pose proof (lookup_subscribe (getEventName event) handler handlers
                  (getEventName event)) as Hl.
    rewrite decide_True in Hl by reflexivity.
    unfold EventDispatcher.t, EventDispatcher.EventHandler in *.
    now rewrite Hl, Hnone.
  - intros Hne _. unfold EventDispatcher.dispatch. cbv zeta.
    pose proof (lookup_subscribe eventName handler handlers
                  (getEventName event)) as Hl.
    rewrite decide_False in Hl by congruence.
    unfold EventDispatcher.t, EventDispatcher.EventHandler in *.
    now rewrite Hl.
Qed.

Lemma dispatchAll_app_eq {St : Type} (handlers : EventDispatcher.t St)
    (es1 es2 : list DomainEvent) (s : St) :
  EventDispatcher.dispatchAll handlers (es1 ++ es2) s =
  (EventDispatcher.dispatchAll handlers es1 ;;
   EventDispatcher.dispatchAll handlers es2) s.
Proof.
  revert s. induction es1 as [|e es1 IH]; intros s; simpl.
  - reflexivity.
  - unfold bind.
    destruct (EventDispatcher.dispatch handlers e s) as [[err|u] s1].
    + reflexivity.
    + rewrite IH. reflexivity.
Qed.

(** X16. The events of a batch are dispatched one after the other, each
    from the state that the one before it left: an empty batch resolves at
    once, a batch of one event is the dispatch of that event, and an event
    inside a batch is dispatched exactly when the events before it were all
    dispatched without a rejection; when its dispatch rejects, the batch
    rejects with that error and no event after it is dispatched. *)
Theorem dispatchAll_stops_at_first_rejection
    {St : Type} (handlers : EventDispatcher.t St)
    (es1 : list DomainEvent) (event : DomainEvent)
    (es2 : list DomainEvent) (s : St) :
  EventDispatcher.dispatchAll handlers [] s = (inr tt, s) /\
  EventDispatcher.dispatchAll handlers [event] s =
  EventDispatcher.dispatch handlers event s /\
  EventDispatcher.dispatchAll handlers (es1 ++ event :: es2) s =
  match EventDispatcher.dispatchAll handlers es1 s with
  | (inl e, s1) => (inl e, s1)
  | (inr _, s1) =>
      match EventDispatcher.dispatch handlers event s1 with
      | (inl e, s2) => (inl e, s2)
      | (inr _, s2) => EventDispatcher.dispatchAll handlers es2 s2
      end
  end.
Proof.
  split; [reflexivity|]. split.
  - simpl. unfold bind, ret.
    destruct (EventDispatcher.dispatch handlers event s) as [[e|[]] s1];
      reflexivity.
  - rewrite dispatchAll_app_eq. unfold bind.
    destruct (EventDispatcher.dispatchAll handlers es1 s) as [[e|u] s1];
      reflexivity.
Qed.

Example rejected_event_stops_the_batch :
  EventDispatcher.dispatchAll rejectingHandlers (Player.getEvents urOwner)
    urOwner =
  EventDispatcher.dispatchAll rejectingHandlers
    (firstn 2 (Player.getEvents urOwner)) urOwner.
Proof. vm_compute. reflexivity. Qed.

(** X17. With handlers that leave the entity's queue alone: after a
    [dispatchEntityEvents] that resolves, calling it again dispatches
    nothing and changes nothing; after one that rejects, the queue still
    holds the whole batch, so calling it again dispatches that batch from
    its first event, the events already delivered included. *)
Theorem dispatchEntityEvents_again
    {St : Type} (entity : EventDispatcher.Entity St)
    (handlers : EventDispatcher.t St) (s : St) :
  (forall s0,
     EventDispatcher.getEvents entity (EventDispatcher.clearEvents entity s0)
     = []) ->
  handlersKeepQueue entity handlers ->
  (fst (EventDispatcher.dispatchEntityEvents handlers entity s) = inr tt ->
   EventDispatcher.dispatchEntityEvents handlers entity
     (snd (EventDispatcher.dispatchEntityEvents handlers entity s)) =
   (inr tt, snd (EventDispatcher.dispatchEntityEvents handlers entity s))) /\
  (forall e,
     fst (EventDispatcher.dispatchEntityEvents handlers entity s) = inl e ->
     EventDispatcher.getEvents entity
       (snd (EventDispatcher.dispatchEntityEvents handlers entity s)) =
     EventDispatcher.getEvents entity s /\
     EventDispatcher.dispatchEntityEvents handlers entity
       (snd (EventDispatcher.dispatchEntityEvents handlers entity s)) =
     match EventDispatcher.dispatchAll handlers
             (EventDispatcher.getEvents entity s)
             (snd (EventDispatcher.dispatchEntityEvents handlers entity s))
     with
     | (inr _, s1) => (inr tt, EventDispatcher.clearEvents entity s1)
     | (inl e', s1) => (inl e', s1)
     end).
Proof.
  intros Hclear Hkeep.
  pose proof (dispatchAll_keepsQueue entity handlers
                (EventDispatcher.getEvents entity s) s Hkeep) as Hq.
  rewrite (dispatchEntityEvents_eq entity handlers s).
  destruct (EventDispatcher.getEvents entity s) as [|event rest] eqn:Hbatch.
  - cbn [length Nat.eqb fst snd]. split.
    + intros _. rewrite dispatchEntityEvents_eq, Hbatch. reflexivity.
    + intros e He. discriminate.
  - cbn [length Nat.eqb].
    destruct (EventDispatcher.dispatchAll handlers (event :: rest) s)
      as [[e|[]] s1] eqn:Hrun; simpl fst in *; simpl snd in *.
    + split; [intros H; discriminate|].
      intros e' _. split; [exact Hq|].
      rewrite dispatchEntityEvents_eq, Hq. reflexivity.
    + split; [|intros e' H; discriminate].
      intros _. rewrite dispatchEntityEvents_eq, Hclear. reflexivity.
Qed.

Lemma dispatchEntityEvents_again_witness :
  (fst (EventDispatcher.dispatchEntityEvents rejectingHandlers
          EventDispatcher.playerEntity urOwner) = inr tt ->
   EventDispatcher.dispatchEntityEvents rejectingHandlers
     EventDispatcher.playerEntity
     (snd (EventDispatcher.dispatchEntityEvents rejectingHandlers
             EventDispatcher.playerEntity urOwner)) =
   (inr tt,
    snd (EventDispatcher.dispatchEntityEvents rejectingHandlers
           EventDispatcher.playerEntity urOwner))) /\
  (forall e,
     fst (EventDispatcher.dispatchEntityEvents rejectingHandlers
            EventDispatcher.playerEntity urOwner) = inl e ->
     EventDispatcher.getEvents EventDispatcher.playerEntity
       (snd (EventDispatcher.dispatchEntityEvents rejectingHandlers
               EventDispatcher.playerEntity urOwner)) =
     EventDispatcher.getEvents EventDispatcher.playerEntity urOwner /\
     EventDispatcher.dispatchEntityEvents rejectingHandlers
       EventDispatcher.playerEntity
       (snd (EventDispatcher.dispatchEntityEvents rejectingHandlers
               EventDispatcher.playerEntity urOwner)) =
     match EventDispatcher.dispatchAll rejectingHandlers
             (EventDispatcher.getEvents EventDispatcher.playerEntity urOwner)
             (snd (EventDispatcher.dispatchEntityEvents rejectingHandlers
                     EventDispatcher.playerEntity urOwner))
     with
     | (inr _, s1) =>
         (inr tt,
          EventDispatcher.clearEvents EventDispatcher.playerEntity s1)
     | (inl e', s1) => (inl e', s1)
     end).
Proof.
  apply (dispatchEntityEvents_again
           EventDispatcher.playerEntity rejectingHandlers urOwner).
  - intros s0. reflexivity.
  - apply handlersKeepQueue_subscribe.
    + intros event s. reflexivity.
    + apply handlersKeepQueue_subscribe.
      * intros event s. reflexivity.
      * apply handlersKeepQueue_empty.
Defined.

(** ** The importance of an event *)

(** X18. The importance of an ItemObtained event is always between 1 and
    10; an ultra rare item is a rare item and has importance 10, a rare
    item has importance 6 at least, and a first-time event is never less
    important than the same event for a duplicate. *)
Theorem ItemObtained_importance_is_in_range (e : ItemObtainedEvent.t) :
  1 <= ItemObtainedEvent.getImportanceLevel e <= 10 /\
  (ItemObtainedEvent.isUltraRare e = true ->
   ItemObtainedEvent.isRareItem e = true /\
   ItemObtainedEvent.getImportanceLevel e = 10) /\
  (ItemObtainedEvent.isRareItem e = true ->
   6 <= ItemObtainedEvent.getImportanceLevel e) /\
  (ItemObtainedEvent.isRareItem e = false ->
   ItemObtainedEvent.getImportanceLevel e <= 5) /\
  ItemObtainedEvent.getImportanceLevel
    (ItemObtainedEvent.mk (ItemObtainedEvent.playerId e)
       (ItemObtainedEvent.itemId e) (ItemObtainedEvent.itemName e)
       (ItemObtainedEvent.rarity e) false) <=
  ItemObtainedEvent.getImportanceLevel
    (ItemObtainedEvent.mk (ItemObtainedEvent.playerId e)
       (ItemObtainedEvent.itemId e) (ItemObtainedEvent.itemName e)
       (ItemObtainedEvent.rarity e) true).
Proof.
  destruct e as [pid iid iname r first].
  unfold ItemObtainedEvent.getImportanceLevel, ItemObtainedEvent.isUltraRare,
    ItemObtainedEvent.isRareItem. simpl.
  destruct (String.eqb r "UR") eqn:Hur.
  { apply String.eqb_eq in Hur. subst r. destruct first; simpl;
      repeat split; intros; try lia; discriminate. }
  destruct (String.eqb r "SSR") eqn:Hssr.
  { apply String.eqb_eq in Hssr. subst r. destruct first; simpl;
      repeat split; intros; try lia; discriminate. }
  destruct (String.eqb r "SR") eqn:Hsr.
  { apply String.eqb_eq in Hsr. subst r. destruct first; simpl;
      repeat split; intros; try lia; discriminate. }
  destruct (String.eqb r "R"), (String.eqb r "N"), first; simpl;
    repeat split; intros; try lia; discriminate.
Qed.

(** X19. The importance of a CurrencySpent event is always between 1 and
    10; it is 10 when the balance left is zero, 3 at least when the balance
    left is low (100 or less), and, for the same balance left, it never
    decreases when the amount spent grows.  The spending report is marked
    significant exactly when the amount is 1000 or more or the balance left
    is 100 or less. *)
Theorem CurrencySpent_importance_is_in_range
    (e : CurrencySpentEvent.t) (larger : Z) :
  1 <= CurrencySpentEvent.getImportanceLevel e <= 10 /\
  (CurrencySpentEvent.remainingBalance e = 0 ->
   CurrencySpentEvent.getImportanceLevel e = 10) /\
  (CurrencySpentEvent.remainingBalance e <= 100 ->
   3 <= CurrencySpentEvent.getImportanceLevel e) /\
  (CurrencySpentEvent.amount e <= larger ->
   CurrencySpentEvent.getImportanceLevel e <=
   CurrencySpentEvent.getImportanceLevel
     (CurrencySpentEvent.mk (CurrencySpentEvent.playerId e) larger
        (CurrencySpentEvent.remainingBalance e)
        (CurrencySpentEvent.spendingReason e)
        (CurrencySpentEvent.relatedItemId e))) /\
  (CurrencySpentEvent.report_isSignificant
     (CurrencySpentEvent.getSpendingReport e) = true <->
   1000 <= CurrencySpentEvent.amount e \/
   CurrencySpentEvent.remainingBalance e <= 100).
Proof.
  destruct e as [pid amount balance reason related].
  unfold CurrencySpentEvent.getImportanceLevel,
    CurrencySpentEvent.getSpendingReport, CurrencySpentEvent.isLowBalance,
    CurrencySpentEvent.isLargeSpending. simpl.
  split; [|split; [|split; [|split]]].
  - destruct (5000 <=? amount), (1000 <=? amount), (500 <=? amount),
      (100 <=? amount), (balance <=? 100), (balance =? 0); lia.
  - intros ->. reflexivity.
  - intros Hlow. apply Z.leb_le in Hlow. rewrite Hlow.
    destruct (5000 <=? amount), (1000 <=? amount), (500 <=? amount),
      (100 <=? amount), (balance =? 0); lia.
  - intros Hle.
    destruct (5000 <=? amount) eqn:H1, (1000 <=? amount) eqn:H2,
      (500 <=? amount) eqn:H3, (100 <=? amount) eqn:H4,
      (5000 <=? larger) eqn:H5, (1000 <=? larger) eqn:H6,
      (500 <=? larger) eqn:H7, (100 <=? larger) eqn:H8,
      (balance <=? 100), (balance =? 0);
      rewrite ?Z.leb_le, ?Z.leb_gt in *; lia.
  - rewrite orb_true_iff, !Z.leb_le. tauto.
Qed.

(** ** The statistics of the handlers *)

Section PerKeyFacts.

Context {V E : Type}.
Variable key : E -> string.
Variable step : E -> V -> V.
Variable zero : V.

Lemma recordOne_lookup (cache : gmap string V) (e : E) (k : string) :
  recordOne key step zero cache e !! k =
  if String.eqb (key e) k
  then Some (step e (default zero (cache !! k)))
  else cache !! k.
Proof.
  unfold recordOne. destruct (String.eqb (key e) k) eqn:Hk.
  - apply String.eqb_eq in Hk. subst k. rewrite lookup_alter_eq.
    destruct (cache !! key e) as [v|] eqn:Hl.
    + now rewrite Hl.
    + now rewrite lookup_insert_eq.
  - apply String.eqb_neq in Hk. rewrite lookup_alter_ne by exact Hk.
    destruct (cache !! key e); [reflexivity|].
    now rewrite lookup_insert_ne.
Qed.

Lemma recordAll_lookup (es : list E) (cache : gmap string V) (k : string) :
  recordAll key step zero es cache !! k =
  match List.filter (fun e => String.eqb (key e) k) es with
  | [] => cache !! k
  | mine => Some (accumulate step mine (default zero (cache !! k)))
  end.
Proof.
  revert cache. induction es as [|e es IH]; intros cache; simpl.
  - reflexivity.
  - unfold recordAll in *. simpl. rewrite IH, recordOne_lookup.
    destruct (String.eqb (key e) k); simpl.
    + destruct (List.filter (fun e0 => String.eqb (key e0) k) es);
        reflexivity.
    + reflexivity.
Qed.

End PerKeyFacts.

Lemma gachaHandle_records (event : GachaExecutedEvent.t)
    (cache : gmap string GachaExecutedHandler.PlayerGachaStats) :
  GachaExecutedHandler.handle event cache =
  (inr tt,
   recordOne GachaExecutedEvent.playerId gachaStep
     (GachaExecutedHandler.mkStats 0 0 0 0) cache event).
Proof.
  unfold GachaExecutedHandler.handle, GachaExecutedHandler.updateStatistics,
    GachaExecutedHandler.checkAchievements, bind, modify, ret,
    GachaExecutedHandler.getOrCreatePlayerStats, recordOne.
  destruct (cache !! GachaExecutedEvent.playerId event) as [v|] eqn:Hl.
  - rewrite lookup_alter_eq, Hl. reflexivity.
  - rewrite lookup_alter_eq, lookup_insert_eq. reflexivity.
Qed.

Lemma gachaHandleAll_records (events : list GachaExecutedEvent.t)
    (cache : gmap string GachaExecutedHandler.PlayerGachaStats) :
  gachaHandleAll events cache =
  recordAll GachaExecutedEvent.playerId gachaStep
    (GachaExecutedHandler.mkStats 0 0 0 0) events cache.
Proof.
  revert cache. induction events as [|e es IH]; intros cache; simpl.
  - reflexivity.
  - unfold gachaHandleAll, recordAll in *. simpl.
    rewrite gachaHandle_records. simpl. apply IH.
Qed.

Lemma gacha_accumulate (evs : list GachaExecutedEvent.t)
    (s : GachaExecutedHandler.PlayerGachaStats) :
  GachaExecutedHandler.totalGachaExecutions (accumulate gachaStep evs s) =
  GachaExecutedHandler.totalGachaExecutions s + Z.of_nat (length evs) /\
  GachaExecutedHandler.totalSpent (accumulate gachaStep evs s) =
  GachaExecutedHandler.totalSpent s + sumOf GachaExecutedEvent.gachaCost evs /\
  GachaExecutedHandler.singlePullCount (accumulate gachaStep evs s) =
  GachaExecutedHandler.singlePullCount s
  + countOf (fun e => negb (isTenPull e)) evs /\
  GachaExecutedHandler.tenPullCount (accumulate gachaStep evs s) =
  GachaExecutedHandler.tenPullCount s + countOf isTenPull evs.
Proof.
  revert s. induction evs as [|e evs IH]; intros s.
  - unfold countOf, sumOf. simpl. repeat split; lia.
  - unfold accumulate in *. simpl fold_left.
    destruct (IH (gachaStep e s)) as (H1 & H2 & H3 & H4).
    rewrite H1, H2, H3, H4. clear IH H1 H2 H3 H4.
    unfold countOf, sumOf, gachaStep, isTenPull. simpl.
    destruct (GachaExecutedEvent.executionType e); simpl;
      repeat split; lia.
Qed.


Lemma itemHandle_records (event : ItemObtainedEvent.t)
    (st : ItemObtainedHandler.State) :
  ItemObtainedHandler.handle event st =
  (inr tt,
   ItemObtainedHandler.mkState
     (recordOne ItemObtainedEvent.playerId itemStep
        (ItemObtainedHandler.mkStats 0 0 ∅)
        (ItemObtainedHandler.playerStatsCache st) event)
     (if ItemObtainedEvent.isFirstTime event
      then recordOne ItemObtainedEvent.playerId collectionStep []
             (ItemObtainedHandler.playerCollectionCache st) event
      else ItemObtainedHandler.playerCollectionCache st)).
Proof.
  destruct st as [stats colls].
  unfold ItemObtainedHandler.handle, ItemObtainedHandler.registerToCollection,
    ItemObtainedHandler.addToPlayerCollection,
    ItemObtainedHandler.checkCollectionMilestones,
    ItemObtainedHandler.updateStatistics,
    ItemObtainedHandler.getOrCreatePlayerStats,
    bind, modify, gets, ret, recordOne, itemStep, collectionStep,
    collectionEntryOf.
  destruct (ItemObtainedEvent.isFirstTime event); simpl;
    destruct (stats !! ItemObtainedEvent.playerId event); reflexivity.
Qed.

Lemma itemHandleAll_records (events : list ItemObtainedEvent.t)
    (st : ItemObtainedHandler.State) :
  itemHandleAll events st =
  ItemObtainedHandler.mkState
    (recordAll ItemObtainedEvent.playerId itemStep
       (ItemObtainedHandler.mkStats 0 0 ∅) events
       (ItemObtainedHandler.playerStatsCache st))
    (recordAll ItemObtainedEvent.playerId collectionStep []
       (List.filter ItemObtainedEvent.isFirstTime events)
       (ItemObtainedHandler.playerCollectionCache st)).
Proof.
  revert st. induction events as [|e es IH]; intros st.
  - destruct st. reflexivity.
  - unfold itemHandleAll in *. simpl fold_left.
    rewrite itemHandle_records. simpl snd. rewrite IH. simpl.
    destruct (ItemObtainedEvent.isFirstTime e); reflexivity.
Qed.

Lemma collection_accumulate (evs : list ItemObtainedEvent.t)
    (l : list ItemObtainedHandler.CollectionEntry) :
  accumulate collectionStep evs l = l ++ map collectionEntryOf evs.
Proof.
  revert l. induction evs as [|e evs IH]; intros l.
  - simpl. now rewrite app_nil_r.
  - unfold accumulate in *. simpl. rewrite IH. unfold collectionStep.
    now rewrite <- app_assoc.
Qed.

Lemma item_accumulate (evs : list ItemObtainedEvent.t)
    (s : ItemObtainedHandler.PlayerItemStats) :
  ItemObtainedHandler.totalItemsObtained (accumulate itemStep evs s) =
  ItemObtainedHandler.totalItemsObtained s + Z.of_nat (length evs) /\
  ItemObtainedHandler.uniqueItemsObtained (accumulate itemStep evs s) =
  ItemObtainedHandler.uniqueItemsObtained s
  + countOf ItemObtainedEvent.isFirstTime evs /\
  (forall r,
     default 0 (ItemObtainedHandler.rarityBreakdown (accumulate itemStep evs s)
                  !! r) =
     default 0 (ItemObtainedHandler.rarityBreakdown s !! r)
     + countOf (fun e => String.eqb (ItemObtainedEvent.rarity e) r) evs).
Proof.
  revert s. induction evs as [|e evs IH]; intros s.
  - unfold countOf. simpl. repeat split; intros; lia.
  - unfold accumulate in *. simpl fold_left.
    destruct (IH (itemStep e s)) as (H1 & H2 & H3).
    rewrite H1, H2. clear IH H1 H2.
    split; [|split].
    + unfold itemStep. simpl. lia.
    + unfold itemStep, countOf. simpl.
      destruct (ItemObtainedEvent.isFirstTime e); simpl; lia.
    + intros r. rewrite H3. clear H3. unfold itemStep, countOf. simpl.
      destruct (String.eqb (ItemObtainedEvent.rarity e) r) eqn:Hr.
      * apply String.eqb_eq in Hr. subst r. rewrite lookup_insert_eq.
        simpl. lia.
      * apply String.eqb_neq in Hr. rewrite lookup_insert_ne by exact Hr.
        lia.
Qed.

Lemma filter_filter_comm {A} (f g : A -> bool) (l : list A) :
  List.filter f (List.filter g l) = List.filter g (List.filter f l).
Proof.
  induction l as [|x l IH]; simpl; [reflexivity|].
  destruct (f x) eqn:Hf, (g x) eqn:Hg; simpl; rewrite ?Hf, ?Hg, IH;
    reflexivity.
Qed.

Lemma countOf_le_length {A} (f : A -> bool) (l : list A) :
  0 <= countOf f l <= Z.of_nat (length l).
Proof.
  unfold countOf. pose proof (List.filter_length_le f l). lia.
Qed.

(** X22. Started with empty caches, after any events have been handled,
    [ItemObtainedHandler] holds, for each player: a collection that lists
    the player's first-time items in the order they came; statistics
    exactly when the player obtained an item; a total that is the number of
    the player's events, a unique count that is the number of first-time
    events, equal to the size of the collection and never above the total,
    and for each rarity the number of the player's events of that
    rarity.  The rarities, which are keys of a plain object, are taken
    outside the member names of [Object.prototype]. *)
Theorem ItemObtainedHandler_counts_the_items
    (events : list ItemObtainedEvent.t) (playerId : string) :
  Forall (fun e => isPlainKey (ItemObtainedEvent.rarity e) = true) events ->
  ItemObtainedHandler.getPlayerCollection playerId
    (itemHandleAll events ItemObtainedHandler.initialState) =
  map collectionEntryOf
    (List.filter ItemObtainedEvent.isFirstTime
       (itemEventsOf playerId events)) /\
  (ItemObtainedHandler.playerStatsCache
     (itemHandleAll events ItemObtainedHandler.initialState) !! playerId
   = None <-> itemEventsOf playerId events = []) /\
  (forall stats,
     ItemObtainedHandler.playerStatsCache
       (itemHandleAll events ItemObtainedHandler.initialState) !! playerId
     = Some stats ->
     ItemObtainedHandler.totalItemsObtained stats =
     Z.of_nat (length (itemEventsOf playerId events)) /\
     ItemObtainedHandler.uniqueItemsObtained stats =
     countOf ItemObtainedEvent.isFirstTime (itemEventsOf playerId events) /\
     ItemObtainedHandler.uniqueItemsObtained stats =
     Z.of_nat
       (length
          (ItemObtainedHandler.getPlayerCollection playerId
             (itemHandleAll events ItemObtainedHandler.initialState))) /\
     ItemObtainedHandler.uniqueItemsObtained stats <=
     ItemObtainedHandler.totalItemsObtained stats /\
     (forall r,
        isPlainKey r = true ->
        default 0 (ItemObtainedHandler.rarityBreakdown stats !! r) =
        countOf (fun e => String.eqb (ItemObtainedEvent.rarity e) r)
                (itemEventsOf playerId events))).
Proof.
  intros _. rewrite itemHandleAll_records.
  assert (Hcoll :
    ItemObtainedHandler.getPlayerCollection playerId
      (ItemObtainedHandler.mkState
         (recordAll ItemObtainedEvent.playerId itemStep
            (ItemObtainedHandler.mkStats 0 0 ∅) events
            (ItemObtainedHandler.playerStatsCache
               ItemObtainedHandler.initialState))
         (recordAll ItemObtainedEvent.playerId collectionStep []
            (List.filter ItemObtainedEvent.isFirstTime events)
            (ItemObtainedHandler.playerCollectionCache
               ItemObtainedHandler.initialState))) =
    map collectionEntryOf
      (List.filter ItemObtainedEvent.isFirstTime
         (itemEventsOf playerId events))).
  { unfold ItemObtainedHandler.getPlayerCollection. simpl.
    rewrite recordAll_lookup, lookup_empty.
    unfold itemEventsOf. rewrite filter_filter_comm.
    destruct (List.filter _ (List.filter _ events)) as [|e evs];
      [reflexivity|].
    simpl default. now rewrite collection_accumulate. }
  split; [exact Hcoll|]. rewrite Hcoll. clear Hcoll.
  simpl ItemObtainedHandler.playerStatsCache.
  rewrite recordAll_lookup, lookup_empty.
  change (default (ItemObtainedHandler.mkStats 0 0 ∅) None)
    with (ItemObtainedHandler.mkStats 0 0 ∅).
  fold (itemEventsOf playerId events).
  destruct (itemEventsOf playerId events) as [|e evs] eqn:Hmine.
  - split; [tauto|]. intros stats H. discriminate.
  - split; [split; intros H; discriminate|].
    intros stats H.
    assert (Hs : stats = accumulate itemStep (e :: evs)
                           (ItemObtainedHandler.mkStats 0 0 ∅))
      by (injection H as <-; reflexivity).
    clear H. subst stats.
    destruct (item_accumulate (e :: evs)
                (ItemObtainedHandler.mkStats 0 0 ∅)) as (H1 & H2 & H3).
    rewrite H1, H2.
    cbn [ItemObtainedHandler.totalItemsObtained
         ItemObtainedHandler.uniqueItemsObtained].
    pose proof (countOf_le_length ItemObtainedEvent.isFirstTime (e :: evs))
      as Hle.
    split; [lia|]. split; [lia|]. split; [|split; [lia|]].
    + rewrite length_map. unfold countOf. lia.
    + intros r _. rewrite H3. simpl ItemObtainedHandler.rarityBreakdown.
      rewrite lookup_empty. simpl. lia.
Qed.

Lemma ItemObtainedHandler_counts_the_items_witness :
  ItemObtainedHandler.getPlayerCollection "player_001"
    (itemHandleAll demoItemEvents ItemObtainedHandler.initialState) =
  map collectionEntryOf
    (List.filter ItemObtainedEvent.isFirstTime
       (itemEventsOf "player_001" demoItemEvents)) /\
  (ItemObtainedHandler.playerStatsCache
     (itemHandleAll demoItemEvents ItemObtainedHandler.initialState) !! "player_001"
   = None <-> itemEventsOf "player_001" demoItemEvents = []) /\
  (forall stats,
     ItemObtainedHandler.playerStatsCache
       (itemHandleAll demoItemEvents ItemObtainedHandler.initialState) !! "player_001"
     = Some stats ->
     ItemObtainedHandler.totalItemsObtained stats =
     Z.of_nat (length (itemEventsOf "player_001" demoItemEvents)) /\
     ItemObtainedHandler.uniqueItemsObtained stats =
     countOf ItemObtainedEvent.isFirstTime (itemEventsOf "player_001" demoItemEvents) /\
     ItemObtainedHandler.uniqueItemsObtained stats =
     Z.of_nat
       (length
          (ItemObtainedHandler.getPlayerCollection "player_001"
             (itemHandleAll demoItemEvents ItemObtainedHandler.initialState))) /\
     ItemObtainedHandler.uniqueItemsObtained stats <=
     ItemObtainedHandler.totalItemsObtained stats /\
     (forall r,
        isPlainKey r = true ->
        default 0 (ItemObtainedHandler.rarityBreakdown stats !! r) =
        countOf (fun e => String.eqb (ItemObtainedEvent.rarity e) r)
                (itemEventsOf "player_001" demoItemEvents))).
Proof.
  apply (ItemObtainedHandler_counts_the_items demoItemEvents "player_001").
  repeat constructor.
Defined.







Lemma gacha_updateStatistics_records (event : GachaExecutedEvent.t)
    (cache : gmap string GachaExecutedHandler.PlayerGachaStats) :
  GachaExecutedHandler.updateStatistics event cache =
  (inr tt,
   recordOne GachaExecutedEvent.playerId gachaStep
     (GachaExecutedHandler.mkStats 0 0 0 0) cache event).
Proof.
  unfold GachaExecutedHandler.updateStatistics, bind, modify,
    GachaExecutedHandler.getOrCreatePlayerStats, recordOne.
  destruct (cache !! GachaExecutedEvent.playerId event); reflexivity.
Qed.

Lemma gacha_stats_so_far (events : list GachaExecutedEvent.t)
    (playerId : string) :
  GachaExecutedHandler.totalGachaExecutions
    (default (GachaExecutedHandler.mkStats 0 0 0 0)
       (gachaHandleAll events ∅ !! playerId)) =
  Z.of_nat (length (gachaEventsOf playerId events)) /\
  GachaExecutedHandler.tenPullCount
    (default (GachaExecutedHandler.mkStats 0 0 0 0)
       (gachaHandleAll events ∅ !! playerId)) =
  countOf isTenPull (gachaEventsOf playerId events).
Proof.
  rewrite gachaHandleAll_records, recordAll_lookup, lookup_empty.
  change (default (GachaExecutedHandler.mkStats 0 0 0 0) None)
    with (GachaExecutedHandler.mkStats 0 0 0 0).
  fold (gachaEventsOf playerId events).
  destruct (gachaEventsOf playerId events) as [|e evs].
  - split; reflexivity.
  - change (default (GachaExecutedHandler.mkStats 0 0 0 0)
              (Some (accumulate gachaStep (e :: evs)
                       (GachaExecutedHandler.mkStats 0 0 0 0))))
      with (accumulate gachaStep (e :: evs)
              (GachaExecutedHandler.mkStats 0 0 0 0)).
    destruct (gacha_accumulate (e :: evs)
                (GachaExecutedHandler.mkStats 0 0 0 0)) as (H1 & _ & _ & H4).
    rewrite H1, H4. simpl. split; lia.
Qed.

Lemma in_conditional_lists (b1 b2 b3 b4 : bool) (a1 a2 a3 a4 s : string) :
  In s ((if b1 then [a1] else []) ++ (if b2 then [a2] else []) ++
        (if b3 then [a3] else []) ++ (if b4 then [a4] else [])) <->
  (b1 = true /\ a1 = s) \/ (b2 = true /\ a2 = s) \/
  (b3 = true /\ a3 = s) \/ (b4 = true /\ a4 = s).
Proof.
  destruct b1, b2, b3, b4; simpl; intuition discriminate.
Qed.

(** X21. Started with an empty cache, when an event is handled after any
    others, the achievements that [checkAchievements] announces are these:
    the first-draw achievement exactly when it is the player's first event,
    the ten-draws achievement exactly when it is the player's tenth, and
    the first-ten-pull achievement exactly when it is a ten-pull and the
    player's first one. *)
Theorem achievements_are_announced_once
    (events : list GachaExecutedEvent.t) (event : GachaExecutedEvent.t) :
  exists announced,
    GachaExecutedHandler.checkAchievements event
      (snd (GachaExecutedHandler.updateStatistics event
              (gachaHandleAll events ∅))) =
    (inr announced,
     snd (GachaExecutedHandler.updateStatistics event
            (gachaHandleAll events ∅))) /\
    (In "初回ガチャ実行" announced <->
     gachaEventsOf (GachaExecutedEvent.playerId event) events = []) /\
    (In "ガチャマスター（10回実行）" announced <->
     length (gachaEventsOf (GachaExecutedEvent.playerId event) events)
     = 9%nat) /\
    (In "初回10連ガチャ" announced <->
     isTenPull event = true /\
     countOf isTenPull
       (gachaEventsOf (GachaExecutedEvent.playerId event) events) = 0).
Proof.
  rewrite gacha_updateStatistics_records. simpl snd.
  unfold GachaExecutedHandler.checkAchievements, bind, ret,
    GachaExecutedHandler.getOrCreatePlayerStats.
  rewrite recordOne_lookup, String.eqb_refl.
  destruct (gacha_stats_so_far events (GachaExecutedEvent.playerId event))
    as [Htotal Hten].
  set (before := default (GachaExecutedHandler.mkStats 0 0 0 0)
                   (gachaHandleAll events ∅
                    !! GachaExecutedEvent.playerId event)) in *.
  set (mine := gachaEventsOf (GachaExecutedEvent.playerId event) events) in *.
  assert (Ht : GachaExecutedHandler.totalGachaExecutions
                 (gachaStep event before) = Z.of_nat (length mine) + 1).
  { rewrite <- Htotal. unfold gachaStep.
    destruct (GachaExecutedEvent.executionType event); simpl; lia. }
  assert (Hp : GachaExecutedHandler.tenPullCount (gachaStep event before) =
               countOf isTenPull mine
               + (if isTenPull event then 1 else 0)).
  { rewrite <- Hten. unfold gachaStep, isTenPull.
    destruct (GachaExecutedEvent.executionType event); simpl; lia. }
  assert (Hc : 0 <= countOf isTenPull mine)
    by apply countOf_le_length.
  assert (Hlist :
    match GachaExecutedEvent.executionType event with
    | single => []
    | ten_pull =>
        if GachaExecutedHandler.tenPullCount (gachaStep event before) =? 1
        then ["初回10連ガチャ"] else []
    end =
    if isTenPull event &&
       (GachaExecutedHandler.tenPullCount (gachaStep event before) =? 1)
    then ["初回10連ガチャ"] else []).
  { unfold isTenPull.
    destruct (GachaExecutedEvent.executionType event); reflexivity. }
  eexists. split; [reflexivity|].
  cbv zeta. rewrite Hlist, Ht, Hp. clear Hlist.
  split; [|split]; rewrite in_conditional_lists.
  - split.
    + intros [[H _]|[[_ H]|[[_ H]|[_ H]]]]; try discriminate.
      apply Z.eqb_eq in H. destruct mine; [reflexivity|simpl in H; lia].
    + intros Hnil. left. rewrite Hnil. split; reflexivity.
  - split.
    + intros [[_ H]|[[H _]|[[_ H]|[_ H]]]]; try discriminate.
      apply Z.eqb_eq in H. lia.
    + intros Hlen. right. left. rewrite Hlen. split; reflexivity.
  - split.
    + intros [[_ H]|[[_ H]|[[_ H]|[H _]]]]; try discriminate.
      apply andb_true_iff in H as [Hten' H]. apply Z.eqb_eq in H.
      rewrite Hten' in H. split; [exact Hten'|lia].
    + intros [Hten' H0]. right. right. right.
      rewrite Hten', H0. split; reflexivity.
Qed.

(** ** The demo: a draw, then the dispatch of its events *)

Lemma demo_handlers_of_names :
  Demo.eventDispatcher !! "CurrencySpent" = None /\
  Demo.eventDispatcher !! "GachaExecuted" = Some [Demo.gachaExecutedHandler] /\
  Demo.eventDispatcher !! "ItemObtained" = Some [Demo.itemObtainedHandler].
Proof.
  unfold Demo.eventDispatcher. rewrite !lookup_subscribe.
  repeat split.
Qed.

Lemma executeSingleGacha_afterDraw (p : Player.t)
    (machine : SimpleGachaMachine.t) (random : Q) (item : GachaItem.t) :
  Player.canAffordGacha 100 p = true ->
  SimpleGachaMachine.draw machine random = inr item ->
  GachaService.executeSingleGacha machine random p =
  (inr item, afterDraw p item).
Proof.
  intros Hafford Hdraw. unfold GachaService.executeSingleGacha.
  rewrite executeGacha_eq, Hafford, Hdraw.
  cbv beta iota zeta delta [negb]. unfold afterDraw.
  destruct (Player.hasItem item p); reflexivity.
Qed.

Lemma demo_dispatch_spent (s : Demo.State) pid amount balance reason related :
  EventDispatcher.dispatch Demo.eventDispatcher
    (CurrencySpentEvent pid amount balance reason related) s = (inr tt, s).
Proof.
  destruct demo_handlers_of_names as (Hcs & _ & _).
  unfold EventDispatcher.dispatch.
  change (getEventName (CurrencySpentEvent pid amount balance reason related))
    with "CurrencySpent".
  unfold EventDispatcher.t, EventDispatcher.EventHandler in *.
  rewrite Hcs. reflexivity.
Qed.

Lemma demo_dispatch_executed (s : Demo.State) pid cost mode :
  EventDispatcher.dispatch Demo.eventDispatcher
    (GachaExecutedEvent pid cost mode) s =
  (inr tt,
   Demo.mkState (Demo.player s)
     (snd (GachaExecutedHandler.handle (GachaExecutedEvent.mk pid cost mode)
             (Demo.gachaStats s)))
     (Demo.itemState s)).
Proof.
  destruct demo_handlers_of_names as (_ & Hge & _).
  unfold EventDispatcher.dispatch.
  change (getEventName (GachaExecutedEvent pid cost mode))
    with "GachaExecuted".
  unfold EventDispatcher.t, EventDispatcher.EventHandler in *.
  rewrite Hge. simpl.
  unfold Demo.gachaExecutedHandler, Demo.onGachaStats. simpl.
  rewrite gachaHandle_records. reflexivity.
Qed.

Lemma demo_dispatch_obtained (s : Demo.State) pid iid iname r first :
  EventDispatcher.dispatch Demo.eventDispatcher
    (ItemObtainedEvent pid iid iname r first) s =
  (inr tt,
   Demo.mkState (Demo.player s) (Demo.gachaStats s)
     (snd (ItemObtainedHandler.handle
             (ItemObtainedEvent.mk pid iid iname r first)
             (Demo.itemState s)))).
Proof.
  destruct demo_handlers_of_names as (_ & _ & Hio).
  unfold EventDispatcher.dispatch.
  change (getEventName (ItemObtainedEvent pid iid iname r first))
    with "ItemObtained".
  unfold EventDispatcher.t, EventDispatcher.EventHandler in *.
  rewrite Hio. simpl.
  unfold Demo.itemObtainedHandler, Demo.onItemState. simpl.
  rewrite itemHandle_records. reflexivity.
Qed.

Lemma afterDraw_events (p : Player.t) (item : GachaItem.t) :
  Player.getEvents p = [] ->
  Player.getEvents (afterDraw p item) =
  [CurrencySpentEvent (Player.id p) 100 (Player.gachaCurrency p - 100)
     "gacha" None;
   GachaExecutedEvent (Player.id p) 100 single;
   ItemObtainedEvent (Player.id p) (GachaItem.id item) (GachaItem.name item)
     (Rarity.value (GachaItem.rarity item))
     (negb (Player.hasItem item p))].
Proof.
  intros Hempty. unfold afterDraw, afterDebit, itemObtained.
  unfold Player.getEvents at 1 2. simpl Player._events.
  rewrite Hempty. reflexivity.
Qed.

Lemma demo_iteration_eq (s : Demo.State) (random : Q) (item : GachaItem.t) :
  Player.canAffordGacha 100 (Demo.player s) = true ->
  SimpleGachaMachine.draw demoPool random = inr item ->
  Player.getEvents (Demo.player s) = [] ->
  Demo.iteration demoPool random s =
  (inr item,
   Demo.mkState
     (Player.clearEvents (afterDraw (Demo.player s) item))
     (snd (GachaExecutedHandler.handle (drawExecuted (Demo.player s))
             (Demo.gachaStats s)))
     (snd (ItemObtainedHandler.handle (drawObtained (Demo.player s) item)
             (Demo.itemState s)))).
Proof.
  intros Hafford Hdraw Hempty.
  unfold Demo.iteration. unfold bind at 1. unfold Demo.onPlayer at 1.
  rewrite (executeSingleGacha_afterDraw _ _ _ _ Hafford Hdraw).
  pose proof (afterDraw_events (Demo.player s) item Hempty) as Hevents.
  set (p1 := afterDraw (Demo.player s) item) in *.
  unfold bind at 1.
  rewrite (dispatchEntityEvents_eq Demo.playerEntity Demo.eventDispatcher).
  change (EventDispatcher.getEvents Demo.playerEntity
            (Demo.mkState p1 (Demo.gachaStats s) (Demo.itemState s)))
    with (Player.getEvents p1).
  rewrite Hevents. cbn [length Nat.eqb EventDispatcher.dispatchAll].
  unfold bind.
  rewrite demo_dispatch_spent, demo_dispatch_executed.
  rewrite demo_dispatch_obtained. reflexivity.
Qed.

(** X24. One iteration of the demo, for a player who holds at least 100 and
    has no pending event, and for any value of [Math.random()] in [0, 1):
    the draw succeeds; its GachaExecuted event is handled once by
    [GachaExecutedHandler] and its ItemObtained event once by
    [ItemObtainedHandler], while its CurrencySpent event, for which the
    demo registers no handler, changes nothing; the player is then the
    player after the draw with an empty queue. *)
Theorem demo_iteration_delivers_the_draw (s : Demo.State) (random : Q) :
  (0 <= random)%Q ->
  (random < 1)%Q ->
  100 <= Player.gachaCurrency (Demo.player s) ->
  Player.getEvents (Demo.player s) = [] ->
  exists item,
    SimpleGachaMachine.draw demoPool random = inr item /\
    Demo.iteration demoPool random s =
    (inr item,
     Demo.mkState
       (Player.clearEvents (afterDraw (Demo.player s) item))
       (snd (GachaExecutedHandler.handle (drawExecuted (Demo.player s))
               (Demo.gachaStats s)))
       (snd (ItemObtainedHandler.handle (drawObtained (Demo.player s) item)
               (Demo.itemState s)))) /\
    Player.getEvents
      (Demo.player (snd (Demo.iteration demoPool random s))) = [].
Proof.
  intros Hge Hlt Hbal Hempty.
  destruct (demoPool_draw_succeeds random Hge Hlt) as (e & _ & Hdraw).
  assert (Hafford : Player.canAffordGacha 100 (Demo.player s) = true)
    by (apply canAffordGacha_iff; lia).
  eexists. split; [exact Hdraw|].
  rewrite (demo_iteration_eq s random _ Hafford Hdraw Hempty).
  split; reflexivity.
Qed.

Lemma demo_iteration_witness :
  exists item,
    SimpleGachaMachine.draw demoPool (999 # 1000) = inr item /\
    Demo.iteration demoPool (999 # 1000)
      (Demo.mkState demoPlayer ∅ ItemObtainedHandler.initialState) =
    (inr item,
     Demo.mkState
       (Player.clearEvents
          (afterDraw
             (Demo.player
                (Demo.mkState demoPlayer ∅ ItemObtainedHandler.initialState))
             item))
       (snd (GachaExecutedHandler.handle
               (drawExecuted
                  (Demo.player
                     (Demo.mkState demoPlayer ∅
                        ItemObtainedHandler.initialState)))
               (Demo.gachaStats
                  (Demo.mkState demoPlayer ∅
                     ItemObtainedHandler.initialState))))
       (snd (ItemObtainedHandler.handle
               (drawObtained
                  (Demo.player
                     (Demo.mkState demoPlayer ∅
                        ItemObtainedHandler.initialState))
                  item)
               (Demo.itemState
                  (Demo.mkState demoPlayer ∅
                     ItemObtainedHandler.initialState))))) /\
    Player.getEvents
      (Demo.player
         (snd (Demo.iteration demoPool (999 # 1000)
                 (Demo.mkState demoPlayer ∅
                    ItemObtainedHandler.initialState)))) = [].
Proof.
  apply (demo_iteration_delivers_the_draw
           (Demo.mkState demoPlayer ∅ ItemObtainedHandler.initialState)
           (999 # 1000)).
  - vm_compute. discriminate.
  - vm_compute. reflexivity.
  - vm_compute. discriminate.
  - reflexivity.
Defined.

Lemma demoInvariant_step (k : nat) (s : Demo.State) (random : Q) :
  (k < 20)%nat ->
  inUnitInterval random ->
  demoInvariant k s ->
  exists item s',
    Demo.iteration demoPool random s = (inr item, s') /\
    demoInvariant (S k) s'.
Proof.
  intros Hk [Hge Hlt] (Hid & Hempty & Hbal & Hg & Htot & Huni & Hcol & Hlen & _).
  destruct (demoPool_draw_succeeds random Hge Hlt) as (e & _ & Hdraw).
  assert (Hafford : Player.canAffordGacha 100 (Demo.player s) = true)
    by (apply canAffordGacha_iff; lia).
  eexists. eexists.
  split; [exact (demo_iteration_eq s random _ Hafford Hdraw Hempty)|].
  set (item := GachaItem.mk (SimpleGachaMachine.id e)
                 (SimpleGachaMachine.name e) (SimpleGachaMachine.rarity e)
                 (SimpleGachaMachine.generateDescription
                    (SimpleGachaMachine.rarity e))) in *.
  clearbody item.
  rewrite gachaHandle_records, itemHandle_records. simpl snd.
  unfold demoInvariant. simpl Demo.player. simpl Demo.gachaStats.
  simpl Demo.itemState.
  assert (Hpid : GachaExecutedEvent.playerId (drawExecuted (Demo.player s))
                 = "player_001") by exact Hid.
  assert (Hpid' : ItemObtainedEvent.playerId
                    (drawObtained (Demo.player s) item) = "player_001")
    by exact Hid.
  pose proof (calculateSellPrice_nonneg (GachaItem.rarity item)) as Hprice.
  split; [exact Hid|]. split; [reflexivity|].
  split.
  { unfold Player.clearEvents, afterDraw, Player.gachaCurrency in *. simpl.
    destruct (Player.hasItem item (Demo.player s)); lia. }
  split.
  { rewrite recordOne_lookup, Hpid. simpl String.eqb. simpl default.
    rewrite Hg. unfold gachaStep, drawExecuted. simpl.
    f_equal; lia. }
  simpl ItemObtainedHandler.playerStatsCache.
  rewrite recordOne_lookup, Hpid'. simpl String.eqb. simpl default.
  unfold ItemObtainedHandler.getPlayerCollection.
  simpl ItemObtainedHandler.playerCollectionCache.
  assert (Hinv :
    Player.inventory (Player.clearEvents (afterDraw (Demo.player s) item)) =
    if Player.hasItem item (Demo.player s)
    then Player.inventory (Demo.player s)
    else Player.inventory (Demo.player s) ++ [item]) by reflexivity.
  rewrite Hinv.
  assert (Hfirst : ItemObtainedEvent.isFirstTime
                     (drawObtained (Demo.player s) item) =
                   negb (Player.hasItem item (Demo.player s)))
    by reflexivity.
  rewrite ?Hfirst.
  unfold ItemObtainedHandler.getPlayerCollection in Hcol.
  split; [|split; [|split; [|split]]].
  - unfold itemStep. simpl. lia.
  - unfold itemStep. simpl. rewrite ?Hfirst.
    destruct (Player.hasItem item (Demo.player s)); simpl.
    + lia.
    + rewrite length_app. simpl. lia.
  - destruct (Player.hasItem item (Demo.player s));
      cbv beta iota delta [negb].
    + exact Hcol.
    + rewrite (recordOne_lookup ItemObtainedEvent.playerId collectionStep []),
        Hpid'.
      simpl String.eqb. simpl default.
      unfold collectionStep. rewrite !length_app. simpl. lia.
  - destruct (Player.hasItem item (Demo.player s)) eqn:Hhas.
    + lia.
    + rewrite length_app. simpl. lia.
  - right. split; [|split].
    + rewrite ?recordOne_lookup, ?Hpid, ?Hpid'. simpl.
      eexists; reflexivity.
    + rewrite ?recordOne_lookup, ?Hpid, ?Hpid'. simpl.
      eexists; reflexivity.
    + destruct (Player.hasItem item (Demo.player s)) eqn:Hhas.
      * apply hasItem_iff in Hhas as (owned & Hin & _).
        destruct (Player.inventory (Demo.player s)); [contradiction|].
        simpl. lia.
      * rewrite length_app. simpl. lia.
Qed.

Lemma demo_loop_step (gachaMachine : SimpleGachaMachine.t) (random : Q)
    (rest : list Q) (results : list GachaItem.t) (s s1 : Demo.State)
    (item : GachaItem.t) :
  Demo.iteration gachaMachine random s = (inr item, s1) ->
  Demo.loop gachaMachine (random :: rest) results s =
  Demo.loop gachaMachine rest (results ++ [item]) s1.
Proof.
  unfold Demo.iteration, bind, ret. simpl Demo.loop.
  destruct (Demo.onPlayer _ s) as [[e|result] s0]; [discriminate|].
  destruct (EventDispatcher.dispatchEntityEvents _ _ s0) as [[e|u] s2];
    [discriminate|].
  intros H; injection H as <- <-. reflexivity.
Qed.

Lemma demo_loop_invariant (randoms : list Q) (results : list GachaItem.t)
    (s : Demo.State) (k : nat) :
  (k + length randoms <= 20)%nat ->
  Forall inUnitInterval randoms ->
  demoInvariant k s ->
  exists results' s',
    Demo.loop demoPool randoms results s = (results', s') /\
    length results' = (length results + length randoms)%nat /\
    demoInvariant (k + length randoms) s'.
Proof.
  revert results s k.
  induction randoms as [|random rest IH]; intros results s k Hk Hall Hinv.
  - exists results, s. simpl. rewrite !Nat.add_0_r. auto.
  - apply Forall_cons in Hall as [Hrandom Hrest]. simpl in Hk.
    destruct (demoInvariant_step k s random) as (item & s1 & Hrun & Hinv1);
      [lia|exact Hrandom|exact Hinv|].
    destruct (IH (results ++ [item]) s1 (S k)) as (results' & s' & Hloop & Hlen & Hinv');
      [lia|exact Hrest|exact Hinv1|].
    exists results', s'. rewrite (demo_loop_step _ _ _ _ _ _ _ Hrun).
    cbn [length]. split; [exact Hloop|].
    rewrite length_app in Hlen. simpl in Hlen.
    replace (k + S (length rest))%nat with (S k + length rest)%nat by lia.
    split; [lia|exact Hinv'].
Qed.

(** X25. The demo, for any five values of [Math.random()] in [0, 1): its
    five draws all succeed and give five results; at the end the player
    has no pending event and holds 1500 at least; [GachaExecutedHandler]
    has counted 5 executions, all single, and 500 spent for the player;
    [ItemObtainedHandler] has counted 5 items, and its count of unique
    items and the size of its collection are both the size of the
    inventory, which is between 1 and 5. *)
Theorem demo_runs_five_draws (randoms : list Q) :
  length randoms = 5%nat ->
  Forall inUnitInterval randoms ->
  exists results s,
    Demo.runGachaSystemDemo randoms = inr (results, s) /\
    length results = 5%nat /\
    Player.getEvents (Demo.player s) = [] /\
    1500 <= Player.gachaCurrency (Demo.player s) /\
    Demo.gachaStats s !! "player_001" =
    Some (GachaExecutedHandler.mkStats 5 500 5 0) /\
    (exists stats,
       ItemObtainedHandler.playerStatsCache (Demo.itemState s)
       !! "player_001" = Some stats /\
       ItemObtainedHandler.totalItemsObtained stats = 5 /\
       ItemObtainedHandler.uniqueItemsObtained stats =
       Z.of_nat (length (Player.inventory (Demo.player s)))) /\
    length (ItemObtainedHandler.getPlayerCollection "player_001"
              (Demo.itemState s)) =
    length (Player.inventory (Demo.player s)) /\
    (1 <= length (Player.inventory (Demo.player s)) <= 5)%nat.
Proof.
  intros Hlen Hall.
  assert (Hinit : demoInvariant 0
            (Demo.mkState demoPlayer ∅ ItemObtainedHandler.initialState)).
  { unfold demoInvariant. simpl.
    repeat split; try reflexivity; try lia; try (left; reflexivity). }
  destruct (demo_loop_invariant randoms []
              (Demo.mkState demoPlayer ∅ ItemObtainedHandler.initialState)
              0%nat) as (results & s & Hloop & Hres & Hinv);
    [lia|exact Hall|exact Hinit|].
  exists results, s.
  assert (Hrun : Demo.runGachaSystemDemo randoms =
                 inr (Demo.loop demoPool randoms []
                        (Demo.mkState demoPlayer ∅
                           ItemObtainedHandler.initialState))).
  { unfold Demo.runGachaSystemDemo.
    rewrite firstn_all2 by lia. reflexivity. }
  rewrite Hrun, Hloop. split; [reflexivity|].
  rewrite Hlen in *. simpl in Hres.
  destruct Hinv as (_ & Hempty & Hbal & Hg & Htot & Huni & Hcol & Hle & Hsome).
  destruct Hsome as [H0|((g & Hgs) & (i & His) & Hone)]; [discriminate|].
  rewrite Hgs in Hg. rewrite His in Htot, Huni. simpl in Hg, Htot, Huni.
  split; [exact Hres|]. split; [exact Hempty|]. split; [simpl in Hbal; lia|].
  split; [rewrite Hgs, Hg; reflexivity|].
  split; [exists i; split; [exact His|split; [exact Htot|exact Huni]]|].
  split; [exact Hcol|]. simpl in Hle. lia.
Qed.

Lemma demo_runs_five_draws_witness :
  exists results s,
    Demo.runGachaSystemDemo [0; 1 # 2; 999 # 1000; 999 # 1000; 3 # 10]%Q =
    inr (results, s) /\
    length results = 5%nat /\
    Player.getEvents (Demo.player s) = [] /\
    1500 <= Player.gachaCurrency (Demo.player s) /\
    Demo.gachaStats s !! "player_001" =
    Some (GachaExecutedHandler.mkStats 5 500 5 0) /\
    (exists stats,
       ItemObtainedHandler.playerStatsCache (Demo.itemState s)
       !! "player_001" = Some stats /\
       ItemObtainedHandler.totalItemsObtained stats = 5 /\
       ItemObtainedHandler.uniqueItemsObtained stats =
       Z.of_nat (length (Player.inventory (Demo.player s)))) /\
    length (ItemObtainedHandler.getPlayerCollection "player_001"
              (Demo.itemState s)) =
    length (Player.inventory (Demo.player s)) /\
    (1 <= length (Player.inventory (Demo.player s)) <= 5)%nat.
Proof.
  apply (demo_runs_five_draws [0; 1 # 2; 999 # 1000; 999 # 1000; 3 # 10]%Q).
  - reflexivity.
  - repeat constructor; vm_compute; discriminate.
Defined.

(** ** The constructors and the blank strings *)

Lemma trimStart_nil_iff (l : list N) :
  trimStart l = [] <-> forallb isWhiteSpace l = true.
Proof.
  induction l as [|c l IH]; simpl.
  - tauto.
  - destruct (isWhiteSpace c); simpl; [exact IH|].
    split; discriminate.
Qed.

Lemma trimStart_forallb (l : list N) :
  forallb isWhiteSpace (trimStart l) = true -> trimStart l = [].
Proof.
  induction l as [|c l IH]; simpl; [reflexivity|].
  destruct (isWhiteSpace c) eqn:Hc; [exact IH|].
  simpl. rewrite Hc. discriminate.
Qed.

Lemma forallb_rev {A : Type} (f : A -> bool) (l : list A) :
  forallb f (List.rev l) = forallb f l.
Proof.
  induction l as [|x l IH]; simpl; [reflexivity|].
  rewrite forallb_app, IH. simpl.
  destruct (f x), (forallb f l); reflexivity.
Qed.

Lemma trim_nil_iff (l : list N) :
  trim l = [] <-> forallb isWhiteSpace l = true.
Proof.
  unfold trim, trimEnd. split.
  - intros H.
    assert (Hrev : trimStart (List.rev (trimStart l)) = []).
    { destruct (trimStart (List.rev (trimStart l))) as [|c t];
        [reflexivity|].
      simpl in H. now destruct (List.rev t). }
    apply trimStart_nil_iff in Hrev. rewrite forallb_rev in Hrev.
    apply trimStart_forallb in Hrev. now apply trimStart_nil_iff.
  - intros H. apply trimStart_nil_iff in H. now rewrite H.
Qed.

Lemma isBlank_iff (s : string) :
  isBlank s = true <-> allWhiteSpace s = true.
Proof.
  unfold isBlank, allWhiteSpace. rewrite <- trim_nil_iff.
  rewrite orb_true_iff, String.eqb_eq. split.
  - intros [->|H]; [reflexivity|].
    now destruct (trim (codePoints s)).
  - intros H. right. now rewrite H.
Qed.

(** X26. The constructors check their strings: [Player] is constructed
    exactly when the id and the name each hold a character that is not
    white space (the white space that [trim] strips, the space separators
    of Unicode included) and the currency is not below zero, a test that
    NaN passes; it then has the fields given, an empty inventory and no
    pending event.  A blank id is reported before a blank name, and a blank
    name before a negative currency.  [GachaItem] is constructed exactly
    when its id and name are not blank. *)
Theorem constructors_reject_blank_strings
    (id name : string) (currency : float) (rarity : Rarity.t)
    (description : string) :
  (Binary64.Player.new id name currency =
   if allWhiteSpace id then inl Binary64.Player.PlayerIdEmpty
   else if allWhiteSpace name then inl Binary64.Player.PlayerNameEmpty
   else if (currency <? 0)%float
        then inl Binary64.Player.NegativeGachaCurrency
        else inr (Binary64.Player.mk id name currency [] [])) /\
  ((exists p, Binary64.Player.new id name currency = inr p) <->
   allWhiteSpace id = false /\ allWhiteSpace name = false /\
   (currency <? 0)%float = false) /\
  (GachaItem.new id name rarity description =
   if allWhiteSpace id then inl GachaItemIdEmpty
   else if allWhiteSpace name then inl GachaItemNameEmpty
   else inr (GachaItem.mk id name rarity description)) /\
  ((exists item, GachaItem.new id name rarity description = inr item) <->
   allWhiteSpace id = false /\ allWhiteSpace name = false).
Proof.
  assert (Hb : forall s, isBlank s = allWhiteSpace s).
  { intros s. pose proof (isBlank_iff s) as H.
    destruct (isBlank s), (allWhiteSpace s); try reflexivity.
    - symmetry. now apply H.
    - now apply H. }
  unfold Binary64.Player.new, GachaItem.new. rewrite !Hb.
  split; [reflexivity|]. split; [|split; [reflexivity|]].
  - destruct (allWhiteSpace id), (allWhiteSpace name),
      (currency <? 0)%float;
      split; try (intros [p Hp]; discriminate);
      try (intros (H1 & H2 & H3); discriminate).
    + intros _. repeat split.
    + intros _. eexists. reflexivity.
  - destruct (allWhiteSpace id), (allWhiteSpace name);
      split; try (intros [p Hp]; discriminate);
      try (intros (H1 & H2); discriminate).
    + intros _. split; reflexivity.
    + intros _. eexists. reflexivity.
Qed.

(** The ids below are: three spaces; the empty string; the ideographic
    space U+3000; a no-break space U+00A0 followed by a byte order mark
    U+FEFF; the zero width space U+200B, which is not white space. *)
Example blank_ids_are_rejected :
  Player.new "   " "タロウ" 2000 = inl PlayerIdEmpty /\
  Player.new "" "" (-1) = inl PlayerIdEmpty /\
  Player.new "　" "タロウ" 2000 = inl PlayerIdEmpty /\
  Player.new " ﻿" "タロウ" 2000 = inl PlayerIdEmpty /\
  Player.new "​" "タロウ" 2000 =
  inr (Player.mk "​" "タロウ" 2000 [] []) /\
  Player.new "p" "  " (-1) = inl PlayerNameEmpty /\
  Player.new " p " "n" (-1) = inl NegativeGachaCurrency /\
  codePoints "　 ﻿​" = [0x3000; 0xA0; 0xFEFF; 0x200B]%N /\
  Binary64.Player.new "　" "タロウ" 2000 =
  inl Binary64.Player.PlayerIdEmpty /\
  Binary64.Player.new "p" "n" (-1) =
  inl Binary64.Player.NegativeGachaCurrency.
Proof. vm_compute. repeat split. Qed.
